(** * Clerk migration scripts

    A shallow embedding of [src/index.ts] (user migration) and
    [src/index-org.ts] (organization migration), and the properties of the
    migration driver: throttling, outcome classification, the rate-limit
    retry, the counters and the failure log.

    Both scripts are asynchronous JavaScript running on a single thread.
    Every [await] is sequential, so an [async] function is embedded as a
    state-passing function that ends in a value, in a thrown error, or (for
    the unbounded retry) runs out of fuel. *)

From Stdlib Require Import ZArith String Ascii List Bool Lia DecimalString.
From stdpp Require Import base option list strings gmap.

Open Scope string_scope.
Open Scope list_scope.
Open Scope Z_scope.

Set Warnings "-register-all".

(** ** JavaScript values and the builtins the scripts use

    A JavaScript string is a sequence of code units; [string] stands for it
    with one character per code unit, so [String.length] is [s.length]. The
    counters are JavaScript numbers that only ever hold small non-negative
    integers; they are integers here. *)

Module JS.

(** A value produced by [JSON.parse]. The payload of a number is never
    inspected by the scripts; an object keeps its entries in order and
    [get] reads the first entry of a key. *)
Inductive json :=
| JNull
| JBool (b : bool)
| JNum (n : Z)
| JStr (s : string)
| JArr (items : list json)
| JObj (fields : list (string * json)).

(** The result of [parseInt]: an integer or [NaN]. *)
Inductive jsnum :=
| NaN
| Num (z : Z).

Fixpoint assoc (k : string) (fields : list (string * json)) : option json :=
  match fields with
  | [] => None
  | (k', v) :: rest => if String.eqb k k' then Some v else assoc k rest
  end.

(** [v[k]] on a value that is neither [null] nor [undefined]; [None] is
    [undefined]. Strings, numbers, booleans and arrays have no property
    named like a record field. *)
Definition get (v : json) (k : string) : option json :=
  match v with
  | JObj fields => assoc k fields
  | _ => None
  end.

(** [a ?? b] *)
Definition nullish {A} (a : option A) (b : A) : A :=
  match a with
  | Some x => x
  | None => b
  end.

(** [s.split(sep)] for a one-character separator. *)
Fixpoint split (sep : ascii) (s : string) : list string :=
  match s with
  | EmptyString => [EmptyString]
  | String c rest =>
      if Ascii.eqb c sep then EmptyString :: split sep rest
      else match split sep rest with
           | [] => [String c EmptyString]
           | piece :: pieces => String c piece :: pieces
           end
  end.

(** [s.startsWith(p)] *)
Definition startsWith (s p : string) : bool := String.prefix p s.

(** [arr.slice(start)]: a negative start counts from the end, [NaN] is 0,
    and the start is clamped to the array. *)
Definition slice {A} (start : jsnum) (arr : list A) : list A :=
  let len := Z.of_nat (length arr) in
  let relativeStart := match start with NaN => 0 | Num z => z end in
  let k := if relativeStart <? 0 then Z.max (len + relativeStart) 0
           else Z.min relativeStart len in
  drop (Z.to_nat k) arr.

(** Numbers inside template literals. *)
Definition string_of_Z (z : Z) : string :=
  NilZero.string_of_int (Z.to_int z).

Definition string_of_jsnum (x : jsnum) : string :=
  match x with
  | NaN => "NaN"
  | Num z => string_of_Z z
  end.

End JS.

Export JS.

(** ** Errors *)

(** One issue of a [ZodError]. *)
Record ZodIssue := { issue_code : string; issue_path : list string }.

(** What a [catch] clause can receive. [ApiError] is a rejection of a Clerk
    SDK call; its [status] is the HTTP status when there is one (a network
    failure has none). *)
Inductive jserror :=
| Error (message : string)
| TypeError (message : string)
| ZodError (issues : list ZodIssue)
| ApiError (status : option Z) (detail : string).

(** [error.status] *)
Definition error_status (error : jserror) : option Z :=
  match error with
  | ApiError status _ => status
  | _ => None
  end.

(** [error.status === n] *)
Definition status_is (error : jserror) (n : Z) : bool :=
  match error_status error with
  | Some s => s =? n
  | None => false
  end.

(** ** The Clerk SDK interface *)

Module Clerk.

Record MongoId := { oid : string }.

Record UserPrivateMetadata := {
  upm_mongoId : MongoId;
  upm_organizationId : option string;
  upm_mobileOrganizationId : option string }.

Record UserPublicMetadata := {
  roleId : string;
  locale : string;
  superAdmin : bool }.

(** The argument of [clerkClient.users.createUser]. *)
Record CreateUserParams := {
  externalId : string;
  emailAddress : list string;
  firstName : option string;
  lastName : option string;
  privateMetadata : UserPrivateMetadata;
  publicMetadata : UserPublicMetadata;
  password : option string;
  skipPasswordRequirement : option bool }.

Record OrgPrivateMetadata := {
  opm_mongoId : MongoId;
  opm_external_id : string }.

(** The argument of [clerkClient.organizations.createOrganization]. *)
Record CreateOrganizationParams := {
  name : string;
  createdBy : string;
  org_privateMetadata : OrgPrivateMetadata }.

(** A user as returned by [clerkClient.users.getUserList]. *)
Record ClerkUser := { id : string }.

End Clerk.

(** ** The environment of a run *)

(** Everything outside the two source files: the process, the JavaScript
    builtins that are not modelled, the input file, zod's e-mail check and
    the remote service behind the Clerk SDK. The remote service has a state
    of its own ([world]); each SDK call answers and moves it on. *)
Class Platform := {
  process_env : gmap string string;
  process_argv2 : option string;
  parseInt : string -> jsnum;
  (** milliseconds that pass until a [setTimeout] of the given delay fires *)
  timer : jsnum -> Z;
  (** [JSON.parse(fs.readFileSync(name, "utf-8"))], for a file holding an array *)
  readJSON : string -> jserror + list json;
  zod_email : string -> bool;
  world : Type;
  users_createUser : Clerk.CreateUserParams -> world -> (jserror + string) * world;
  users_getUserList : string -> world -> (jserror + list Clerk.ClerkUser) * world;
  organizations_createOrganization :
    Clerk.CreateOrganizationParams -> world -> (jserror + string) * world }.

(** ** Program state and the monad of asynchronous code *)

Module Rt.

(** What the scripts do to the outside, in order. [EvProcess] marks the
    call of [processUserToClerk] / [processOrganizationToClerk] from the
    loop of [main]. *)
Inductive event :=
| EvReadFile (fileName : string)
| EvSleep (ms : jsnum)
| EvProcess (record : json)
| EvCreateUser (params : Clerk.CreateUserParams)
| EvGetUserList (email : string)
| EvCreateOrganization (params : Clerk.CreateOrganizationParams)
| EvConsoleError (message : string) (error : jserror).

(** One [appendLog] payload: [{ <key>: record._id, ...error }]. *)
Record LogEntry := {
  log_key : string;
  log_id : option json;
  log_error : jserror }.

(** How an asynchronous computation ends: its promise is fulfilled, it is
    rejected, or the computation is still retrying when the fuel is used up. *)
Inductive outcome (A : Type) :=
| Ok (a : A)
| Throw (error : jserror)
| OutOfFuel.

Arguments Ok {A} a.
Arguments Throw {A} error.
Arguments OutOfFuel {A}.

Section State.
Context `{Platform}.

Record state := {
  migrated : Z;
  alreadyExists : Z;
  logfile : list LogEntry;
  console : list string;
  spinner_text : string;
  clock : Z;
  trace : list event;
  remote : world }.

Definition M (A : Type) : Type := state -> outcome A * state.

Definition ret {A} (a : A) : M A := fun st => (Ok a, st).

Definition throw {A} (error : jserror) : M A := fun st => (Throw error, st).

Definition out_of_fuel {A} : M A := fun st => (OutOfFuel, st).

Definition bind {A B} (c : M A) (k : A -> M B) : M B :=
  fun st =>
    match c st with
    | (Ok a, st') => k a st'
    | (Throw error, st') => (Throw error, st')
    | (OutOfFuel, st') => (OutOfFuel, st')
    end.

(** [try { c } catch (error) { handler }] *)
Definition try_catch {A} (c : M A) (handler : jserror -> M A) : M A :=
  fun st =>
    match c st with
    | (Throw error, st') => handler error st'
    | other => other
    end.

(** *** State changes *)

Definition recorded (ev : event) (st : state) : state :=
  {| migrated := migrated st; alreadyExists := alreadyExists st;
     logfile := logfile st; console := console st;
     spinner_text := spinner_text st; clock := clock st;
     trace := trace st ++ [ev]; remote := remote st |}.

Definition printed (line : string) (st : state) : state :=
  {| migrated := migrated st; alreadyExists := alreadyExists st;
     logfile := logfile st; console := console st ++ [line];
     spinner_text := spinner_text st; clock := clock st;
     trace := trace st; remote := remote st |}.

Definition with_spinner (text : string) (st : state) : state :=
  {| migrated := migrated st; alreadyExists := alreadyExists st;
     logfile := logfile st; console := console st;
     spinner_text := text; clock := clock st;
     trace := trace st; remote := remote st |}.

Definition one_more_migrated (st : state) : state :=
  {| migrated := migrated st + 1; alreadyExists := alreadyExists st;
     logfile := logfile st; console := console st;
     spinner_text := spinner_text st; clock := clock st;
     trace := trace st; remote := remote st |}.

Definition one_more_alreadyExists (st : state) : state :=
  {| migrated := migrated st; alreadyExists := alreadyExists st + 1;
     logfile := logfile st; console := console st;
     spinner_text := spinner_text st; clock := clock st;
     trace := trace st; remote := remote st |}.

Definition logged (payload : LogEntry) (st : state) : state :=
  {| migrated := migrated st; alreadyExists := alreadyExists st;
     logfile := logfile st ++ [payload]; console := console st;
     spinner_text := spinner_text st; clock := clock st;
     trace := trace st; remote := remote st |}.

Definition slept (ms : jsnum) (st : state) : state :=
  {| migrated := migrated st; alreadyExists := alreadyExists st;
     logfile := logfile st; console := console st;
     spinner_text := spinner_text st; clock := clock st + timer ms;
     trace := trace st ++ [EvSleep ms]; remote := remote st |}.

Definition answered (ev : event) (w : world) (st : state) : state :=
  {| migrated := migrated st; alreadyExists := alreadyExists st;
     logfile := logfile st; console := console st;
     spinner_text := spinner_text st; clock := clock st;
     trace := trace st ++ [ev]; remote := w |}.

(** *** Primitive computations *)

Definition modify (change : state -> state) : M unit :=
  fun st => (Ok tt, change st).

(** Recording a step that has no other effect. *)
Definition emit (ev : event) : M unit := modify (recorded ev).

(** [console.log(line)] *)
Definition console_log (line : string) : M unit := modify (printed line).

(** [console.error(message, error)] *)
Definition console_error (message : string) (error : jserror) : M unit :=
  emit (EvConsoleError message error).

(** [spinner.text] *)
Definition get_spinner_text : M string :=
  fun st => (Ok (spinner_text st), st).

(** [spinner.text = text] *)
Definition set_spinner_text (text : string) : M unit :=
  modify (with_spinner text).

(** [migrated++] *)
Definition incr_migrated : M unit := modify one_more_migrated.

(** [alreadyExists++] *)
Definition incr_alreadyExists : M unit := modify one_more_alreadyExists.

(** [fs.appendFileSync] on the log file of the run: one more entry at the
    end. The write itself is taken to succeed. *)
Definition appendLog (payload : LogEntry) : M unit := modify (logged payload).

(** [await new Promise((r) => setTimeout(r, ms))] *)
Definition sleep (ms : jsnum) : M unit := modify (slept ms).

(** A call of the SDK: the request is recorded, the remote service answers
    and moves on; a rejection is thrown. *)
Definition remote_call {A} (ev : event)
    (op : world -> (jserror + A) * world) : M A :=
  fun st =>
    let (answer, w) := op (remote st) in
    match answer with
    | inl error => (Throw error, answered ev w st)
    | inr a => (Ok a, answered ev w st)
    end.

(** [record._id] inside a [catch] clause: reading a property of [null]
    throws a [TypeError]. *)
Definition member_id (record : json) : M (option json) :=
  match record with
  | JNull => throw (TypeError "Cannot read properties of null (reading '_id')")
  | _ => ret (get record "_id")
  end.

(** [JSON.parse(fs.readFileSync(fileName, "utf-8"))] *)
Definition read_input (fileName : string) : M (list json) :=
  fun st =>
    match readJSON fileName with
    | inl error => (Throw error, recorded (EvReadFile fileName) st)
    | inr records => (Ok records, recorded (EvReadFile fileName) st)
    end.

(** Reading a counter. *)
Definition get_migrated : M Z := fun st => (Ok (migrated st), st).

Definition get_alreadyExists : M Z := fun st => (Ok (alreadyExists st), st).

(** The state a script starts in: both counters are 0, nothing is logged
    or printed. *)
Definition initial (w : world) : state :=
  {| migrated := 0; alreadyExists := 0; logfile := []; console := [];
     spinner_text := ""; clock := 0; trace := []; remote := w |}.

End State.

End Rt.

Export Rt.

Notation "x <- c ;; k" := (bind c (fun x => k))
  (at level 100, c at next level, right associativity).
Notation "c ;;; k" := (bind c (fun _ => k))
  (at level 100, right associativity).

(** ** Zod schemas *)

Module Zod.

(** The result of parsing against a schema: the issues found, or the parsed
    value. *)
Definition parsed (A : Type) : Type := (list ZodIssue + A)%type.

(** A schema reads the value found at a path ([None] when the key is
    missing). *)
Definition schema (A : Type) : Type := list string -> option json -> parsed A.

Definition invalid_type (path : list string) : ZodIssue :=
  {| issue_code := "invalid_type"; issue_path := path |}.

Definition invalid_string (path : list string) : ZodIssue :=
  {| issue_code := "invalid_string"; issue_path := path |}.

(** The fields of an object are all parsed; their issues add up. *)
Definition ap {A B} (f : parsed (A -> B)) (x : parsed A) : parsed B :=
  match f, x with
  | inr g, inr a => inr (g a)
  | inl issues, inr _ => inl issues
  | inr _, inl issues => inl issues
  | inl issues, inl more => inl (issues ++ more)
  end.

(** [z.string()] *)
Definition z_string : schema string :=
  fun path v =>
    match v with
    | Some (JStr s) => inr s
    | _ => inl [invalid_type path]
    end.

(** [z.boolean()] *)
Definition z_boolean : schema bool :=
  fun path v =>
    match v with
    | Some (JBool b) => inr b
    | _ => inl [invalid_type path]
    end.

(** [inner.optional()] *)
Definition z_optional {A} (inner : schema A) : schema (option A) :=
  fun path v =>
    match v with
    | None => inr None
    | Some _ =>
        match inner path v with
        | inl issues => inl issues
        | inr a => inr (Some a)
        end
    end.

(** [z.object(shape)]: [shape] parses the entries of a plain object. *)
Definition z_object {A}
    (shape : list string -> list (string * json) -> parsed A) : schema A :=
  fun path v =>
    match v with
    | Some (JObj fields) => shape path fields
    | _ => inl [invalid_type path]
    end.

(** The entry of an object shape at [key]. *)
Definition field {A} (inner : schema A) (path : list string)
    (fields : list (string * json)) (key : string) : parsed A :=
  inner (path ++ [key]) (assoc key fields).

Section Email.
Context `{Platform}.

(** [z.string().email()] *)
Definition z_email : schema string :=
  fun path v =>
    match z_string path v with
    | inl issues => inl issues
    | inr s => if zod_email s then inr s else inl [invalid_string path]
    end.

End Email.

(** [z.object({ $oid: z.string() })] *)
Definition z_mongoId : schema Clerk.MongoId :=
  z_object (fun path fields =>
    ap (inr Clerk.Build_MongoId) (field z_string path fields "$oid")).

End Zod.

(** ** The migration driver

    [src/index.ts] and [src/index-org.ts] share their configuration, the
    start-up checks, the per-record function and [main] up to the names of
    the entity. They are embedded once, over the schema, the creation
    function and those names, and instantiated below. *)

Module Driver.

Section Driver.
Context `{Platform}.

(** *** Lines 9 to 25 of both files *)

Definition SECRET_KEY : option string := process_env !! "CLERK_SECRET_KEY".

Definition DELAY : jsnum :=
  parseInt (nullish (process_env !! "DELAY_MS") "1000").

Definition RETRY_DELAY : jsnum :=
  parseInt (nullish (process_env !! "RETRY_DELAY_MS") "10000").

Definition IMPORT_TO_DEV : string :=
  nullish (process_env !! "IMPORT_TO_DEV_INSTANCE") "false".

Definition OFFSET : jsnum :=
  parseInt (nullish (process_env !! "OFFSET") "0").

Definition key_required : string :=
  "CLERK_SECRET_KEY is required. Please copy .env.example to .env and add your key.".

Definition key_for_development : string :=
  "The Clerk Secret Key provided is for a development instance. Development instances are limited to 500 users and do not share their userbase with production instances. If you want to import users to your development instance, please set 'IMPORT_TO_DEV_INSTANCE' in your .env to 'true'.".

(** [SECRET_KEY.split("_")[1] !== "live"] *)
Definition not_live (key : string) : bool :=
  match split "_" key !! 1%nat with
  | Some segment => negb (String.eqb segment "live")
  | None => true
  end.

(** The two checks at the top of the module. [!SECRET_KEY] holds for a
    missing variable and for the empty string. *)
Definition startup : M unit :=
  match SECRET_KEY with
  | None => throw (Error key_required)
  | Some key =>
      if String.eqb key "" then throw (Error key_required)
      else if not_live key && String.eqb IMPORT_TO_DEV "false"
           then throw (Error key_for_development)
           else ret tt
  end.

(** *** The per-record function and [main] *)

Variable Valid : Type.
(** [schema.safeParse] *)
Variable safeParse : json -> Zod.parsed Valid.
(** [createUser] / [createOrganization] *)
Variable create : Valid -> M string.
(** the key of the record identifier in a conflict entry and in any other
    entry of the log *)
Variable conflict_key failure_key : string.
(** "users" / "organizations" *)
Variable entities : string.

Definition cooldown : M unit := sleep DELAY.

Definition rateLimitCooldown : M unit := sleep RETRY_DELAY.

(** [processUserToClerk] (index.ts, 104-131) and
    [processOrganizationToClerk] (index-org.ts, 83-114). The recursive call
    of the 429 branch spends one unit of fuel. *)
Fixpoint processToClerk (fuel : nat) (record : json) : M unit :=
  match fuel with
  | O => out_of_fuel
  | S fuel' =>
      txt <- get_spinner_text ;;
      try_catch
        (match safeParse record with
         | inl issues => throw (ZodError issues)
         | inr data => (_ <- create data ;; incr_migrated)
         end)
        (fun error =>
           if status_is error 422 then
             (recordId <- member_id record ;;
              appendLog {| log_key := conflict_key; log_id := recordId;
                           log_error := error |} ;;;
              incr_alreadyExists)
           else if status_is error 429 then
             (set_spinner_text
                (txt +:+ " - rate limit reached, waiting for "
                     +:+ string_of_jsnum RETRY_DELAY +:+ " ms") ;;;
              rateLimitCooldown ;;;
              set_spinner_text txt ;;;
              processToClerk fuel' record)
           else
             (recordId <- member_id record ;;
              appendLog {| log_key := failure_key; log_id := recordId;
                           log_error := error |}))
  end.

(** The [for ... of] loop of [main], with its counter [i]. *)
Fixpoint main_loop (fuel : nat) (total : Z) (records : list json) (i : Z)
    : M unit :=
  match records with
  | [] => ret tt
  | record :: rest =>
      set_spinner_text
        ("Migrating user " +:+ string_of_Z i +:+ "/" +:+ string_of_Z total
                           +:+ ", cooldown") ;;;
      cooldown ;;;
      let i := i + 1 in
      set_spinner_text
        ("Migrating user " +:+ string_of_Z i +:+ "/" +:+ string_of_Z total) ;;;
      emit (EvProcess record) ;;;
      processToClerk fuel record ;;;
      main_loop fuel total rest i
  end.

Definition main (fuel : nat) : M unit :=
  console_log "Clerk User Migration Utility" ;;;
  let inputFileName := nullish process_argv2 (entities +:+ ".json") in
  console_log ("Fetching " +:+ entities +:+ " from " +:+ inputFileName) ;;;
  parsedData <- read_input inputFileName ;;
  let offsetRecords := slice OFFSET parsedData in
  console_log
    (entities +:+ ".json found and parsed, attempting migration with an offset of "
              +:+ string_of_jsnum OFFSET) ;;;
  set_spinner_text "Migrating users" ;;;
  main_loop fuel (Z.of_nat (length offsetRecords)) offsetRecords 0 ;;;
  set_spinner_text "Migration complete".

(** The [then] callback that prints the summary. *)
Definition summary : M unit :=
  m <- get_migrated ;;
  console_log (string_of_Z m +:+ " " +:+ entities +:+ " migrated") ;;;
  a <- get_alreadyExists ;;
  console_log (string_of_Z a +:+ " " +:+ entities +:+ " failed to upload").

(** The whole module, top to bottom: the checks, then
    [main().then(summary)]. *)
Definition script (fuel : nat) : M unit :=
  startup ;;;
  main fuel ;;;
  summary.

End Driver.

End Driver.

(** ** [src/index.ts]: users *)

Module IndexTs.

Record User := {
  _id : Clerk.MongoId;
  email : string;
  first_name : option string;
  last_name : option string;
  phone : option string;
  password : option string;
  organization_id : option string;
  locale : option string;
  mobile_organization_id : option string;
  role_id : option string;
  super_admin : option bool }.

Section IndexTs.
Context `{Platform}.

Import Zod.

Definition userSchema : schema User :=
  z_object (fun path fields =>
    ap (ap (ap (ap (ap (ap (ap (ap (ap (ap (ap (inr Build_User)
      (field z_mongoId path fields "_id"))
      (field z_email path fields "email"))
      (field (z_optional z_string) path fields "first_name"))
      (field (z_optional z_string) path fields "last_name"))
      (field (z_optional z_string) path fields "phone"))
      (field (z_optional z_string) path fields "password"))
      (field (z_optional z_string) path fields "organization_id"))
      (field (z_optional z_string) path fields "locale"))
      (field (z_optional z_string) path fields "mobile_organization_id"))
      (field (z_optional z_string) path fields "role_id"))
      (field (z_optional z_boolean) path fields "super_admin")).

(** [userSchema.safeParse(userData)] *)
Definition safeParse (userData : json) : parsed User :=
  userSchema [] (Some userData).

(** [clerkClient.users.createUser(params)] *)
Definition clerk_users_createUser (params : Clerk.CreateUserParams) : M string :=
  remote_call (EvCreateUser params) (users_createUser params).

(** [s.length >= 8] *)
Definition at_least_8 (s : string) : bool := (8 <=? String.length s)%nat.

(** [userData.password] as a condition: a non-empty string. *)
Definition truthy (s : option string) : bool :=
  match s with
  | None => false
  | Some text => negb (String.eqb text "")
  end.

Definition createUser (userData : User) : M string :=
  let externalId := Clerk.oid (_id userData) in
  let privateMetaData :=
    {| Clerk.upm_mongoId := _id userData;
       Clerk.upm_organizationId := organization_id userData;
       Clerk.upm_mobileOrganizationId := mobile_organization_id userData |} in
  let publicMetadata :=
    {| Clerk.roleId := nullish (role_id userData) "5be5659706b068f4f1f2dd53";
       Clerk.locale := nullish (locale userData) "sv";
       Clerk.superAdmin := nullish (super_admin userData) false |} in
  if truthy (password userData)
     && at_least_8 (nullish (password userData) "")
     && startsWith (nullish (password userData) "") "123"
  then
    clerk_users_createUser
      {| Clerk.externalId := externalId;
         Clerk.emailAddress := [email userData];
         Clerk.firstName := first_name userData;
         Clerk.lastName := last_name userData;
         Clerk.privateMetadata := privateMetaData;
         Clerk.publicMetadata := publicMetadata;
         Clerk.password := password userData;
         Clerk.skipPasswordRequirement := None |}
  else
    clerk_users_createUser
      {| Clerk.externalId := externalId;
         Clerk.emailAddress := [email userData];
         Clerk.firstName := first_name userData;
         Clerk.lastName := last_name userData;
         Clerk.privateMetadata := privateMetaData;
         Clerk.publicMetadata := publicMetadata;
         Clerk.password := None;
         Clerk.skipPasswordRequirement := Some true |}.

Definition processUserToClerk : nat -> json -> M unit :=
  Driver.processToClerk User safeParse createUser "userId" "userId".

Definition main : nat -> M unit :=
  Driver.main User safeParse createUser "userId" "userId" "users".

Definition script : nat -> M unit :=
  Driver.script User safeParse createUser "userId" "userId" "users".

End IndexTs.

End IndexTs.

(** ** [src/index-org.ts]: organizations *)

Module IndexOrgTs.

Record Organization := {
  _id : Clerk.MongoId;
  organization_name : string;
  email : string }.

Section IndexOrgTs.
Context `{Platform}.

Import Zod.

Definition organizationSchema : schema Organization :=
  z_object (fun path fields =>
    ap (ap (ap (inr Build_Organization)
      (field z_mongoId path fields "_id"))
      (field z_string path fields "organization_name"))
      (field z_string path fields "email")).

(** [organizationSchema.safeParse(organizationData)] *)
Definition safeParse (organizationData : json) : parsed Organization :=
  organizationSchema [] (Some organizationData).

(** The empty string stands for "no such user". *)
Definition getUserByEmail (email : string) : M string :=
  try_catch
    (users <- remote_call (EvGetUserList email) (users_getUserList email) ;;
     let user := match users with first :: _ => Some first | [] => None end in
     let userId := match user with Some found => Clerk.id found | None => "" end in
     ret userId)
    (fun error =>
       console_error "Error fetching user:" error ;;;
       ret "").

Definition createOrganization (organizationData : Organization) : M string :=
  let externalId := Clerk.oid (_id organizationData) in
  let privateMetaData :=
    {| Clerk.opm_mongoId := _id organizationData;
       Clerk.opm_external_id := externalId |} in
  createdBy <- getUserByEmail (email organizationData) ;;
  let params :=
    {| Clerk.name := organization_name organizationData;
       Clerk.createdBy := createdBy;
       Clerk.org_privateMetadata := privateMetaData |} in
  remote_call (EvCreateOrganization params)
              (organizations_createOrganization params).

Definition processOrganizationToClerk : nat -> json -> M unit :=
  Driver.processToClerk Organization safeParse createOrganization
                        "organizationId" "userId".

Definition main : nat -> M unit :=
  Driver.main Organization safeParse createOrganization
              "organizationId" "userId" "organizations".

Definition script : nat -> M unit :=
  Driver.script Organization safeParse createOrganization
                "organizationId" "userId" "organizations".

End IndexOrgTs.

End IndexOrgTs.

(** ** Scripted environments

    Concrete platforms on which the scripts run by computation: the remote
    service answers creation calls and look-ups from two scripts and accepts
    every call once its script is used up. *)

Module Scenario.

Definition digit_value (c : ascii) : option Z :=
  let n := Z.of_N (N_of_ascii c) in
  if (48 <=? n) && (n <=? 57) then Some (n - 48) else None.

Fixpoint read_digits (s : string) (acc : option Z) : option Z :=
  match s with
  | EmptyString => acc
  | String c rest =>
      match digit_value c with
      | Some d => read_digits rest (Some (10 * nullish acc 0 + d))
      | None => acc
      end
  end.

(** [parseInt] on a decimal numeral with an optional sign. *)
Definition parse_decimal (s : string) : jsnum :=
  match s with
  | String "-" rest =>
      match read_digits rest None with
      | Some z => Num (- z)
      | None => NaN
      end
  | _ =>
      match read_digits s None with
      | Some z => Num z
      | None => NaN
      end
  end.

(** A timer that fires after the delay it was given, and after one
    millisecond when the delay is below 1 or not a number. *)
Definition plain_timer (ms : jsnum) : Z :=
  match ms with
  | NaN => 1
  | Num z => Z.max 1 z
  end.

(** An address with an at sign in it. *)
Fixpoint has_at (s : string) : bool :=
  match s with
  | EmptyString => false
  | String c rest => Ascii.eqb c "@" || has_at rest
  end.

Record script_world := {
  creations : list (jserror + string);
  lookups : list (jserror + list Clerk.ClerkUser) }.

Definition answer_creation (w : script_world)
    : (jserror + string) * script_world :=
  match creations w with
  | [] => (inr "created", w)
  | answer :: rest => (answer, {| creations := rest; lookups := lookups w |})
  end.

Definition answer_lookup (w : script_world)
    : (jserror + list Clerk.ClerkUser) * script_world :=
  match lookups w with
  | [] => (inr [], w)
  | answer :: rest => (answer, {| creations := creations w; lookups := rest |})
  end.

Definition scripted (env : list (string * string)) (argv2 : option string)
    (file : jserror + list json) : Platform :=
  {| process_env := list_to_map env;
     process_argv2 := argv2;
     parseInt := parse_decimal;
     timer := plain_timer;
     readJSON := fun _ => file;
     zod_email := has_at;
     world := script_world;
     users_createUser := fun _ => answer_creation;
     users_getUserList := fun _ => answer_lookup;
     organizations_createOrganization := fun _ => answer_creation |}.

Definition rate_limited : jserror + string :=
  inl (ApiError (Some 429) "Too Many Requests").

Definition conflict : jserror + string :=
  inl (ApiError (Some 422) "Unprocessable Entity").

Definition live_env : list (string * string) :=
  [("CLERK_SECRET_KEY", "sk_live_abc")].

Definition user_record (oid email : string) : json :=
  JObj [("_id", JObj [("$oid", JStr oid)]); ("email", JStr email)].

Definition org_record (oid name email : string) : json :=
  JObj [("_id", JObj [("$oid", JStr oid)]);
        ("organization_name", JStr name); ("email", JStr email)].

(** The example of the specification: the first record is created, the
    second fails validation, the third is rate limited once. *)
Definition three_users : list json :=
  [user_record "a1" "ann@example.org";
   user_record "b2" "not-an-address";
   user_record "c3" "cy@example.org"].

Definition three_users_world : script_world :=
  {| creations := [inr "user_1"; rate_limited; inr "user_3"]; lookups := [] |}.

Definition users_platform : Platform :=
  scripted live_env None (inr three_users).

(** The same file read from an offset. *)
Definition offset_platform (offset : string) : Platform :=
  scripted (live_env ++ [("OFFSET", offset)]) None (inr three_users).

(** A file with [null] in the place of a record. *)
Definition null_platform : Platform :=
  scripted live_env None (inr [JNull; user_record "a1" "ann@example.org"]).

Definition cy_record : json := user_record "c3" "cy@example.org".

Definition cy : IndexTs.User :=
  {| IndexTs._id := {| Clerk.oid := "c3" |};
     IndexTs.email := "cy@example.org";
     IndexTs.first_name := None;
     IndexTs.last_name := None;
     IndexTs.phone := None;
     IndexTs.password := None;
     IndexTs.organization_id := None;
     IndexTs.locale := None;
     IndexTs.mobile_organization_id := None;
     IndexTs.role_id := None;
     IndexTs.super_admin := None |}.

Definition bad_record : json := user_record "b2" "not-an-address".

Definition acme_record : json := org_record "o1" "Acme" "ann@example.org".

Definition acme : IndexOrgTs.Organization :=
  {| IndexOrgTs._id := {| Clerk.oid := "o1" |};
     IndexOrgTs.organization_name := "Acme";
     IndexOrgTs.email := "ann@example.org" |}.

Definition organizations_platform : Platform :=
  scripted live_env None (inr [acme_record]).

Definition quiet_world : script_world := {| creations := []; lookups := [] |}.

(** The user [cy] with a legacy password. *)
Definition cy_with_password (pw : string) : IndexTs.User :=
  {| IndexTs._id := {| Clerk.oid := "c3" |};
     IndexTs.email := "cy@example.org";
     IndexTs.first_name := None;
     IndexTs.last_name := None;
     IndexTs.phone := None;
     IndexTs.password := Some pw;
     IndexTs.organization_id := None;
     IndexTs.locale := None;
     IndexTs.mobile_organization_id := None;
     IndexTs.role_id := None;
     IndexTs.super_admin := None |}.

(** The password and the skip flag of the creation requests in a trace. *)
Definition password_fields (events : list event)
    : list (option string * option bool) :=
  flat_map (fun ev =>
    match ev with
    | EvCreateUser params =>
        [(Clerk.password params, Clerk.skipPasswordRequirement params)]
    | _ => []
    end) events.

Definition twice_limited_world : script_world :=
  {| creations := [rate_limited; rate_limited; inr "made"]; lookups := [] |}.

Definition conflict_world : script_world :=
  {| creations := [conflict]; lookups := [] |}.

Definition lookup_down_world : script_world :=
  {| creations := [];
     lookups := [inl (ApiError (Some 500) "Internal Server Error")] |}.

(** Environments for the start-up checks. *)
Definition no_key_platform : Platform :=
  scripted [] None (inr three_users).

Definition test_key_platform : Platform :=
  scripted [("CLERK_SECRET_KEY", "sk_test_abc")] None (inr three_users).

(** A remote service without rate limit: every creation is rejected as a
    conflict when the flag of its state is set and accepted otherwise, and
    then the flag flips. *)
Definition alternating_platform (file : list json) : Platform :=
  {| process_env := list_to_map live_env;
     process_argv2 := Some "export.json";
     parseInt := parse_decimal;
     timer := plain_timer;
     readJSON := fun _ => inr file;
     zod_email := has_at;
     world := bool;
     users_createUser := fun _ w =>
       (if w then conflict else inr "created", negb w);
     users_getUserList := fun _ w => (inr [], w);
     organizations_createOrganization := fun _ w =>
       (if w then conflict else inr "created", negb w) |}.

(** A platform whose input file cannot be read. *)
Definition missing_file_platform : Platform :=
  scripted live_env None (inl (Error "ENOENT: no such file or directory")).

(** A test key with the import into a development instance switched on by
    a flag that is not the word true. *)
Definition flagged_platform : Platform :=
  scripted [("CLERK_SECRET_KEY", "sk_test_abc");
            ("IMPORT_TO_DEV_INSTANCE", "0")] None (inr three_users).

(** An environment whose [OFFSET] is not a number. *)
Definition unreadable_offset_platform : Platform :=
  scripted (live_env ++ [("OFFSET", "two")]) None (inr three_users).

(** A user record with a field that no schema names and a user record whose
    phone is [null]. *)
Definition annotated_record : json :=
  JObj [("_id", JObj [("$oid", JStr "c3")]); ("legacy_flags", JNum 7);
        ("email", JStr "cy@example.org")].

Definition null_phone_record : json :=
  JObj [("_id", JObj [("$oid", JStr "c3")]); ("email", JStr "cy@example.org");
        ("phone", JNull)].

Definition server_error : jserror + string :=
  inl (ApiError (Some 500) "Internal Server Error").

Definition failing_world : script_world :=
  {| creations := [server_error]; lookups := [] |}.

Definition limited_then_conflict_world : script_world :=
  {| creations := [rate_limited; rate_limited; conflict]; lookups := [] |}.

Definition found_world : script_world :=
  {| creations := [];
     lookups := [inr [{| Clerk.id := "user_9" |}; {| Clerk.id := "user_10" |}]] |}.

(** Two organizations read from an offset. *)
Definition two_organizations : list json :=
  [acme_record; org_record "o2" "Bolt" "bo@example.org"].

Definition organizations_offset_platform (offset : string) : Platform :=
  scripted (live_env ++ [("OFFSET", offset)]) None (inr two_organizations).

(** A key without any underscore. *)
Definition plain_key_platform : Platform :=
  scripted [("CLERK_SECRET_KEY", "secret")] None (inr three_users).

(** The timers of Node: a delay that is not a number, below 1 or above
    2^31 - 1 is set to 1. *)
Definition node_timer (ms : jsnum) : Z :=
  match ms with
  | NaN => 1
  | Num z => if (1 <=? z) && (z <=? 2147483647) then z else 1
  end.

(** The three users under the timers of Node, with a delay of 2^31
    milliseconds between the records. *)
Definition long_delay_platform : Platform :=
  {| process_env := list_to_map (live_env ++ [("DELAY_MS", "2147483648")]);
     process_argv2 := None;
     parseInt := parse_decimal;
     timer := node_timer;
     readJSON := fun _ => inr three_users;
     zod_email := has_at;
     world := script_world;
     users_createUser := fun _ => answer_creation;
     users_getUserList := fun _ => answer_lookup;
     organizations_createOrganization := fun _ => answer_creation |}.

End Scenario.

(** ** Reading a run *)

Module Obs.

(** A log entry written for a 422 answer carries that status; every other
    entry records a permanent failure. *)
Definition is_conflict_entry (entry : LogEntry) : bool :=
  status_is (log_error entry) 422.

Definition permanent_failures (log : list LogEntry) : Z :=
  Z.of_nat
    (length (List.filter (fun entry => negb (is_conflict_entry entry)) log)).

(** The records that [main] handed to the per-record function, in order. *)
Fixpoint processed (events : list event) : list json :=
  match events with
  | [] => []
  | EvProcess record :: rest => record :: processed rest
  | _ :: rest => processed rest
  end.

(** A request to the remote service, or the report of a failed look-up. *)
Definition is_remote (ev : event) : bool :=
  match ev with
  | EvCreateUser _ | EvGetUserList _ | EvCreateOrganization _
  | EvConsoleError _ _ => true
  | _ => false
  end.

(** A creation request. *)
Definition is_creation (ev : event) : bool :=
  match ev with
  | EvCreateUser _ | EvCreateOrganization _ => true
  | _ => false
  end.

(** The creation requests of a trace, in order. *)
Definition creation_requests (events : list event) : list event :=
  List.filter is_creation events.

(** The delays of the sleeps of a trace, in order. *)
Fixpoint sleeps (events : list event) : list jsnum :=
  match events with
  | [] => []
  | EvSleep ms :: rest => ms :: sleeps rest
  | _ :: rest => sleeps rest
  end.

(** What the per-record function may do: talk to the remote service and
    sleep. *)
Definition is_attempt (ev : event) : bool :=
  match ev with
  | EvSleep _ => true
  | _ => is_remote ev
  end.

(** The trace of a loop over [records] in which the work on the j-th record
    left the events [bodies !! j]: each record has a block of its own, and
    the block opens with the sleep of [delay] and the hand-over. A record
    without a body was not reached. *)
Fixpoint blocks (delay : jsnum) (records : list json)
    (bodies : list (list event)) : list event :=
  match records, bodies with
  | record :: records', body :: bodies' =>
      EvSleep delay :: EvProcess record :: body ++ blocks delay records' bodies'
  | _, _ => []
  end.

(** The conflict entries of a log. *)
Definition conflicts_logged (log : list LogEntry) : Z :=
  Z.of_nat (length (List.filter is_conflict_entry log)).

(** The addresses looked up in a trace, in order. *)
Fixpoint lookup_requests (events : list event) : list string :=
  match events with
  | [] => []
  | EvGetUserList email :: rest => email :: lookup_requests rest
  | _ :: rest => lookup_requests rest
  end.

(** Whether a character occurs in a string. *)
Fixpoint contains (c : ascii) (s : string) : bool :=
  match s with
  | EmptyString => false
  | String c' rest => Ascii.eqb c' c || contains c rest
  end.

(** What a schema finds at a key of a record, against the field of the
    parsed value: a string that is required, a string or a boolean that may
    be missing, and the [_id] object with its [$oid]. *)
Definition reads_string (v : option json) (s : string) : Prop :=
  v = Some (JStr s).

Definition reads_optional_string (v : option json) (o : option string) : Prop :=
  match v with
  | None => o = None
  | Some (JStr s) => o = Some s
  | Some _ => False
  end.

Definition reads_optional_boolean (v : option json) (o : option bool) : Prop :=
  match v with
  | None => o = None
  | Some (JBool b) => o = Some b
  | Some _ => False
  end.

Definition reads_mongoId (v : option json) (m : Clerk.MongoId) : Prop :=
  exists fields,
    v = Some (JObj fields) /\ assoc "$oid" fields = Some (JStr (Clerk.oid m)).

(** The keys the two schemas name. *)
Definition user_keys : list string :=
  ["_id"; "email"; "first_name"; "last_name"; "phone"; "password";
   "organization_id"; "locale"; "mobile_organization_id"; "role_id";
   "super_admin"].

Definition organization_keys : list string :=
  ["_id"; "organization_name"; "email"].

Section WithPlatform.
Context `{Platform}.

(** The three buckets of the accounting. *)
Definition accounted (st : state) : Z :=
  migrated st + alreadyExists st + permanent_failures (logfile st).

(** The time the sleeps of a trace take. *)
Fixpoint slept_time (events : list event) : Z :=
  match events with
  | [] => 0
  | EvSleep ms :: rest => timer ms + slept_time rest
  | _ :: rest => slept_time rest
  end.

(** [st'] differs from [st] by calls to the remote service only. *)
Definition remote_step (st st' : state) : Prop :=
  migrated st' = migrated st /\
  alreadyExists st' = alreadyExists st /\
  logfile st' = logfile st /\
  console st' = console st /\
  spinner_text st' = spinner_text st /\
  clock st' = clock st /\
  exists events,
    trace st' = trace st ++ events /\ forallb is_remote events = true.

(** A computation that ends and only talks to the remote service. *)
Definition remote_only {A} (c : M A) : Prop :=
  forall st, fst (c st) <> OutOfFuel /\ remote_step st (snd (c st)).

(** [st'] differs from [st] by the work on one record: the console and the
    spinner are as before, and the clock has advanced by the sleeps. *)
Definition attempt_step (st st' : state) : Prop :=
  console st' = console st /\
  spinner_text st' = spinner_text st /\
  exists body,
    trace st' = trace st ++ body /\
    forallb is_attempt body = true /\
    clock st' = clock st + slept_time body.

(** The state in which the creation is attempted again after a 429 answer
    left [st1]: the cool-down has been slept and the spinner shows [txt]
    again. *)
Definition cooled_down (txt : string) (st1 : state) : state :=
  with_spinner txt
    (slept Driver.RETRY_DELAY
       (with_spinner
          (txt +:+ " - rate limit reached, waiting for "
               +:+ string_of_jsnum Driver.RETRY_DELAY +:+ " ms") st1)).

(** The state in which the attempt number [m] (from 0) on a record starts,
    when every earlier attempt went into the 429 branch. *)
Fixpoint before_attempt {Valid : Type} (create : Valid -> M string)
    (data : Valid) (m : nat) (st : state) : state :=
  match m with
  | O => st
  | S m' =>
      before_attempt create data m'
        (cooled_down (spinner_text st) (snd (create data st)))
  end.

(** The name of the input file: [process.argv[2] ?? "<entities>.json"]. *)
Definition input_file (entities : string) : string :=
  nullish process_argv2 (entities +:+ ".json").

(** The state in which the loop of [main] starts: three lines are printed,
    the file is read and the spinner runs. *)
Definition started (entities : string) (st : state) : state :=
  with_spinner "Migrating users"
    (printed
       (entities
          +:+ ".json found and parsed, attempting migration with an offset of "
          +:+ string_of_jsnum Driver.OFFSET)
       (recorded (EvReadFile (input_file entities))
          (printed ("Fetching " +:+ entities +:+ " from " +:+ input_file entities)
             (printed "Clerk User Migration Utility" st)))).

(** The state after the summary, when the loop of [main] ended in [st1]. *)
Definition summarised (entities : string) (st1 : state) : state :=
  printed (string_of_Z (alreadyExists st1) +:+ " " +:+ entities
             +:+ " failed to upload")
    (printed (string_of_Z (migrated st1) +:+ " " +:+ entities +:+ " migrated")
       (with_spinner "Migration complete" st1)).

(** The state in which a record is handed to the per-record function: the
    throttle sleep is over and the spinner counts the record. *)
Definition handed_over (record : json) (total i : Z) (st : state) : state :=
  recorded (EvProcess record)
    (with_spinner
       ("Migrating user " +:+ string_of_Z (i + 1) +:+ "/" +:+ string_of_Z total)
       (slept Driver.DELAY
          (with_spinner
             ("Migrating user " +:+ string_of_Z i +:+ "/" +:+ string_of_Z total
                                +:+ ", cooldown") st))).

(** The three lines [main] prints before the loop. *)
Definition opening_lines (entities : string) : list string :=
  ["Clerk User Migration Utility";
   "Fetching " +:+ entities +:+ " from " +:+ input_file entities;
   entities
     +:+ ".json found and parsed, attempting migration with an offset of "
     +:+ string_of_jsnum Driver.OFFSET].

(** The creation of a remote service never answers with the status 429. *)
Definition users_never_rate_limited : Prop :=
  forall params w error w',
    users_createUser params w = (inl error, w') ->
    error_status error <> Some 429.

Definition organizations_never_rate_limited : Prop :=
  forall params w error w',
    organizations_createOrganization params w = (inl error, w') ->
    error_status error <> Some 429.

End WithPlatform.

End Obs.

Export Obs.

(** ** The steps of the per-record function *)

Lemma status_422_not_429 (error : jserror) :
  status_is error 422 = true -> status_is error 429 = false.
Proof.
  unfold status_is. destruct (error_status error) as [s|]; [|discriminate].
  intros Hs. apply Z.eqb_eq in Hs. subst s. reflexivity.
Qed.

Section ProcessSteps.
Context `{Platform}.
Variable Valid : Type.
Variable safeParse : json -> Zod.parsed Valid.
Variable create : Valid -> M string.
Variable conflict_key failure_key : string.

Local Abbreviation process :=
  (Driver.processToClerk Valid safeParse create conflict_key failure_key).

(** Without fuel nothing is done. *)
Lemma process_no_fuel (record : json) (st : state) :
  process 0%nat record st = (OutOfFuel, st).
Proof. reflexivity. Qed.

(** A record that fails validation is logged and nothing else happens. *)
Lemma process_invalid (fuel : nat) (record : json) (issues : list ZodIssue)
    (st : state) :
  safeParse record = inl issues ->
  record <> JNull ->
  process (S fuel) record st =
    (Ok tt,
     logged {| log_key := failure_key; log_id := get record "_id";
               log_error := ZodError issues |} st).
Proof.
  intros Hparse Hnull. cbn. unfold bind, try_catch, get_spinner_text.
  rewrite Hparse. cbn.
  destruct record; try congruence; reflexivity.
Qed.

(** [null] fails validation like any other value, but the [catch] clause
    then reads [_id] of [null]. *)
Lemma process_invalid_null (fuel : nat) (issues : list ZodIssue) (st : state) :
  safeParse JNull = inl issues ->
  exists message, process (S fuel) JNull st = (Throw (TypeError message), st).
Proof.
  intros Hparse. eexists. cbn. unfold bind, try_catch, get_spinner_text.
  rewrite Hparse. cbn. reflexivity.
Qed.

(** The creation succeeds. *)
Lemma process_created (fuel : nat) (record : json) (data : Valid)
    (remoteId : string) (st st1 : state) :
  safeParse record = inr data ->
  create data st = (Ok remoteId, st1) ->
  process (S fuel) record st = (Ok tt, one_more_migrated st1).
Proof.
  intros Hparse Hcreate. cbn. unfold bind, try_catch, get_spinner_text.
  rewrite Hparse, Hcreate. reflexivity.
Qed.

(** The creation is answered with 422. *)
Lemma process_conflict (fuel : nat) (record : json) (data : Valid)
    (error : jserror) (st st1 : state) :
  safeParse record = inr data ->
  record <> JNull ->
  create data st = (Throw error, st1) ->
  status_is error 422 = true ->
  process (S fuel) record st =
    (Ok tt,
     one_more_alreadyExists
       (logged {| log_key := conflict_key; log_id := get record "_id";
                  log_error := error |} st1)).
Proof.
  intros Hparse Hnull Hcreate H422. cbn.
  unfold bind, try_catch, get_spinner_text.
  rewrite Hparse, Hcreate, H422.
  destruct record; try congruence; reflexivity.
Qed.

(** The creation is answered with 429: the whole function runs again on the
    same record after the cool-down. *)
Lemma process_rate_limited (fuel : nat) (record : json) (data : Valid)
    (error : jserror) (st st1 : state) :
  safeParse record = inr data ->
  create data st = (Throw error, st1) ->
  status_is error 429 = true ->
  process (S fuel) record st =
    process fuel record (cooled_down (spinner_text st) st1).
Proof.
  intros Hparse Hcreate H429. cbn [Driver.processToClerk].
  unfold bind at 1. unfold get_spinner_text at 1. unfold try_catch.
  unfold bind at 1. rewrite Hparse, Hcreate.
  destruct (status_is error 422) eqn:H422.
  - apply status_422_not_429 in H422. congruence.
  - rewrite H429. reflexivity.
Qed.

(** The creation fails in any other way. *)
Lemma process_failed (fuel : nat) (record : json) (data : Valid)
    (error : jserror) (st st1 : state) :
  safeParse record = inr data ->
  record <> JNull ->
  create data st = (Throw error, st1) ->
  status_is error 422 = false ->
  status_is error 429 = false ->
  process (S fuel) record st =
    (Ok tt,
     logged {| log_key := failure_key; log_id := get record "_id";
               log_error := error |} st1).
Proof.
  intros Hparse Hnull Hcreate H422 H429. cbn.
  unfold bind, try_catch, get_spinner_text.
  rewrite Hparse, Hcreate, H422, H429.
  destruct record; try congruence; reflexivity.
Qed.

End ProcessSteps.

(** ** What a step leaves untouched *)

Section Frames.
Context `{Platform}.

Lemma remote_step_refl (st : state) : remote_step st st.
Proof.
  repeat split. exists []. rewrite app_nil_r. split; reflexivity.
Qed.

Lemma remote_step_trans (st1 st2 st3 : state) :
  remote_step st1 st2 -> remote_step st2 st3 -> remote_step st1 st3.
Proof.
  intros (Hm & Ha & Hl & Hc & Hs & Hk & evs & Ht & Hr)
         (Hm' & Ha' & Hl' & Hc' & Hs' & Hk' & evs' & Ht' & Hr').
  repeat split; try congruence.
  exists (evs ++ evs'). split.
  - rewrite Ht', Ht, app_assoc. reflexivity.
  - rewrite forallb_app, Hr, Hr'. reflexivity.
Qed.

Lemma remote_call_step {A} (ev : event) (op : world -> (jserror + A) * world)
    (st : state) :
  is_remote ev = true ->
  fst (remote_call ev op st) <> OutOfFuel /\
  remote_step st (snd (remote_call ev op st)).
Proof.
  intros Hev. unfold remote_call.
  destruct (op (remote st)) as [[error|a] w]; cbn.
  all: split; [discriminate|].
  all: repeat split; exists [ev]; cbn; rewrite Hev; split; reflexivity.
Qed.

Lemma createUser_remote_only (userData : IndexTs.User) :
  remote_only (IndexTs.createUser userData).
Proof.
  intros st. unfold IndexTs.createUser, IndexTs.clerk_users_createUser.
  destruct (_ && _); apply remote_call_step; reflexivity.
Qed.

Lemma getUserByEmail_total (email : string) (st : state) :
  exists userId st',
    IndexOrgTs.getUserByEmail email st = (Ok userId, st') /\
    remote_step st st'.
Proof.
  unfold IndexOrgTs.getUserByEmail, try_catch, bind.
  destruct (remote_call_step (EvGetUserList email) (users_getUserList email) st
              eq_refl) as [_ Hstep].
  destruct (remote_call _ _ st) as [[users|error|] st1] eqn:Hcall; cbn in *.
  - eauto.
  - eexists _, _. split; [reflexivity|].
    eapply remote_step_trans; [exact Hstep|].
    repeat split. eexists [_]. split; reflexivity.
  - unfold remote_call in Hcall.
    destruct (users_getUserList email (remote st)) as [[?|?] ?]; discriminate.
Qed.

Lemma createOrganization_remote_only (organizationData : IndexOrgTs.Organization) :
  remote_only (IndexOrgTs.createOrganization organizationData).
Proof.
  intros st. unfold IndexOrgTs.createOrganization, bind.
  destruct (getUserByEmail_total (IndexOrgTs.email organizationData) st)
    as (userId & st1 & Hlookup & Hstep).
  rewrite Hlookup.
  match goal with
  | |- context [remote_call ?ev ?op st1] =>
      destruct (remote_call_step ev op st1 eq_refl) as [Hend Hstep']
  end.
  split; [exact Hend|].
  eapply remote_step_trans; eassumption.
Qed.

Lemma permanent_failures_app (log : list LogEntry) (entry : LogEntry) :
  permanent_failures (log ++ [entry]) =
  permanent_failures log + (if is_conflict_entry entry then 0 else 1).
Proof.
  unfold permanent_failures. rewrite List.filter_app, length_app. cbn.
  destruct (is_conflict_entry entry); cbn; lia.
Qed.

End Frames.

(** ** Invariants of the per-record function *)

Section ProcessInvariants.
Context `{Platform}.
Variable Valid : Type.
Variable safeParse : json -> Zod.parsed Valid.
Variable create : Valid -> M string.
Variable conflict_key failure_key : string.
Hypothesis create_remote_only : forall data, remote_only (create data).

Local Abbreviation process :=
  (Driver.processToClerk Valid safeParse create conflict_key failure_key).

Lemma remote_events_are_attempts (events : list event) :
  forallb is_remote events = true ->
  forallb is_attempt events = true /\ slept_time events = 0.
Proof.
  induction events as [|ev events IH]; cbn; [auto|].
  intros Hall. apply andb_prop in Hall as [Hev Hrest].
  destruct (IH Hrest) as [-> Hz].
  destruct ev; cbn in *; try discriminate; auto.
Qed.

Lemma remote_attempt_step (st st' : state) :
  remote_step st st' -> attempt_step st st'.
Proof.
  intros (_ & _ & _ & Hc & Hs & Hk & events & Ht & Hr).
  apply remote_events_are_attempts in Hr as [Ha Hz].
  repeat split; try assumption.
  exists events. rewrite Hz. repeat split; try assumption. lia.
Qed.

Lemma attempt_step_refl (st : state) : attempt_step st st.
Proof. apply remote_attempt_step, remote_step_refl. Qed.

Lemma slept_time_app (xs ys : list event) :
  slept_time (xs ++ ys) = slept_time xs + slept_time ys.
Proof.
  induction xs as [|ev xs IH]; cbn; [reflexivity|].
  destruct ev; rewrite ?IH; lia.
Qed.

Lemma attempt_step_trans (st1 st2 st3 : state) :
  attempt_step st1 st2 -> attempt_step st2 st3 -> attempt_step st1 st3.
Proof.
  intros (Hc & Hs & body & Ht & Ha & Hk) (Hc' & Hs' & body' & Ht' & Ha' & Hk').
  repeat split; try congruence.
  exists (body ++ body'). repeat split.
  - rewrite Ht', Ht, app_assoc. reflexivity.
  - rewrite forallb_app, Ha, Ha'. reflexivity.
  - rewrite slept_time_app. lia.
Qed.

Lemma attempt_step_cooled_down (st st1 : state) :
  attempt_step st st1 ->
  attempt_step st (cooled_down (spinner_text st) st1).
Proof.
  intros (Hc & Hs & body & Ht & Ha & Hk).
  repeat split; try assumption.
  exists (body ++ [EvSleep Driver.RETRY_DELAY]). cbn. repeat split.
  - rewrite Ht, app_assoc. reflexivity.
  - rewrite forallb_app, Ha. reflexivity.
  - rewrite slept_time_app. cbn. lia.
Qed.

Lemma attempt_step_logged (st st1 : state) (entry : LogEntry) :
  attempt_step st st1 -> attempt_step st (logged entry st1).
Proof. intros Hstep. exact Hstep. Qed.

Lemma attempt_step_migrated (st st1 : state) :
  attempt_step st st1 -> attempt_step st (one_more_migrated st1).
Proof. intros Hstep. exact Hstep. Qed.

Lemma attempt_step_alreadyExists (st st1 : state) :
  attempt_step st st1 -> attempt_step st (one_more_alreadyExists st1).
Proof. intros Hstep. exact Hstep. Qed.

Local Ltac bookkeeping :=
  repeat first
    [ apply attempt_step_logged
    | apply attempt_step_migrated
    | apply attempt_step_alreadyExists ].

(** Whatever the outcome, the work on one record only talks to the remote
    service, sleeps, and writes to the log and the counters. *)
Lemma process_effect (fuel : nat) (record : json) (st : state) :
  attempt_step st (snd (process fuel record st)).
Proof.
  revert st. induction fuel as [|fuel IH]; intros st.
  - apply attempt_step_refl.
  - destruct (safeParse record) as [issues|data] eqn:Hparse.
    + cbn [Driver.processToClerk].
      unfold bind, try_catch, get_spinner_text. rewrite Hparse. cbn.
      destruct record; cbn; bookkeeping; apply attempt_step_refl.
    + destruct (create_remote_only data st) as [Hend Hstep].
      apply remote_attempt_step in Hstep.
      destruct (create data st) as [[remoteId|error|] st1] eqn:Hcreate;
        cbn in Hend, Hstep; [| |congruence].
      * erewrite process_created by eassumption. bookkeeping. exact Hstep.
      * destruct (status_is error 429) eqn:H429.
        { erewrite process_rate_limited by eassumption.
          eapply attempt_step_trans; [|apply IH].
          apply attempt_step_cooled_down. exact Hstep. }
        cbn [Driver.processToClerk].
        unfold bind, try_catch, get_spinner_text.
        rewrite Hparse, Hcreate, H429.
        destruct (status_is error 422); destruct record; cbn; bookkeeping;
          exact Hstep.
Qed.

(** A record whose processing ends normally has been put into exactly one
    of the three buckets. *)
Lemma process_accounting (fuel : nat) (record : json) (st st' : state) :
  process fuel record st = (Ok tt, st') ->
  accounted st' = accounted st + 1.
Proof.
  revert st. induction fuel as [|fuel IH]; intros st Hrun; [discriminate|].
  destruct (safeParse record) as [issues|data] eqn:Hparse.
  - cbn [Driver.processToClerk] in Hrun.
    unfold bind, try_catch, get_spinner_text in Hrun.
    rewrite Hparse in Hrun. cbn in Hrun.
    destruct record; cbn in Hrun; inversion Hrun; subst st'.
    all: unfold accounted; cbn; rewrite permanent_failures_app; cbn; lia.
  - destruct (create_remote_only data st) as [Hend Hstep].
    destruct (create data st) as [[remoteId|error|] st1] eqn:Hcreate;
      cbn in Hend, Hstep; [| |congruence].
    all: destruct Hstep as (Hm & Ha & Hl & _).
    + erewrite process_created in Hrun by eassumption.
      inversion Hrun; subst st'. unfold accounted. cbn. rewrite Hm, Ha, Hl. lia.
    + destruct (status_is error 429) eqn:H429.
      { erewrite process_rate_limited in Hrun by eassumption.
        apply IH in Hrun. rewrite Hrun. unfold accounted. cbn.
        rewrite Hm, Ha, Hl. reflexivity. }
      cbn [Driver.processToClerk] in Hrun.
      unfold bind, try_catch, get_spinner_text in Hrun.
      rewrite Hparse, Hcreate, H429 in Hrun.
      destruct (status_is error 422) eqn:H422; destruct record; cbn in Hrun;
        inversion Hrun; subst st'.
      all: unfold accounted; cbn; rewrite permanent_failures_app.
      all: unfold is_conflict_entry; cbn; rewrite H422, Hm, Ha, Hl; lia.
Qed.

End ProcessInvariants.

(** ** The loop of [main] and the whole script *)

Section Runs.
Context `{Platform}.
Variable Valid : Type.
Variable safeParse : json -> Zod.parsed Valid.
Variable create : Valid -> M string.
Variable conflict_key failure_key entities : string.
Hypothesis create_remote_only : forall data, remote_only (create data).

Local Abbreviation process :=
  (Driver.processToClerk Valid safeParse create conflict_key failure_key).
Local Abbreviation main_loop :=
  (Driver.main_loop Valid safeParse create conflict_key failure_key).
Local Abbreviation main :=
  (Driver.main Valid safeParse create conflict_key failure_key entities).
Local Abbreviation script :=
  (Driver.script Valid safeParse create conflict_key failure_key entities).

Lemma blocks_nil_r (delay : jsnum) (records : list json) :
  blocks delay records [] = [].
Proof. destruct records; reflexivity. Qed.

(** One turn of the loop: sleep, hand the record over, go on with the rest
    when the work on the record ended normally. *)
Lemma main_loop_cons (fuel : nat) (total i : Z) (record : json)
    (rest : list json) (st : state) :
  main_loop fuel total (record :: rest) i st =
    match process fuel record (handed_over record total i st) with
    | (Ok _, st') => main_loop fuel total rest (i + 1) st'
    | (Throw error, st') => (Throw error, st')
    | (OutOfFuel, st') => (OutOfFuel, st')
    end.
Proof. reflexivity. Qed.

Lemma main_loop_effect (fuel : nat) (total : Z) (records : list json) (i : Z)
    (st : state) :
  let run := main_loop fuel total records i st in
  console (snd run) = console st /\
  exists bodies,
    trace (snd run) = trace st ++ blocks Driver.DELAY records bodies /\
    Forall (fun body => forallb is_attempt body = true) bodies /\
    clock (snd run) = clock st + slept_time (blocks Driver.DELAY records bodies) /\
    (length bodies <= length records)%nat /\
    (fst run = Ok tt -> length bodies = length records).
Proof.
  revert i st. induction records as [|record rest IH]; intros i st run.
  - subst run. cbn. split; [reflexivity|]. exists []. cbn.
    rewrite app_nil_r. repeat split; auto; lia.
  - subst run. rewrite main_loop_cons.
    pose proof (process_effect Valid safeParse create conflict_key failure_key
                  create_remote_only fuel record
                  (handed_over record total i st)) as Hstep.
    destruct (process fuel record (handed_over record total i st))
      as [[[]|error|] st1]; cbn in Hstep;
      destruct Hstep as (Hc & _ & body & Ht & Ha & Hk).
    + destruct (IH (i + 1) st1) as (Hc' & bodies & Ht' & Ha' & Hk' & Hle & Hlen).
      split; [rewrite Hc', Hc; reflexivity|].
      exists (body :: bodies). cbn [blocks length]. repeat split.
      * rewrite Ht', Ht. cbn. rewrite <- !app_assoc. reflexivity.
      * constructor; assumption.
      * rewrite Hk', Hk. cbn. rewrite slept_time_app. lia.
      * lia.
      * intros Hok. rewrite (Hlen Hok). reflexivity.
    + cbn. split; [exact Hc|]. exists [body].
      cbn [blocks length]. rewrite blocks_nil_r, app_nil_r. repeat split.
      * rewrite Ht. cbn. rewrite <- !app_assoc. reflexivity.
      * constructor; [assumption|constructor].
      * rewrite Hk. cbn. lia.
      * lia.
      * discriminate.
    + cbn. split; [exact Hc|]. exists [body].
      cbn [blocks length]. rewrite blocks_nil_r, app_nil_r. repeat split.
      * rewrite Ht. cbn. rewrite <- !app_assoc. reflexivity.
      * constructor; [assumption|constructor].
      * rewrite Hk. cbn. lia.
      * lia.
      * discriminate.
Qed.

Lemma main_loop_accounting (fuel : nat) (total : Z) (records : list json)
    (i : Z) (st st' : state) :
  main_loop fuel total records i st = (Ok tt, st') ->
  accounted st' = accounted st + Z.of_nat (length records).
Proof.
  revert i st. induction records as [|record rest IH]; intros i st Hrun.
  - inversion Hrun. cbn. lia.
  - rewrite main_loop_cons in Hrun.
    destruct (process fuel record (handed_over record total i st))
      as [[[]|error|] st1] eqn:Hprocess; try discriminate.
    apply (process_accounting Valid safeParse create conflict_key failure_key
             create_remote_only) in Hprocess.
    apply IH in Hrun. rewrite Hrun, Hprocess.
    unfold accounted. cbn [length handed_over recorded with_spinner slept
      migrated alreadyExists logfile]. lia.
Qed.

(** The start-up checks either pass or throw; they never touch the state. *)
Lemma startup_cases (st : state) :
  Driver.startup st = (Ok tt, st) \/
  exists message, Driver.startup st = (Throw (Error message), st).
Proof.
  unfold Driver.startup. destruct Driver.SECRET_KEY as [key|].
  - destruct (String.eqb key ""); [right; eexists; reflexivity|].
    destruct (_ && _); [right; eexists; reflexivity|left; reflexivity].
  - right. eexists. reflexivity.
Qed.

(** A failed check ends the script on the spot. *)
Lemma script_refused (fuel : nat) (error : jserror) (st : state) :
  Driver.startup st = (Throw error, st) ->
  script fuel st = (Throw error, st).
Proof.
  intros Hstart. unfold Driver.script, bind. rewrite Hstart. reflexivity.
Qed.

(** After the checks, the script is [main] followed by the summary. *)
Lemma script_proceeds (fuel : nat) (st : state) :
  Driver.startup st = (Ok tt, st) ->
  script fuel st =
    bind (main fuel)
      (fun _ => Driver.summary entities) st.
Proof.
  intros Hstart. unfold Driver.script. unfold bind at 1.
  rewrite Hstart. reflexivity.
Qed.

(** The script on a readable input file. *)
Lemma script_started (fuel : nat) (records : list json) (st : state) :
  Driver.startup st = (Ok tt, st) ->
  readJSON (input_file entities) = inr records ->
  script fuel st =
    match main_loop fuel (Z.of_nat (length (slice Driver.OFFSET records)))
            (slice Driver.OFFSET records) 0 (started entities st) with
    | (Ok _, st1) => (Ok tt, summarised entities st1)
    | (Throw error, st1) => (Throw error, st1)
    | (OutOfFuel, st1) => (OutOfFuel, st1)
    end.
Proof.
  intros Hstart Hfile. rewrite script_proceeds by assumption.
  unfold Driver.main, Driver.summary, bind, read_input, console_log,
    set_spinner_text, modify, get_migrated, get_alreadyExists.
  fold (input_file entities). rewrite Hfile.
  fold (started entities st).
  destruct (main_loop _ _ _ _ _) as [[[]|error|] st1]; reflexivity.
Qed.

(** A script that ended normally passed the checks, read its file and went
    through the whole loop. *)
Lemma script_ok_inv (fuel : nat) (st st' : state) :
  script fuel st = (Ok tt, st') ->
  exists records st1,
    readJSON (input_file entities) = inr records /\
    Driver.startup st = (Ok tt, st) /\
    main_loop fuel (Z.of_nat (length (slice Driver.OFFSET records)))
      (slice Driver.OFFSET records) 0 (started entities st) = (Ok tt, st1) /\
    st' = summarised entities st1.
Proof.
  intros Hrun.
  destruct (startup_cases st) as [Hstart|[message Hstart]].
  2:{ rewrite (script_refused _ _ _ Hstart) in Hrun. discriminate. }
  destruct (readJSON (input_file entities)) as [error|records] eqn:Hfile.
  - rewrite script_proceeds in Hrun by assumption.
    unfold Driver.main, bind, read_input, console_log, modify in Hrun.
    fold (input_file entities) in Hrun. rewrite Hfile in Hrun. discriminate.
  - rewrite (script_started _ _ _ Hstart Hfile) in Hrun.
    destruct (main_loop _ _ _ _ _) as [[[]|error|] st1] eqn:Hloop;
      try discriminate.
    inversion Hrun. exists records, st1. repeat split; assumption.
Qed.

End Runs.

(** ** Slices and traces *)

Lemma slice_nonneg {A} (k : Z) (arr : list A) :
  0 <= k -> slice (Num k) arr = drop (Z.to_nat k) arr.
Proof.
  intros Hk. unfold slice.
  destruct (Z.ltb_spec k 0) as [Hneg|_]; [lia|].
  destruct (Z.le_gt_cases k (Z.of_nat (length arr))) as [Hle|Hgt].
  - rewrite Z.min_l by lia. reflexivity.
  - rewrite Z.min_r by lia. rewrite Nat2Z.id.
    rewrite !drop_ge by lia. reflexivity.
Qed.

Lemma slice_length_nonneg {A} (k : Z) (arr : list A) :
  0 <= k ->
  Z.of_nat (length (slice (Num k) arr)) = Z.max (Z.of_nat (length arr) - k) 0.
Proof.
  intros Hk. rewrite slice_nonneg by assumption. rewrite length_drop. lia.
Qed.


Lemma processed_app (xs ys : list event) :
  processed (xs ++ ys) = processed xs ++ processed ys.
Proof.
  induction xs as [|ev xs IH]; cbn; [reflexivity|].
  destruct ev; rewrite ?IH; reflexivity.
Qed.

Lemma processed_attempts (body : list event) :
  forallb is_attempt body = true -> processed body = [].
Proof.
  induction body as [|ev body IH]; cbn; [reflexivity|].
  intros Hall. apply andb_prop in Hall as [Hev Hrest].
  destruct ev; cbn in Hev; try discriminate; auto.
Qed.

Lemma processed_blocks (delay : jsnum) (records : list json)
    (bodies : list (list event)) :
  Forall (fun body => forallb is_attempt body = true) bodies ->
  processed (blocks delay records bodies) = take (length bodies) records.
Proof.
  intros Hall. revert records.
  induction Hall as [|body bodies Hbody _ IH]; intros records.
  - rewrite blocks_nil_r. reflexivity.
  - destruct records as [|record records]; [reflexivity|].
    cbn. rewrite processed_app, (processed_attempts _ Hbody), IH. reflexivity.
Qed.

Section Timing.
Context `{Platform}.

Lemma slept_time_nonneg (events : list event) :
  (forall ms, 0 <= timer ms) -> 0 <= slept_time events.
Proof.
  intros Htimer. induction events as [|ev events IH]; cbn; [lia|].
  destruct ev; try assumption. specialize (Htimer ms). lia.
Qed.

Lemma slept_time_blocks (delay : jsnum) (records : list json)
    (bodies : list (list event)) :
  (forall ms, 0 <= timer ms) ->
  (length bodies <= length records)%nat ->
  Z.of_nat (length bodies) * timer delay
    <= slept_time (blocks delay records bodies).
Proof.
  intros Htimer. revert records.
  induction bodies as [|body bodies IH]; intros records Hlen.
  - rewrite blocks_nil_r. cbn. lia.
  - destruct records as [|record records]; cbn in Hlen; [lia|].
    cbn [blocks slept_time length]. rewrite slept_time_app.
    specialize (IH records ltac:(lia)).
    pose proof (slept_time_nonneg body Htimer). lia.
Qed.

End Timing.

(** ** Properties of a whole run *)

Section WholeRuns.
Context `{Platform}.

(** C1, as amended. When the user script completes normally on an input
    file of n records, every record that [main] took from the file after the
    offset is in exactly one of three buckets: the migrated counter, the
    already-exists counter, or the permanent-failure entries of the log. Their
    sum is the length of [slice(OFFSET)]; for an offset k >= 0 that is
    n - k when k <= n and 0 when k >= n. *)
Theorem accounting_of_completed_run (fuel : nat) (w : world)
    (records : list json) (st' : state) :
  readJSON (input_file "users") = inr records ->
  IndexTs.script fuel (initial w) = (Ok tt, st') ->
  migrated st' + alreadyExists st' + permanent_failures (logfile st')
    = Z.of_nat (length (slice Driver.OFFSET records)) /\
  forall k, Driver.OFFSET = Num k -> 0 <= k ->
    migrated st' + alreadyExists st' + permanent_failures (logfile st')
      = Z.max (Z.of_nat (length records) - k) 0.
Proof.
  intros Hfile Hrun.
  destruct (script_ok_inv _ _ _ _ _ _ _ _ _ Hrun)
    as (records' & st1 & Hfile' & _ & Hloop & ->).
  rewrite Hfile in Hfile'. inversion Hfile'; subst records'.
  apply (main_loop_accounting _ _ _ _ _ createUser_remote_only) in Hloop.
  assert (Hsum : migrated (summarised "users" st1)
                 + alreadyExists (summarised "users" st1)
                 + permanent_failures (logfile (summarised "users" st1))
                 = Z.of_nat (length (slice Driver.OFFSET records))).
  { change (accounted st1 = Z.of_nat (length (slice Driver.OFFSET records))).
    rewrite Hloop. unfold accounted, permanent_failures. cbn. lia. }
  split; [exact Hsum|].
  intros k Hoffset Hk. rewrite Hsum, Hoffset. apply slice_length_nonneg, Hk.
Qed.


(** C6. A run that completes normally prints, after the three opening lines
    of [main], exactly two lines: the migrated counter before "migrated" and
    the already-exists counter before "failed to upload". The entries of the
    log do not enter the summary. *)
Theorem summary_lines (fuel : nat) (w : world) (st' : state) :
  (IndexTs.script fuel (initial w) = (Ok tt, st') ->
   console st' =
     ["Clerk User Migration Utility";
      "Fetching users from " +:+ input_file "users";
      "users.json found and parsed, attempting migration with an offset of "
        +:+ string_of_jsnum Driver.OFFSET;
      string_of_Z (migrated st') +:+ " users migrated";
      string_of_Z (alreadyExists st') +:+ " users failed to upload"]) /\
  (IndexOrgTs.script fuel (initial w) = (Ok tt, st') ->
   console st' =
     ["Clerk User Migration Utility";
      "Fetching organizations from " +:+ input_file "organizations";
      "organizations.json found and parsed, attempting migration with an offset of "
        +:+ string_of_jsnum Driver.OFFSET;
      string_of_Z (migrated st') +:+ " organizations migrated";
      string_of_Z (alreadyExists st') +:+ " organizations failed to upload"]).
Proof.
  split; intros Hrun.
  - destruct (script_ok_inv _ _ _ _ _ _ _ _ _ Hrun)
      as (records & st1 & _ & _ & Hloop & ->).
    match type of Hloop with
    | Driver.main_loop ?V ?p ?c ?ck ?fk ?f ?t ?rs ?i ?st = _ =>
        pose proof (main_loop_effect V p c ck fk createUser_remote_only
                      f t rs i st) as Heffect
    end.
    rewrite Hloop in Heffect. cbn in Heffect. destruct Heffect as [Hconsole _].
    cbn. rewrite Hconsole. reflexivity.
  - destruct (script_ok_inv _ _ _ _ _ _ _ _ _ Hrun)
      as (records & st1 & _ & _ & Hloop & ->).
    match type of Hloop with
    | Driver.main_loop ?V ?p ?c ?ck ?fk ?f ?t ?rs ?i ?st = _ =>
        pose proof (main_loop_effect V p c ck fk createOrganization_remote_only
                      f t rs i st) as Heffect
    end.
    rewrite Hloop in Heffect. cbn in Heffect. destruct Heffect as [Hconsole _].
    cbn. rewrite Hconsole. reflexivity.
Qed.

End WholeRuns.

Section StartUp.
Context `{Platform}.

(** The checks pass exactly when the key is there and either is a live key
    or the import into a development instance was asked for. *)
Lemma startup_passes_iff (st : state) :
  Driver.startup st = (Ok tt, st) <->
  exists secret,
    process_env !! "CLERK_SECRET_KEY" = Some secret /\
    secret <> "" /\
    (split "_" secret !! 1%nat = Some "live" \/
     exists flag, process_env !! "IMPORT_TO_DEV_INSTANCE" = Some flag /\
                  flag <> "false").
Proof.
  unfold Driver.startup, Driver.SECRET_KEY, Driver.IMPORT_TO_DEV,
    Driver.not_live, nullish.
  destruct (process_env !! "CLERK_SECRET_KEY") as [secret|].
  2:{ split; [discriminate|]. intros (? & ? & _). discriminate. }
  destruct (String.eqb_spec secret "") as [->|Hsecret].
  { split; [discriminate|]. intros (? & [= <-] & Hne & _). congruence. }
  assert (Hlive : forall P : Prop,
            split "_" secret !! 1%nat = Some "live" \/ P ->
            exists secret',
              Some secret = Some secret' /\ secret' <> "" /\
              (split "_" secret' !! 1%nat = Some "live" \/ P))
    by (intros P HP; exists secret; auto).
  destruct (split "_" secret !! 1%nat) as [segment|] eqn:Hsegment1.
  - destruct (String.eqb_spec segment "live") as [->|Hsegment]; cbn.
    { split; [|reflexivity]. intros _. apply Hlive. left. reflexivity. }
    destruct (process_env !! "IMPORT_TO_DEV_INSTANCE") as [flag|] eqn:Hflag1.
    + destruct (String.eqb_spec flag "false") as [->|Hflag].
      { split; [discriminate|].
        intros (? & [= <-] & _ & [?|(? & ? & ?)]); congruence. }
      split; [|reflexivity]. intros _. apply Hlive. right. eauto.
    + cbn. split; [discriminate|].
      intros (? & [= <-] & _ & [?|(? & ? & ?)]); congruence.
  - cbn. destruct (process_env !! "IMPORT_TO_DEV_INSTANCE") as [flag|] eqn:Hflag1.
    + destruct (String.eqb_spec flag "false") as [->|Hflag].
      { split; [discriminate|].
        intros (? & [= <-] & _ & [?|(? & ? & ?)]); congruence. }
      split; [|reflexivity]. intros _. apply Hlive. right. eauto.
    + cbn. split; [discriminate|].
      intros (? & [= <-] & _ & [?|(? & ? & ?)]); congruence.
Qed.

(** C7. When [CLERK_SECRET_KEY] is absent (missing or empty), or when the
    segment after its first underscore is not "live" while
    [IMPORT_TO_DEV_INSTANCE] is unset or "false", both scripts end with an
    error in their initial state: no file is read, no record is handed over,
    nothing is requested. In every other case the script goes on with [main]
    and the summary. *)
Theorem startup_checks (fuel : nat) (w : world) :
  let key := process_env !! "CLERK_SECRET_KEY" in
  let flag := process_env !! "IMPORT_TO_DEV_INSTANCE" in
  let absent := key = None \/ key = Some "" in
  let development :=
    exists secret,
      key = Some secret /\
      split "_" secret !! 1%nat <> Some "live" /\
      (flag = None \/ flag = Some "false") in
  (absent \/ development ->
   exists message,
     IndexTs.script fuel (initial w) = (Throw (Error message), initial w) /\
     IndexOrgTs.script fuel (initial w) = (Throw (Error message), initial w)) /\
  (~ (absent \/ development) ->
   IndexTs.script fuel (initial w)
     = bind (IndexTs.main fuel) (fun _ => Driver.summary "users") (initial w) /\
   IndexOrgTs.script fuel (initial w)
     = bind (IndexOrgTs.main fuel) (fun _ => Driver.summary "organizations")
         (initial w)).
Proof.
  intros key flag absent development.
  pose proof (startup_passes_iff (initial w)) as Hiff.
  split.
  - intros Hrefuse.
    destruct (startup_cases (initial w)) as [Hpass|[message Hfail]].
    + exfalso. apply Hiff in Hpass as (secret & Hkey & Hsecret & Hlive).
      subst key flag absent development. cbn in Hrefuse.
      destruct Hrefuse as [[Hnone|Hempty]|(secret' & Hkey' & Hdev & Hflag)];
        [congruence|congruence|].
      rewrite Hkey in Hkey'. injection Hkey' as <-.
      destruct Hlive as [Hlive|(value & Hvalue & Hne)]; [congruence|].
      destruct Hflag; congruence.
    + exists message. split; apply script_refused; exact Hfail.
  - intros Hgo.
    assert (Hpass : Driver.startup (initial w) = (Ok tt, initial w)).
    { destruct (startup_cases (initial w)) as [Hpass|[message Hfail]];
        [exact Hpass|exfalso].
      apply Hgo. subst key flag absent development. cbn.
      destruct (process_env !! "CLERK_SECRET_KEY") as [secret|] eqn:Hkey;
        [|auto].
      destruct (String.eqb_spec secret "") as [->|Hsecret]; [auto|].
      right. exists secret. split; [reflexivity|].
      assert (Hnot : ~ Driver.startup (initial w) = (Ok tt, initial w))
        by (rewrite Hfail; discriminate).
      rewrite Hiff in Hnot.
      split.
      + intros Hlive. apply Hnot. exists secret. auto.
      + destruct (process_env !! "IMPORT_TO_DEV_INSTANCE") as [value|] eqn:Hflag;
          [|auto].
        destruct (String.eqb_spec value "false") as [->|Hvalue]; [auto|].
        exfalso. apply Hnot. exists secret. eauto 6. }
    split; apply script_proceeds; exact Hpass.
Qed.

End StartUp.

(** ** The creation functions *)

Section Creation.
Context `{Platform}.

(** C10. [createUser] sends the legacy password of a validated user exactly
    when the record has one that is at least 8 characters long and starts
    with "123"; the request then carries no skip flag. In every other case
    the request carries no password and sets [skipPasswordRequirement]. *)
Theorem legacy_password_rule (userData : IndexTs.User) (st : state) :
  exists params,
    trace (snd (IndexTs.createUser userData st))
      = trace st ++ [EvCreateUser params] /\
    (forall pw,
       Clerk.password params = Some pw <->
       IndexTs.password userData = Some pw /\
       (8 <= String.length pw)%nat /\
       String.prefix "123" pw = true) /\
    (forall pw,
       Clerk.password params = Some pw ->
       Clerk.skipPasswordRequirement params = None) /\
    (Clerk.password params = None ->
     Clerk.skipPasswordRequirement params = Some true).
Proof.
  unfold IndexTs.createUser, IndexTs.clerk_users_createUser.
  set (sends := IndexTs.truthy _ && _ && _).
  assert (Hsends : sends = true <->
            exists pw, IndexTs.password userData = Some pw /\
                       (8 <= String.length pw)%nat /\
                       String.prefix "123" pw = true).
  { subst sends. unfold IndexTs.truthy, IndexTs.at_least_8, startsWith, nullish.
    destruct (IndexTs.password userData) as [pw|].
    - rewrite !andb_true_iff, negb_true_iff, Nat.leb_le. split.
      + intros [[_ Hlen] Hprefix]. eauto.
      + intros (pw' & [= <-] & Hlen & Hprefix). repeat split; auto.
        destruct (String.eqb_spec pw "") as [->|_]; [cbn in Hlen; lia|reflexivity].
    - split; [discriminate|]. intros (pw & Hpw & _). discriminate. }
  destruct sends; eexists.
  all: split;
    [unfold remote_call; destruct (users_createUser _ _) as [[?|?] ?];
     reflexivity|].
  all: cbn [Clerk.password Clerk.skipPasswordRequirement].
  - destruct (proj1 Hsends eq_refl) as (pw & Hpw & Hlen & Hprefix).
    rewrite Hpw. split; [|split]; [|reflexivity|discriminate].
    intros pw'. split.
    + intros [= <-]. auto.
    + intros (Heq & _). exact Heq.
  - split; [|split]; [|discriminate|reflexivity].
    intros pw. split; [discriminate|].
    intros (Hpw & Hlen & Hprefix).
    assert (Htrue : false = true) by (apply Hsends; eauto). discriminate.
Qed.

End Creation.

Lemma creation_requests_app (xs ys : list event) :
  creation_requests (xs ++ ys) = creation_requests xs ++ creation_requests ys.
Proof. apply List.filter_app. Qed.

Lemma sleeps_app (xs ys : list event) :
  sleeps (xs ++ ys) = sleeps xs ++ sleeps ys.
Proof.
  induction xs as [|ev xs IH]; cbn; [reflexivity|].
  destruct ev; rewrite ?IH; reflexivity.
Qed.

Lemma remote_events_no_sleep (events : list event) :
  forallb is_remote events = true -> sleeps events = [].
Proof.
  induction events as [|ev events IH]; cbn; [reflexivity|].
  intros Hall. apply andb_prop in Hall as [Hev Hrest].
  destruct ev; cbn in Hev; try discriminate; auto.
Qed.

Section Lookup.
Context `{Platform}.

(** The request [createOrganization] sends for a record once the look-up
    named [creator]. *)
Lemma createOrganization_after_lookup (organizationData : IndexOrgTs.Organization)
    (creator : string) (st st1 : state) :
  IndexOrgTs.getUserByEmail (IndexOrgTs.email organizationData) st
    = (Ok creator, st1) ->
  IndexOrgTs.createOrganization organizationData st =
    let params :=
      {| Clerk.name := IndexOrgTs.organization_name organizationData;
         Clerk.createdBy := creator;
         Clerk.org_privateMetadata :=
           {| Clerk.opm_mongoId := IndexOrgTs._id organizationData;
              Clerk.opm_external_id :=
                Clerk.oid (IndexOrgTs._id organizationData) |} |} in
    remote_call (EvCreateOrganization params)
      (organizations_createOrganization params) st1.
Proof.
  intros Hlookup. unfold IndexOrgTs.createOrganization, bind.
  rewrite Hlookup. reflexivity.
Qed.

(** The look-up sends no creation request. *)
Lemma getUserByEmail_sends_no_creation (email : string) (st : state) :
  exists userId st1,
    IndexOrgTs.getUserByEmail email st = (Ok userId, st1) /\
    creation_requests (trace st1) = creation_requests (trace st).
Proof.
  unfold IndexOrgTs.getUserByEmail, try_catch, bind, remote_call.
  destruct (users_getUserList email (remote st)) as [[error|users] w1].
  all: eexists _, _; split; [reflexivity|].
  all: cbn; rewrite ?creation_requests_app, ?app_nil_r; cbn.
  all: rewrite ?app_nil_r; reflexivity.
Qed.

(** C9. [getUserByEmail] never throws: for every address it ends with a
    string. The string is the identifier of the first user found; it is the
    empty string, the script's "not found", when the look-up found no user or
    failed. [createOrganization] then still sends the creation request for
    the record, with the empty string as [createdBy], and ends as that
    request ends. *)
Theorem lookup_never_aborts (email : string)
    (organizationData : IndexOrgTs.Organization) (st : state) :
  (exists userId st1,
     IndexOrgTs.getUserByEmail email st = (Ok userId, st1) /\
     match fst (users_getUserList email (remote st)) with
     | inl _ => userId = ""
     | inr [] => userId = ""
     | inr (found :: _) => userId = Clerk.id found
     end) /\
  (forall answer w1,
     users_getUserList (IndexOrgTs.email organizationData) (remote st)
       = (answer, w1) ->
     (answer = inr [] \/ exists error, answer = inl error) ->
     exists st1,
       IndexOrgTs.getUserByEmail (IndexOrgTs.email organizationData) st
         = (Ok "", st1) /\
       remote st1 = w1 /\
       let params :=
         {| Clerk.name := IndexOrgTs.organization_name organizationData;
            Clerk.createdBy := "";
            Clerk.org_privateMetadata :=
              {| Clerk.opm_mongoId := IndexOrgTs._id organizationData;
                 Clerk.opm_external_id :=
                   Clerk.oid (IndexOrgTs._id organizationData) |} |} in
       IndexOrgTs.createOrganization organizationData st
         = remote_call (EvCreateOrganization params)
             (organizations_createOrganization params) st1).
Proof.
  split.
  - unfold IndexOrgTs.getUserByEmail, try_catch, bind, remote_call.
    destruct (users_getUserList email (remote st)) as [[error|users] w1];
      cbn [fst].
    + eexists _, _. split; reflexivity.
    + destruct users as [|found others]; eexists _, _; split; reflexivity.
  - intros answer w1 Hanswer Hmissing.
    assert (Hlookup : exists st1,
              IndexOrgTs.getUserByEmail (IndexOrgTs.email organizationData) st
                = (Ok "", st1) /\ remote st1 = w1).
    { unfold IndexOrgTs.getUserByEmail, try_catch, bind, remote_call.
      rewrite Hanswer.
      destruct Hmissing as [->|[error ->]]; eexists; split; reflexivity. }
    destruct Hlookup as (st1 & Hlookup & Hremote).
    exists st1. repeat split; try assumption.
    apply createOrganization_after_lookup. exact Hlookup.
Qed.

End Lookup.

(** ** One record: validation failure, conflict, rate limit *)

Lemma status_is_of_error_status (error : jserror) (n : Z) :
  error_status error = Some n -> status_is error n = true.
Proof. unfold status_is. intros ->. apply Z.eqb_refl. Qed.

Section OneRecord.
Context `{Platform}.

Lemma user_record_not_null (record : json) (userData : IndexTs.User) :
  IndexTs.safeParse record = inr userData -> record <> JNull.
Proof. intros Hparse ->. discriminate. Qed.

Lemma organization_record_not_null (record : json)
    (organizationData : IndexOrgTs.Organization) :
  IndexOrgTs.safeParse record = inr organizationData -> record <> JNull.
Proof. intros Hparse ->. discriminate. Qed.

(** [createUser] is one request, fixed by the record. *)
Lemma createUser_request (userData : IndexTs.User) :
  exists params, forall st,
    IndexTs.createUser userData st
      = remote_call (EvCreateUser params) (users_createUser params) st.
Proof.
  unfold IndexTs.createUser, IndexTs.clerk_users_createUser.
  destruct (_ && _); eexists; reflexivity.
Qed.

Lemma remote_call_state {A} (ev : event) (op : world -> (jserror + A) * world)
    (st : state) :
  snd (remote_call ev op st) = answered ev (snd (op (remote st))) st.
Proof.
  unfold remote_call. destruct (op (remote st)) as [[error|a] w]; reflexivity.
Qed.

(** [createOrganization] sends one creation request, for the name and the
    identifier of the record, after the look-up. *)
Lemma createOrganization_requests (organizationData : IndexOrgTs.Organization)
    (st : state) :
  exists creator,
    creation_requests (trace (snd (IndexOrgTs.createOrganization organizationData st)))
      = creation_requests (trace st) ++
        [EvCreateOrganization
           {| Clerk.name := IndexOrgTs.organization_name organizationData;
              Clerk.createdBy := creator;
              Clerk.org_privateMetadata :=
                {| Clerk.opm_mongoId := IndexOrgTs._id organizationData;
                   Clerk.opm_external_id :=
                     Clerk.oid (IndexOrgTs._id organizationData) |} |}].
Proof.
  destruct (getUserByEmail_sends_no_creation (IndexOrgTs.email organizationData) st)
    as (creator & st1 & Hlookup & Htrace).
  exists creator. rewrite (createOrganization_after_lookup _ _ _ _ Hlookup).
  cbn zeta. rewrite remote_call_state. cbn [answered trace].
  rewrite creation_requests_app, Htrace. reflexivity.
Qed.

End OneRecord.

Section Outcomes.
Context `{Platform}.

(** X20. A record other than [null] that fails the schema is never sent to
    the remote service and is not tried again: the trace and the remote
    service are as before, both counters are unchanged, and the log has
    exactly one more entry, which carries the issues of the [ZodError] and
    counts as a permanent failure. The function returns normally, so the loop
    of [main] goes on with the next record. *)
Theorem invalid_record_is_logged_once (fuel : nat) (record : json)
    (issues : list ZodIssue) (st : state) :
  record <> JNull ->
  (IndexTs.safeParse record = inl issues ->
   exists st',
     IndexTs.processUserToClerk (S fuel) record st = (Ok tt, st') /\
     trace st' = trace st /\
     remote st' = remote st /\
     migrated st' = migrated st /\
     alreadyExists st' = alreadyExists st /\
     logfile st' = logfile st ++
       [{| log_key := "userId"; log_id := get record "_id";
           log_error := ZodError issues |}] /\
     permanent_failures (logfile st') = permanent_failures (logfile st) + 1) /\
  (IndexOrgTs.safeParse record = inl issues ->
   exists st',
     IndexOrgTs.processOrganizationToClerk (S fuel) record st = (Ok tt, st') /\
     trace st' = trace st /\
     remote st' = remote st /\
     migrated st' = migrated st /\
     alreadyExists st' = alreadyExists st /\
     logfile st' = logfile st ++
       [{| log_key := "userId"; log_id := get record "_id";
           log_error := ZodError issues |}] /\
     permanent_failures (logfile st') = permanent_failures (logfile st) + 1).
Proof.
  intros Hnull. split; intros Hparse; eexists.
  all: split; [apply process_invalid; eassumption|].
  all: cbn [logged trace remote migrated alreadyExists logfile].
  all: repeat split; rewrite permanent_failures_app; reflexivity.
Qed.

(** C4. [null] in the place of a record fails the schema of either script
    like any other invalid value, but no log entry is written for it: the
    [catch] clause reads [_id] of [null], and the [TypeError] leaves the
    per-record function with the state as it was. The error leaves the loop
    of [main] as well, in the state in which the record was handed over,
    whose log and counters are those from before the record; the records
    after the [null] are not handed over. *)
Theorem null_record_is_not_logged (fuel : nat) (total i : Z)
    (rest : list json) (st : state) :
  let error := TypeError "Cannot read properties of null (reading '_id')" in
  (exists issues, IndexTs.safeParse JNull = inl issues) /\
  (exists issues, IndexOrgTs.safeParse JNull = inl issues) /\
  IndexTs.processUserToClerk (S fuel) JNull st = (Throw error, st) /\
  IndexOrgTs.processOrganizationToClerk (S fuel) JNull st = (Throw error, st) /\
  Driver.main_loop IndexTs.User IndexTs.safeParse IndexTs.createUser
      "userId" "userId" (S fuel) total (JNull :: rest) i st
    = (Throw error, handed_over JNull total i st) /\
  Driver.main_loop IndexOrgTs.Organization IndexOrgTs.safeParse
      IndexOrgTs.createOrganization "organizationId" "userId"
      (S fuel) total (JNull :: rest) i st
    = (Throw error, handed_over JNull total i st) /\
  logfile (handed_over JNull total i st) = logfile st /\
  migrated (handed_over JNull total i st) = migrated st /\
  alreadyExists (handed_over JNull total i st) = alreadyExists st /\
  processed (trace (handed_over JNull total i st))
    = processed (trace st) ++ [JNull].
Proof.
  intros error.
  assert (Huser : forall st0,
            IndexTs.processUserToClerk (S fuel) JNull st0 = (Throw error, st0))
    by (intros st0; reflexivity).
  assert (Horg : forall st0,
            IndexOrgTs.processOrganizationToClerk (S fuel) JNull st0
            = (Throw error, st0))
    by (intros st0; reflexivity).
  split; [eexists; reflexivity|].
  split; [eexists; reflexivity|].
  split; [apply Huser|].
  split; [apply Horg|].
  split.
  { rewrite main_loop_cons.
    fold IndexTs.processUserToClerk. rewrite Huser. reflexivity. }
  split.
  { rewrite main_loop_cons.
    fold IndexOrgTs.processOrganizationToClerk. rewrite Horg. reflexivity. }
  split; [reflexivity|]. split; [reflexivity|]. split; [reflexivity|].
  cbn [handed_over recorded with_spinner slept trace].
  rewrite processed_app. cbn [processed].
  rewrite processed_app. cbn [processed]. rewrite app_nil_r. reflexivity.
Qed.

(** C3. A record whose creation is answered with 422 is not tried again:
    the function returns normally after that one creation request, without
    any sleep; the already-exists counter has gone up by one, the migrated
    counter is unchanged, and the log has exactly one more entry, for this
    record and this error. *)
Theorem conflict_is_counted_once (fuel : nat) (record : json)
    (error : jserror) (st st1 : state) :
  error_status error = Some 422 ->
  (forall userData,
     IndexTs.safeParse record = inr userData ->
     IndexTs.createUser userData st = (Throw error, st1) ->
     exists st' params,
       IndexTs.processUserToClerk (S fuel) record st = (Ok tt, st') /\
       trace st' = trace st ++ [EvCreateUser params] /\
       alreadyExists st' = alreadyExists st + 1 /\
       migrated st' = migrated st /\
       logfile st' = logfile st ++
         [{| log_key := "userId"; log_id := get record "_id";
             log_error := error |}]) /\
  (forall organizationData,
     IndexOrgTs.safeParse record = inr organizationData ->
     IndexOrgTs.createOrganization organizationData st = (Throw error, st1) ->
     exists st' params,
       IndexOrgTs.processOrganizationToClerk (S fuel) record st = (Ok tt, st') /\
       trace st' = trace st1 /\
       creation_requests (trace st')
         = creation_requests (trace st) ++ [EvCreateOrganization params] /\
       sleeps (trace st') = sleeps (trace st) /\
       alreadyExists st' = alreadyExists st + 1 /\
       migrated st' = migrated st /\
       logfile st' = logfile st ++
         [{| log_key := "organizationId"; log_id := get record "_id";
             log_error := error |}]).
Proof.
  intros Hstatus. apply status_is_of_error_status in Hstatus. split.
  - intros userData Hparse Hcreate.
    destruct (createUser_request userData) as [params Hrequest].
    pose proof (createUser_remote_only userData st) as [_ Hstep].
    rewrite Hcreate in Hstep. cbn [snd] in Hstep.
    destruct Hstep as (Hm & Ha & Hl & _).
    assert (Htrace : trace st1 = trace st ++ [EvCreateUser params]).
    { replace st1 with (snd (IndexTs.createUser userData st))
        by (rewrite Hcreate; reflexivity).
      rewrite Hrequest, remote_call_state. reflexivity. }
    eexists _, params. split.
    { eapply process_conflict; eauto using user_record_not_null. }
    cbn [one_more_alreadyExists logged trace alreadyExists migrated logfile].
    rewrite Hm, Ha, Hl. repeat split; assumption.
  - intros organizationData Hparse Hcreate.
    destruct (createOrganization_requests organizationData st)
      as [creator Hrequests].
    pose proof (createOrganization_remote_only organizationData st)
      as [_ Hstep].
    rewrite Hcreate in Hrequests, Hstep. cbn [snd] in Hrequests, Hstep.
    destruct Hstep as (Hm & Ha & Hl & _ & _ & _ & events & Htrace & Hevents).
    eexists _, _. split.
    { eapply process_conflict; eauto using organization_record_not_null. }
    cbn [one_more_alreadyExists logged trace alreadyExists migrated logfile].
    rewrite Hm, Ha, Hl. repeat split; try assumption.
    + exact Hrequests.
    + rewrite Htrace, sleeps_app, (remote_events_no_sleep _ Hevents).
      apply app_nil_r.
Qed.

End Outcomes.

(** ** The retry after a 429 answer *)

Section RetryChain.
Context `{Platform}.
Variable Valid : Type.
Variable safeParse : json -> Zod.parsed Valid.
Variable create : Valid -> M string.
Variable conflict_key failure_key : string.
Hypothesis create_remote_only : forall data, remote_only (create data).

Local Abbreviation process :=
  (Driver.processToClerk Valid safeParse create conflict_key failure_key).

(** As long as the attempts are answered with 429, each of them costs one
    unit of fuel and leads to the next one. *)
Lemma retry_chain (m fuel : nat) (record : json) (data : Valid) (st : state) :
  safeParse record = inr data ->
  (forall j, (j < m)%nat ->
     exists error,
       fst (create data (before_attempt create data j st)) = Throw error /\
       error_status error = Some 429) ->
  process (m + fuel) record st
    = process fuel record (before_attempt create data m st).
Proof.
  intros Hparse. revert st. induction m as [|m IH]; intros st Hlimited.
  - reflexivity.
  - destruct (Hlimited 0%nat ltac:(lia)) as (error & Hfirst & Hstatus).
    cbn [before_attempt] in Hfirst.
    destruct (create data st) as [result st1] eqn:Hcreate.
    cbn [fst] in Hfirst. subst result.
    cbn [Nat.add].
    erewrite process_rate_limited
      by eauto using status_is_of_error_status.
    rewrite IH.
    + cbn [before_attempt]. rewrite Hcreate. reflexivity.
    + intros j Hj. specialize (Hlimited (S j) ltac:(lia)).
      cbn [before_attempt] in Hlimited. rewrite Hcreate in Hlimited.
      exact Hlimited.
Qed.

(** The rate-limited attempts leave the counters and the log alone and
    sleep the cool-down once each. *)
Lemma before_attempt_frame (m : nat) (data : Valid) (st : state) :
  migrated (before_attempt create data m st) = migrated st /\
  alreadyExists (before_attempt create data m st) = alreadyExists st /\
  logfile (before_attempt create data m st) = logfile st /\
  sleeps (trace (before_attempt create data m st))
    = sleeps (trace st) ++ replicate m Driver.RETRY_DELAY.
Proof.
  revert st. induction m as [|m IH]; intros st.
  - cbn. rewrite app_nil_r. auto.
  - cbn [before_attempt].
    destruct (IH (cooled_down (spinner_text st) (snd (create data st))))
      as (Hm & Ha & Hl & Hs).
    destruct (create_remote_only data st)
      as [_ (Hm' & Ha' & Hl' & _ & _ & _ & events & Htrace & Hevents)].
    rewrite Hm, Ha, Hl, Hs. cbn.
    rewrite Htrace, !sleeps_app, (remote_events_no_sleep _ Hevents). cbn.
    rewrite app_nil_r, <- app_assoc. auto.
Qed.

End RetryChain.

Section Retry.
Context `{Platform}.

Lemma createUser_before_attempt (m : nat) (userData : IndexTs.User)
    (params : Clerk.CreateUserParams) (st : state) :
  (forall st0, IndexTs.createUser userData st0
     = remote_call (EvCreateUser params) (users_createUser params) st0) ->
  trace (before_attempt IndexTs.createUser userData m st)
    = trace st ++
      concat (replicate m [EvCreateUser params; EvSleep Driver.RETRY_DELAY]).
Proof.
  intros Hrequest. revert st. induction m as [|m IH]; intros st.
  - cbn. rewrite app_nil_r. reflexivity.
  - cbn [before_attempt]. rewrite IH. cbn.
    rewrite Hrequest, remote_call_state. cbn.
    rewrite <- !app_assoc. reflexivity.
Qed.

(** The shape of a creation request for an organization record. *)
Lemma createOrganization_before_attempt (m : nat)
    (organizationData : IndexOrgTs.Organization) (st : state) :
  exists requests,
    creation_requests
      (trace (before_attempt IndexOrgTs.createOrganization organizationData m st))
      = creation_requests (trace st) ++ requests /\
    length requests = m /\
    Forall (fun request =>
      exists creator,
        request = EvCreateOrganization
          {| Clerk.name := IndexOrgTs.organization_name organizationData;
             Clerk.createdBy := creator;
             Clerk.org_privateMetadata :=
               {| Clerk.opm_mongoId := IndexOrgTs._id organizationData;
                  Clerk.opm_external_id :=
                    Clerk.oid (IndexOrgTs._id organizationData) |} |})
      requests.
Proof.
  revert st. induction m as [|m IH]; intros st.
  - exists []. cbn. rewrite app_nil_r. auto.
  - cbn [before_attempt].
    destruct (IH (cooled_down (spinner_text st)
                    (snd (IndexOrgTs.createOrganization organizationData st))))
      as (requests & Hrequests & Hlength & Hshape).
    destruct (createOrganization_requests organizationData st)
      as [creator Hfirst].
    eexists (_ :: requests). split; [|split].
    + rewrite Hrequests. cbn [cooled_down with_spinner slept trace].
      rewrite creation_requests_app, Hfirst. cbn.
      rewrite <- !app_assoc. reflexivity.
    + cbn. rewrite Hlength. reflexivity.
    + constructor; [eauto|assumption].
Qed.

End Retry.

Section RateLimit.
Context `{Platform}.

(** C2. Let the first m creation attempts for a record be answered with 429
    and the next one succeed, for any m. Then, with fuel for m + 1 attempts,
    the function returns normally. After each 429 answer it has slept
    [RETRY_DELAY], the same delay every time, and sent the creation request
    for the same record again: for a user the very same request m + 1 times,
    for an organization m + 1 requests with the name and identifier of the
    record. The migrated counter has gone up by exactly one, and it had not
    moved before any of the attempts; the already-exists counter and the log
    are unchanged. *)
Theorem rate_limit_retries_until_created (fuel m : nat) (record : json)
    (remoteId : string) (st : state) :
  (m < fuel)%nat ->
  (forall userData,
     IndexTs.safeParse record = inr userData ->
     (forall j, (j < m)%nat ->
        exists error,
          fst (IndexTs.createUser userData
                 (before_attempt IndexTs.createUser userData j st))
            = Throw error /\
          error_status error = Some 429) ->
     fst (IndexTs.createUser userData
            (before_attempt IndexTs.createUser userData m st))
       = Ok remoteId ->
     exists st' params,
       IndexTs.processUserToClerk fuel record st = (Ok tt, st') /\
       trace st' = trace st ++
         concat (replicate m [EvCreateUser params;
                              EvSleep Driver.RETRY_DELAY]) ++
         [EvCreateUser params] /\
       migrated st' = migrated st + 1 /\
       (forall j, (j <= m)%nat ->
          migrated (before_attempt IndexTs.createUser userData j st)
            = migrated st) /\
       alreadyExists st' = alreadyExists st /\
       logfile st' = logfile st) /\
  (forall organizationData,
     IndexOrgTs.safeParse record = inr organizationData ->
     (forall j, (j < m)%nat ->
        exists error,
          fst (IndexOrgTs.createOrganization organizationData
                 (before_attempt IndexOrgTs.createOrganization
                    organizationData j st))
            = Throw error /\
          error_status error = Some 429) ->
     fst (IndexOrgTs.createOrganization organizationData
            (before_attempt IndexOrgTs.createOrganization organizationData m st))
       = Ok remoteId ->
     exists st' requests,
       IndexOrgTs.processOrganizationToClerk fuel record st = (Ok tt, st') /\
       sleeps (trace st')
         = sleeps (trace st) ++ replicate m Driver.RETRY_DELAY /\
       creation_requests (trace st')
         = creation_requests (trace st) ++ requests /\
       length requests = S m /\
       Forall (fun request =>
         exists creator,
           request = EvCreateOrganization
             {| Clerk.name := IndexOrgTs.organization_name organizationData;
                Clerk.createdBy := creator;
                Clerk.org_privateMetadata :=
                  {| Clerk.opm_mongoId := IndexOrgTs._id organizationData;
                     Clerk.opm_external_id :=
                       Clerk.oid (IndexOrgTs._id organizationData) |} |})
         requests /\
       migrated st' = migrated st + 1 /\
       (forall j, (j <= m)%nat ->
          migrated (before_attempt IndexOrgTs.createOrganization
                      organizationData j st)
            = migrated st) /\
       alreadyExists st' = alreadyExists st /\
       logfile st' = logfile st).
Proof.
  intros Hfuel.
  replace fuel with (m + S (fuel - S m))%nat by lia.
  split.
  - intros userData Hparse Hlimited Hcreated.
    destruct (createUser_request userData) as [params Hrequest].
    set (st_m := before_attempt IndexTs.createUser userData m st) in *.
    destruct (IndexTs.createUser userData st_m) as [result st_end] eqn:Hlast.
    cbn [fst] in Hcreated. subst result.
    exists (one_more_migrated st_end), params.
    destruct (before_attempt_frame _ _ createUser_remote_only m userData st)
      as (Hm & Ha & Hl & _).
    fold st_m in Hm, Ha, Hl.
    pose proof (createUser_remote_only userData st_m) as [_ Hstep].
    rewrite Hlast in Hstep. cbn [snd] in Hstep.
    destruct Hstep as (Hm' & Ha' & Hl' & _).
    split; [|split; [|split; [|split; [|split]]]].
    + unfold IndexTs.processUserToClerk.
      rewrite (retry_chain _ _ _ _ _ m _ record userData st Hparse Hlimited).
      eapply process_created; eassumption.
    + cbn [one_more_migrated trace].
      replace st_end with (snd (IndexTs.createUser userData st_m))
        by (rewrite Hlast; reflexivity).
      rewrite Hrequest, remote_call_state. cbn [answered trace].
      subst st_m. rewrite (createUser_before_attempt m userData params st Hrequest).
      rewrite <- app_assoc. reflexivity.
    + cbn. lia.
    + intros j _.
      apply (before_attempt_frame _ _ createUser_remote_only j userData st).
    + cbn. congruence.
    + cbn. congruence.
  - intros organizationData Hparse Hlimited Hcreated.
    set (st_m := before_attempt IndexOrgTs.createOrganization
                   organizationData m st) in *.
    destruct (IndexOrgTs.createOrganization organizationData st_m)
      as [result st_end] eqn:Hlast.
    cbn [fst] in Hcreated. subst result.
    destruct (before_attempt_frame _ _ createOrganization_remote_only m
                organizationData st) as (Hm & Ha & Hl & Hs).
    fold st_m in Hm, Ha, Hl, Hs.
    pose proof (createOrganization_remote_only organizationData st_m)
      as [_ Hstep].
    destruct (createOrganization_requests organizationData st_m)
      as [creator Hrequest].
    rewrite Hlast in Hstep, Hrequest. cbn [snd] in Hstep, Hrequest.
    destruct Hstep as (Hm' & Ha' & Hl' & _ & _ & _ & events & Htrace & Hevents).
    destruct (createOrganization_before_attempt m organizationData st)
      as (requests & Hrequests & Hlength & Hshape).
    fold st_m in Hrequests.
    match type of Hrequest with
    | _ = _ ++ [?request] =>
        exists (one_more_migrated st_end), (requests ++ [request])
    end.
    split; [|split; [|split; [|split; [|split; [|split; [|split; [|split]]]]]]].
    + unfold IndexOrgTs.processOrganizationToClerk.
      rewrite (retry_chain _ _ _ _ _ m _ record organizationData st
                 Hparse Hlimited).
      eapply process_created; eassumption.
    + cbn [one_more_migrated trace].
      rewrite Htrace, sleeps_app, (remote_events_no_sleep _ Hevents), Hs.
      apply app_nil_r.
    + cbn [one_more_migrated trace].
      rewrite Hrequest, Hrequests, <- app_assoc. reflexivity.
    + rewrite length_app, Hlength. cbn. lia.
    + apply Forall_app. split; [assumption|]. constructor; [eauto|constructor].
    + cbn. lia.
    + intros j _.
      apply (before_attempt_frame _ _ createOrganization_remote_only j
               organizationData st).
    + cbn. congruence.
    + cbn. congruence.
Qed.

End RateLimit.

(** ** Fuel

    Fuel bounds the number of attempts on one record. A run that ends with
    some fuel ends in the same way with more, and a remote service that never
    answers 429 needs a single unit. *)

Section Fuel.
Context `{Platform}.
Variable Valid : Type.
Variable safeParse : json -> Zod.parsed Valid.
Variable create : Valid -> M string.
Variable conflict_key failure_key entities : string.
Hypothesis create_remote_only : forall data, remote_only (create data).

Local Abbreviation process :=
  (Driver.processToClerk Valid safeParse create conflict_key failure_key).
Local Abbreviation main_loop :=
  (Driver.main_loop Valid safeParse create conflict_key failure_key).
Local Abbreviation script :=
  (Driver.script Valid safeParse create conflict_key failure_key entities).

Lemma process_fuel_mono (fuel extra : nat) (record : json)
    (result : outcome unit) (st st' : state) :
  process fuel record st = (result, st') ->
  result <> OutOfFuel ->
  process (fuel + extra) record st = (result, st').
Proof.
  revert st. induction fuel as [|fuel IH]; intros st Hrun Hend.
  - inversion Hrun. congruence.
  - cbn [Nat.add].
    destruct (safeParse record) as [issues|data] eqn:Hparse.
    + cbn [Driver.processToClerk] in *.
      unfold bind, try_catch, get_spinner_text in *.
      rewrite Hparse in *. exact Hrun.
    + destruct (create data st) as [[remoteId|error|] st1] eqn:Hcreate.
      * erewrite process_created in * by eassumption. exact Hrun.
      * destruct (status_is error 429) eqn:H429.
        { erewrite process_rate_limited in * by eassumption.
          apply IH; assumption. }
        cbn [Driver.processToClerk] in *.
        unfold bind, try_catch, get_spinner_text in *.
        rewrite Hparse, Hcreate, H429 in *. exact Hrun.
      * destruct (create_remote_only data st) as [Hcreate_ends _].
        rewrite Hcreate in Hcreate_ends. cbn in Hcreate_ends. congruence.
Qed.

Lemma main_loop_fuel_mono (fuel extra : nat) (total : Z) (records : list json)
    (i : Z) (result : outcome unit) (st st' : state) :
  main_loop fuel total records i st = (result, st') ->
  result <> OutOfFuel ->
  main_loop (fuel + extra) total records i st = (result, st').
Proof.
  revert i st. induction records as [|record rest IH]; intros i st Hrun Hend.
  - exact Hrun.
  - rewrite main_loop_cons in *.
    destruct (process fuel record (handed_over record total i st))
      as [first st1] eqn:Hfirst.
    assert (Hfirst_ends : first <> OutOfFuel).
    { intros ->. inversion Hrun. congruence. }
    rewrite (process_fuel_mono _ extra _ _ _ _ Hfirst Hfirst_ends).
    destruct first as [[]|error|]; [|exact Hrun|congruence].
    apply IH; assumption.
Qed.

Lemma script_fuel_mono (fuel extra : nat) (result : outcome unit)
    (st st' : state) :
  script fuel st = (result, st') ->
  result <> OutOfFuel ->
  script (fuel + extra) st = (result, st').
Proof.
  intros Hrun Hend.
  destruct (startup_cases st) as [Hstart|[message Hstart]].
  2:{ rewrite (script_refused _ _ _ _ _ _ _ _ _ Hstart) in Hrun.
      rewrite (script_refused _ _ _ _ _ _ _ _ _ Hstart). exact Hrun. }
  destruct (readJSON (input_file entities)) as [error|records] eqn:Hfile.
  - rewrite script_proceeds in Hrun by assumption.
    rewrite script_proceeds by assumption.
    unfold Driver.main, bind, read_input, console_log, modify in *.
    fold (input_file entities) in *. rewrite Hfile in *. exact Hrun.
  - rewrite (script_started _ _ _ _ _ _ _ _ _ Hstart Hfile) in Hrun.
    rewrite (script_started _ _ _ _ _ _ _ _ _ Hstart Hfile).
    destruct (main_loop fuel _ _ _ _) as [loop st1] eqn:Hloop.
    assert (Hloop_ends : loop <> OutOfFuel).
    { intros ->. inversion Hrun. congruence. }
    rewrite (main_loop_fuel_mono _ extra _ _ _ _ _ _ Hloop Hloop_ends).
    exact Hrun.
Qed.

(** No answer of the creation function carries the status 429. *)
Hypothesis never_rate_limited :
  forall data st error st1,
    create data st = (Throw error, st1) -> status_is error 429 = false.

Lemma process_ends_without_rate_limit (fuel : nat) (record : json)
    (st : state) :
  record <> JNull ->
  exists st', process (S fuel) record st = (Ok tt, st').
Proof.
  intros Hnull.
  destruct (safeParse record) as [issues|data] eqn:Hparse.
  - eexists. apply process_invalid; eassumption.
  - destruct (create data st) as [[remoteId|error|] st1] eqn:Hcreate.
    + eexists. eapply process_created; eassumption.
    + pose proof (never_rate_limited _ _ _ _ Hcreate) as H429.
      destruct (status_is error 422) eqn:H422; eexists.
      * eapply process_conflict; eassumption.
      * eapply process_failed; eassumption.
    + destruct (create_remote_only data st) as [Hcreate_ends _].
      rewrite Hcreate in Hcreate_ends. cbn in Hcreate_ends. congruence.
Qed.

Lemma main_loop_ends_without_rate_limit (fuel : nat) (total : Z)
    (records : list json) (i : Z) (st : state) :
  Forall (fun record => record <> JNull) records ->
  exists st', main_loop (S fuel) total records i st = (Ok tt, st').
Proof.
  intros Hrecords. revert i st.
  induction Hrecords as [|record rest Hnull _ IH]; intros i st.
  - eexists. reflexivity.
  - rewrite main_loop_cons.
    destruct (process_ends_without_rate_limit fuel record
                (handed_over record total i st) Hnull) as [st1 ->].
    apply IH.
Qed.

(** A script that passes its checks and reads a file without [null]
    entries completes normally when the remote service never answers 429. *)
Lemma script_ends_without_rate_limit (fuel : nat) (records : list json)
    (st : state) :
  Driver.startup st = (Ok tt, st) ->
  readJSON (input_file entities) = inr records ->
  Forall (fun record => record <> JNull) records ->
  exists st', script (S fuel) st = (Ok tt, st').
Proof.
  intros Hstart Hfile Hrecords.
  rewrite (script_started _ _ _ _ _ _ _ _ _ Hstart Hfile).
  assert (Hhanded : Forall (fun record => record <> JNull)
                      (slice Driver.OFFSET records)).
  { unfold slice. apply Forall_drop. exact Hrecords. }
  destruct (main_loop_ends_without_rate_limit fuel
              (Z.of_nat (length (slice Driver.OFFSET records)))
              (slice Driver.OFFSET records) 0 (started entities st) Hhanded)
    as [st1 ->].
  eexists. reflexivity.
Qed.

End Fuel.

(** However often the creation is answered with 429, the function is still
    at work on the record: there is no last attempt. *)
Lemma retry_has_no_limit `{Platform} (Valid : Type)
    (safeParse : json -> Zod.parsed Valid) (create : Valid -> M string)
    (conflict_key failure_key : string) (m : nat) (record : json)
    (data : Valid) (st : state) :
  safeParse record = inr data ->
  (forall j, (j < m)%nat ->
     exists error,
       fst (create data (before_attempt create data j st)) = Throw error /\
       error_status error = Some 429) ->
  Driver.processToClerk Valid safeParse create conflict_key failure_key
    m record st
    = (OutOfFuel, before_attempt create data m st).
Proof.
  intros Hparse Hlimited.
  replace m with (m + 0)%nat at 1 by lia.
  rewrite (retry_chain _ _ _ _ _ m 0 record data st Hparse Hlimited).
  reflexivity.
Qed.

(** ** The properties on scripted runs *)

Lemma run_of_outcome {A B : Type} (run : A * B) (result : A) :
  fst run = result -> run = (result, snd run).
Proof. intros <-. destruct run; reflexivity. Qed.

Lemma startup_passes_of_outcome `{Platform} (st : state) :
  fst (Driver.startup st) = Ok tt -> Driver.startup st = (Ok tt, st).
Proof.
  intros Hpass. destruct (startup_cases st) as [Hok|[message Hfail]].
  - exact Hok.
  - rewrite Hfail in Hpass. discriminate.
Qed.

Section Scripted.
Import Scenario.

(** The example of the specification: two records migrated, none already
    there, one entry in the log (for the second record), and three creation
    requests, two of them for the third record. *)
Example three_users_run :
  let st' := snd (@IndexTs.script users_platform 5
                    (@initial users_platform three_users_world)) in
  fst (@IndexTs.script users_platform 5
         (@initial users_platform three_users_world)) = Ok tt /\
  migrated st' = 2 /\
  alreadyExists st' = 0 /\
  length (logfile st') = 1%nat /\
  length (creation_requests (trace st')) = 3%nat /\
  sleeps (trace st') = [Num 1000; Num 1000; Num 1000; Num 10000].
Proof. vm_compute. repeat split; reflexivity. Qed.

(** The line "failed to upload" shows the already-exists counter: here one
    record failed for good and the line still says 0. *)
Example failed_to_upload_is_not_the_failures :
  let st' := snd (@IndexTs.script users_platform 5
                    (@initial users_platform three_users_world)) in
  permanent_failures (logfile st') = 1 /\
  last (console st') = Some "0 users failed to upload".
Proof. vm_compute. split; reflexivity. Qed.

(** A [null] in the file ends the run with a [TypeError] from the [catch]
    clause: nothing is logged and no summary is printed. *)
Example null_record_ends_the_run :
  let run := @IndexTs.script null_platform 5
               (@initial null_platform quiet_world) in
  fst run = Throw (TypeError "Cannot read properties of null (reading '_id')") /\
  logfile (snd run) = [] /\
  length (console (snd run)) = 3%nat /\
  processed (trace (snd run)) = [JNull].
Proof. vm_compute. repeat split; reflexivity. Qed.

(** Passwords that are sent and passwords that are dropped. *)
Example passwords_sent_and_dropped :
  let sent pw :=
    password_fields
      (trace (snd (@IndexTs.createUser users_platform (cy_with_password pw)
                     (@initial users_platform quiet_world)))) in
  sent "123456789" = [(Some "123456789", None)] /\
  sent "12345678" = [(Some "12345678", None)] /\
  sent "1234567" = [(None, Some true)] /\
  sent "correct horse battery" = [(None, Some true)] /\
  sent "" = [(None, Some true)].
Proof. vm_compute. repeat split; reflexivity. Qed.

(** C1 as stated fails beyond the input and for negative offsets: with
    three records and the offset 5 nothing is processed, so the sum is 0 and
    not 3 - 5; with the offset -1 the last record alone is processed, so the
    sum is 1 and not 3 - (-1). *)
Lemma accounting_is_not_n_minus_k :
  (let P := offset_platform "5" in
   let st' := snd (@IndexTs.script P 5 (@initial P three_users_world)) in
   @readJSON P (@input_file P "users") = inr three_users /\
   @Driver.OFFSET P = Num 5 /\
   @IndexTs.script P 5 (@initial P three_users_world) = (Ok tt, st') /\
   migrated st' + alreadyExists st' + permanent_failures (logfile st')
     <> Z.of_nat (length three_users) - 5) /\
  (let P := offset_platform "-1" in
   let st' := snd (@IndexTs.script P 5 (@initial P three_users_world)) in
   @readJSON P (@input_file P "users") = inr three_users /\
   @Driver.OFFSET P = Num (-1) /\
   @IndexTs.script P 5 (@initial P three_users_world) = (Ok tt, st') /\
   migrated st' + alreadyExists st' + permanent_failures (logfile st')
     <> Z.of_nat (length three_users) - (-1)).
Proof.
  split; cbv zeta.
  all: split; [vm_compute; reflexivity|].
  all: split; [vm_compute; reflexivity|].
  all: split; [apply run_of_outcome; vm_compute; reflexivity|].
  all: vm_compute; discriminate.
Qed.

(** The amended C1 on the three users read from offset 1. *)
Lemma accounting_of_completed_run_witness :
  let P := offset_platform "1" in
  let st' := snd (@IndexTs.script P 5 (@initial P three_users_world)) in
  @readJSON P (@input_file P "users") = inr three_users /\
  @IndexTs.script P 5 (@initial P three_users_world) = (Ok tt, st') /\
  migrated st' + alreadyExists st' + permanent_failures (logfile st')
    = Z.of_nat (length (slice (@Driver.OFFSET P) three_users)) /\
  (forall k, @Driver.OFFSET P = Num k -> 0 <= k ->
     migrated st' + alreadyExists st' + permanent_failures (logfile st')
       = Z.max (Z.of_nat (length three_users) - k) 0).
Proof.
  cbv zeta.
  assert (Hfile : @readJSON (offset_platform "1")
                    (@input_file (offset_platform "1") "users")
                  = inr three_users)
    by (vm_compute; reflexivity).
  split; [exact Hfile|].
  assert (Hrun := run_of_outcome
            (@IndexTs.script (offset_platform "1") 5
               (@initial (offset_platform "1") three_users_world))
            (Ok tt) ltac:(vm_compute; reflexivity)).
  split; [exact Hrun|].
  exact (@accounting_of_completed_run (offset_platform "1") 5
           three_users_world three_users _ Hfile Hrun).
Defined.

(** C2 on a user and on an organization that are rate limited twice. *)
Lemma rate_limit_retries_until_created_witness :
  (let P := users_platform in
   let st := @initial P twice_limited_world in
   @IndexTs.safeParse P cy_record = inr cy /\
   exists st',
     @IndexTs.processUserToClerk P 3 cy_record st = (Ok tt, st') /\
     migrated st' = migrated st + 1 /\
     sleeps (trace st') = [@Driver.RETRY_DELAY P; @Driver.RETRY_DELAY P] /\
     length (creation_requests (trace st')) = 3%nat) /\
  (let P := organizations_platform in
   let st := @initial P twice_limited_world in
   IndexOrgTs.safeParse acme_record = inr acme /\
   exists st',
     @IndexOrgTs.processOrganizationToClerk P 3 acme_record st = (Ok tt, st') /\
     migrated st' = migrated st + 1 /\
     sleeps (trace st') = [@Driver.RETRY_DELAY P; @Driver.RETRY_DELAY P] /\
     length (creation_requests (trace st')) = 3%nat).
Proof.
  split.
  - intros P st.
    assert (Hparse : @IndexTs.safeParse P cy_record = inr cy)
      by (vm_compute; reflexivity).
    split; [exact Hparse|].
    assert (Hlimited : forall j, (j < 2)%nat ->
              exists error,
                fst (@IndexTs.createUser P cy
                       (before_attempt (@IndexTs.createUser P) cy j st))
                  = Throw error /\
                error_status error = Some 429).
    { intros [|[|j]] Hj; [| |lia].
      all: exists (ApiError (Some 429) "Too Many Requests").
      all: split; vm_compute; reflexivity. }
    assert (Hcreated :
              fst (@IndexTs.createUser P cy
                     (before_attempt (@IndexTs.createUser P) cy 2 st))
                = Ok "made")
      by (vm_compute; reflexivity).
    destruct (proj1 (@rate_limit_retries_until_created P 3 2 cy_record "made" st
                       ltac:(lia))
                cy Hparse Hlimited Hcreated)
      as (st' & params & Hrun & Htrace & Hmigrated & _).
    exists st'. split; [exact Hrun|]. split; [exact Hmigrated|].
    rewrite Htrace. split; reflexivity.
  - intros P st.
    assert (Hparse : IndexOrgTs.safeParse acme_record = inr acme)
      by (vm_compute; reflexivity).
    split; [exact Hparse|].
    assert (Hlimited : forall j, (j < 2)%nat ->
              exists error,
                fst (@IndexOrgTs.createOrganization P acme
                       (before_attempt (@IndexOrgTs.createOrganization P)
                          acme j st))
                  = Throw error /\
                error_status error = Some 429).
    { intros [|[|j]] Hj; [| |lia].
      all: exists (ApiError (Some 429) "Too Many Requests").
      all: split; vm_compute; reflexivity. }
    assert (Hcreated :
              fst (@IndexOrgTs.createOrganization P acme
                     (before_attempt (@IndexOrgTs.createOrganization P)
                        acme 2 st))
                = Ok "made")
      by (vm_compute; reflexivity).
    destruct (proj2 (@rate_limit_retries_until_created P 3 2 acme_record "made"
                       st ltac:(lia))
                acme Hparse Hlimited Hcreated)
      as (st' & requests & Hrun & Hsleeps & Hrequests & Hlength & _ & Hmigrated & _).
    exists st'. split; [exact Hrun|]. split; [exact Hmigrated|].
    split; [exact Hsleeps|].
    rewrite Hrequests, length_app, Hlength. reflexivity.
Defined.

(** C3 on a user and on an organization that exist already. *)
Lemma conflict_is_counted_once_witness :
  (let P := users_platform in
   let st := @initial P conflict_world in
   @IndexTs.safeParse P cy_record = inr cy /\
   exists st',
     @IndexTs.processUserToClerk P 1 cy_record st = (Ok tt, st') /\
     alreadyExists st' = 1 /\
     migrated st' = 0 /\
     length (logfile st') = 1%nat /\
     length (trace st') = 1%nat) /\
  (let P := organizations_platform in
   let st := @initial P conflict_world in
   IndexOrgTs.safeParse acme_record = inr acme /\
   exists st',
     @IndexOrgTs.processOrganizationToClerk P 1 acme_record st = (Ok tt, st') /\
     alreadyExists st' = 1 /\
     migrated st' = 0 /\
     length (logfile st') = 1%nat /\
     length (creation_requests (trace st')) = 1%nat /\
     sleeps (trace st') = []).
Proof.
  assert (Hstatus : error_status (ApiError (Some 422) "Unprocessable Entity")
                    = Some 422) by reflexivity.
  split; cbv zeta.
  - assert (Hparse : @IndexTs.safeParse users_platform cy_record = inr cy)
      by (vm_compute; reflexivity).
    split; [exact Hparse|].
    assert (Hcreate := run_of_outcome
              (@IndexTs.createUser users_platform cy
                 (@initial users_platform conflict_world))
              (Throw (ApiError (Some 422) "Unprocessable Entity"))
              ltac:(vm_compute; reflexivity)).
    destruct (proj1 (@conflict_is_counted_once users_platform 0 cy_record _ _ _
                       Hstatus) cy Hparse Hcreate)
      as (st' & params & Hrun & Htrace & Hexists & Hmigrated & Hlog).
    exists st'. split; [exact Hrun|].
    rewrite Hexists, Hmigrated, Hlog, Htrace. repeat split; reflexivity.
  - assert (Hparse : IndexOrgTs.safeParse acme_record = inr acme)
      by (vm_compute; reflexivity).
    split; [exact Hparse|].
    assert (Hcreate := run_of_outcome
              (@IndexOrgTs.createOrganization organizations_platform acme
                 (@initial organizations_platform conflict_world))
              (Throw (ApiError (Some 422) "Unprocessable Entity"))
              ltac:(vm_compute; reflexivity)).
    destruct (proj2 (@conflict_is_counted_once organizations_platform 0
                       acme_record _ _ _ Hstatus) acme Hparse Hcreate)
      as (st' & params & Hrun & _ & Hrequests & Hsleeps & Hexists & Hmigrated
          & Hlog).
    exists st'. split; [exact Hrun|].
    rewrite Hexists, Hmigrated, Hlog, Hrequests, Hsleeps.
    repeat split; reflexivity.
Defined.

(** X20 on a record with a malformed address (users) and without a name
    (organizations). *)
Lemma invalid_record_is_logged_once_witness :
  (let P := users_platform in
   let st := @initial P quiet_world in
   bad_record <> JNull /\
   @IndexTs.safeParse P bad_record
     = inl [{| issue_code := "invalid_string"; issue_path := ["email"] |}] /\
   exists st',
     @IndexTs.processUserToClerk P 1 bad_record st = (Ok tt, st') /\
     trace st' = [] /\
     migrated st' = 0 /\
     alreadyExists st' = 0 /\
     length (logfile st') = 1%nat) /\
  (let P := organizations_platform in
   let st := @initial P quiet_world in
   bad_record <> JNull /\
   IndexOrgTs.safeParse bad_record
     = inl [{| issue_code := "invalid_type";
               issue_path := ["organization_name"] |}] /\
   exists st',
     @IndexOrgTs.processOrganizationToClerk P 1 bad_record st = (Ok tt, st') /\
     trace st' = [] /\
     migrated st' = 0 /\
     alreadyExists st' = 0 /\
     length (logfile st') = 1%nat).
Proof.
  assert (Hnull : bad_record <> JNull) by discriminate.
  split; cbv zeta; (split; [exact Hnull|]).
  - assert (Hparse : @IndexTs.safeParse users_platform bad_record
              = inl [{| issue_code := "invalid_string";
                        issue_path := ["email"] |}])
      by (vm_compute; reflexivity).
    split; [exact Hparse|].
    destruct (proj1 (@invalid_record_is_logged_once users_platform 0 bad_record
                       _ (@initial users_platform quiet_world) Hnull) Hparse)
      as (st' & Hrun & Htrace & _ & Hmigrated & Hexists & Hlog & _).
    exists st'. split; [exact Hrun|].
    rewrite Htrace, Hmigrated, Hexists, Hlog. repeat split; reflexivity.
  - assert (Hparse : IndexOrgTs.safeParse bad_record
              = inl [{| issue_code := "invalid_type";
                        issue_path := ["organization_name"] |}])
      by (vm_compute; reflexivity).
    split; [exact Hparse|].
    destruct (proj2 (@invalid_record_is_logged_once organizations_platform 0
                       bad_record _
                       (@initial organizations_platform quiet_world) Hnull)
                Hparse)
      as (st' & Hrun & Htrace & _ & Hmigrated & Hexists & Hlog & _).
    exists st'. split; [exact Hrun|].
    rewrite Htrace, Hmigrated, Hexists, Hlog. repeat split; reflexivity.
Defined.


(** C6 on the three users and on one organization. *)
Lemma summary_lines_witness :
  (let P := users_platform in
   let run := @IndexTs.script P 5 (@initial P three_users_world) in
   fst run = Ok tt /\
   List.skipn 3 (console (snd run))
     = ["2 users migrated"; "0 users failed to upload"]) /\
  (let P := organizations_platform in
   let run := @IndexOrgTs.script P 5 (@initial P quiet_world) in
   fst run = Ok tt /\
   List.skipn 3 (console (snd run))
     = ["1 organizations migrated"; "0 organizations failed to upload"]).
Proof.
  split; cbv zeta.
  - assert (Hout : fst (@IndexTs.script users_platform 5
                          (@initial users_platform three_users_world))
                   = Ok tt)
      by (vm_compute; reflexivity).
    split; [exact Hout|].
    rewrite (proj1 (@summary_lines users_platform 5 three_users_world _)
               (run_of_outcome _ _ Hout)).
    vm_compute. reflexivity.
  - assert (Hout : fst (@IndexOrgTs.script organizations_platform 5
                          (@initial organizations_platform quiet_world))
                   = Ok tt)
      by (vm_compute; reflexivity).
    split; [exact Hout|].
    rewrite (proj2 (@summary_lines organizations_platform 5 quiet_world _)
               (run_of_outcome _ _ Hout)).
    vm_compute. reflexivity.
Defined.

(** C7 without a key, with a test key and no flag, and with a live key. *)
Lemma startup_checks_witness :
  (exists message,
     @IndexTs.script no_key_platform 5 (@initial no_key_platform quiet_world)
       = (Throw (Error message), @initial no_key_platform quiet_world)) /\
  (exists message,
     @IndexOrgTs.script test_key_platform 5
       (@initial test_key_platform quiet_world)
       = (Throw (Error message), @initial test_key_platform quiet_world)) /\
  @IndexTs.script users_platform 5 (@initial users_platform quiet_world)
    = bind (@IndexTs.main users_platform 5)
        (fun _ => @Driver.summary users_platform "users")
        (@initial users_platform quiet_world).
Proof.
  split; [|split].
  - destruct (proj1 (@startup_checks no_key_platform 5 quiet_world))
      as (message & Huser & _).
    + left. left. vm_compute. reflexivity.
    + exists message. exact Huser.
  - destruct (proj1 (@startup_checks test_key_platform 5 quiet_world))
      as (message & _ & Horg).
    + right. exists "sk_test_abc". split; [vm_compute; reflexivity|].
      split; [vm_compute; discriminate|]. left. vm_compute. reflexivity.
    + exists message. exact Horg.
  - apply (proj2 (@startup_checks users_platform 5 quiet_world)).
    assert (Hkey : @process_env users_platform !! "CLERK_SECRET_KEY"
                   = Some "sk_live_abc")
      by (vm_compute; reflexivity).
    intros [[Hnone|Hempty]|(secret & Hsecret & Hdev & _)].
    + rewrite Hkey in Hnone. discriminate.
    + rewrite Hkey in Hempty. discriminate.
    + rewrite Hkey in Hsecret. injection Hsecret as <-.
      apply Hdev. vm_compute. reflexivity.
Defined.

(** C9 when the look-up fails. *)
Lemma lookup_never_aborts_witness :
  let P := organizations_platform in
  let st := @initial P lookup_down_world in
  (exists userId st1,
     @IndexOrgTs.getUserByEmail P "ann@example.org" st = (Ok userId, st1)) /\
  exists st1 params,
    @IndexOrgTs.getUserByEmail P "ann@example.org" st = (Ok "", st1) /\
    Clerk.createdBy params = "" /\
    Clerk.name params = "Acme" /\
    @IndexOrgTs.createOrganization P acme st
      = remote_call (EvCreateOrganization params)
          (@organizations_createOrganization P params) st1.
Proof.
  cbv zeta.
  pose proof (@lookup_never_aborts organizations_platform "ann@example.org"
                acme (@initial organizations_platform lookup_down_world))
    as [(userId & st1 & Hlookup & _) Hmissing].
  split; [exists userId, st1; exact Hlookup|].
  destruct (Hmissing (inl (ApiError (Some 500) "Internal Server Error"))
              quiet_world ltac:(vm_compute; reflexivity)
              ltac:(right; eexists; reflexivity))
    as (st2 & Hempty & _ & Hcreate).
  eexists st2, _. split; [exact Hempty|].
  split; [|split; [|exact Hcreate]]; reflexivity.
Defined.

End Scripted.

(** ** More on whole runs *)

Section RunEffects.
Context `{Platform}.
Variable Valid : Type.
Variable safeParse : json -> Zod.parsed Valid.
Variable create : Valid -> M string.
Variable conflict_key failure_key entities : string.
Hypothesis create_remote_only : forall data, remote_only (create data).

Local Abbreviation process :=
  (Driver.processToClerk Valid safeParse create conflict_key failure_key).
Local Abbreviation main_loop :=
  (Driver.main_loop Valid safeParse create conflict_key failure_key).
Local Abbreviation script :=
  (Driver.script Valid safeParse create conflict_key failure_key entities).

(** What a script that passed its checks and read its file has done,
    however it ended. *)
Lemma script_effect (fuel : nat) (records : list json) (st : state) :
  Driver.startup st = (Ok tt, st) ->
  readJSON (input_file entities) = inr records ->
  let run := script fuel st in
  let handed := slice Driver.OFFSET records in
  exists bodies,
    trace (snd run)
      = trace st ++
        EvReadFile (input_file entities) :: blocks Driver.DELAY handed bodies /\
    Forall (fun body => forallb is_attempt body = true) bodies /\
    clock (snd run)
      = clock st + slept_time (blocks Driver.DELAY handed bodies) /\
    (length bodies <= length handed)%nat /\
    (fst run = Ok tt -> length bodies = length handed) /\
    (fst run = Ok tt ->
     console (snd run)
       = console st ++ opening_lines entities ++
         [string_of_Z (migrated (snd run)) +:+ " " +:+ entities +:+ " migrated";
          string_of_Z (alreadyExists (snd run)) +:+ " " +:+ entities
            +:+ " failed to upload"]) /\
    (fst run <> Ok tt ->
     console (snd run) = console st ++ opening_lines entities).
Proof.
  intros Hstart Hfile run handed. subst run.
  rewrite (script_started _ _ _ _ _ _ _ _ _ Hstart Hfile). fold handed.
  pose proof (main_loop_effect Valid safeParse create conflict_key failure_key
                create_remote_only
                fuel (Z.of_nat (length handed)) handed 0 (started entities st))
    as Heffect.
  destruct (main_loop fuel _ handed 0 (started entities st)) as [loop st1].
  cbn [fst snd] in Heffect.
  destruct Heffect as (Hconsole & bodies & Htrace & Hbodies & Hclock & Hle & Hlen).
  assert (Hopening : console (started entities st)
                     = console st ++ opening_lines entities).
  { unfold started, opening_lines. cbn. rewrite <- !app_assoc. reflexivity. }
  exists bodies.
  destruct loop as [[]|error|]; cbn [fst snd].
  - repeat split; try assumption.
    + cbn. rewrite Htrace. cbn. rewrite <- app_assoc. reflexivity.
    + cbn. rewrite Hconsole, Hopening. rewrite <- !app_assoc. reflexivity.
    + intros Hne. congruence.
  - repeat split; try assumption; try discriminate.
    + rewrite Htrace. cbn. rewrite <- app_assoc. reflexivity.
    + intros _. rewrite Hconsole. exact Hopening.
  - repeat split; try assumption; try discriminate.
    + rewrite Htrace. cbn. rewrite <- app_assoc. reflexivity.
    + intros _. rewrite Hconsole. exact Hopening.
Qed.

(** The records a completed run handed over are the slice of the file. *)
Lemma script_processed (fuel : nat) (records : list json) (st st' : state) :
  readJSON (input_file entities) = inr records ->
  script fuel st = (Ok tt, st') ->
  processed (trace st')
    = processed (trace st) ++ slice Driver.OFFSET records.
Proof.
  intros Hfile Hrun.
  destruct (script_ok_inv _ _ _ _ _ _ _ _ _ Hrun)
    as (records' & st1 & Hfile' & Hstart & _ & _).
  destruct (script_effect fuel records st Hstart Hfile)
    as (bodies & Htrace & Hbodies & _ & _ & Hlen & _).
  rewrite Hrun in Htrace, Hlen. cbn [fst snd] in Htrace, Hlen.
  rewrite Htrace, processed_app. cbn [processed].
  rewrite processed_blocks by assumption.
  rewrite (Hlen eq_refl), firstn_all. reflexivity.
Qed.

End RunEffects.

Section Throttle.
Context `{Platform}.

(** C8. In a run of the user script that has passed its checks and read its
    file, however the run ends, the trace after the reading of the file
    consists of one block per record handed over; the records handed over
    are the first of those taken from the file, in order, and all of them
    when the run completes. Each block opens with the sleep of [DELAY] and
    only then hands the record to [processUserToClerk], whose validation,
    creation requests and retry sleeps make up the rest of the block. This
    holds for the first record too. In every run, with N records handed
    over, a delay d >= 0 and timers that never fire before their delay, the
    clock, which only the sleeps advance, shows at least N * d at the end. *)
Theorem throttle_before_each_record (fuel : nat) (w : world) :
  let run := IndexTs.script fuel (initial w) in
  (forall records,
     Driver.startup (initial w) = (Ok tt, initial w) ->
     readJSON (input_file "users") = inr records ->
     let handed := slice Driver.OFFSET records in
     exists bodies,
       trace (snd run)
         = EvReadFile (input_file "users")
           :: blocks Driver.DELAY handed bodies /\
       Forall (fun body => forallb is_attempt body = true) bodies /\
       (length bodies <= length handed)%nat /\
       processed (trace (snd run)) = take (length bodies) handed /\
       (fst run = Ok tt -> processed (trace (snd run)) = handed)) /\
  (forall d,
     Driver.DELAY = Num d -> 0 <= d ->
     (forall ms, 0 <= timer ms) -> d <= timer (Num d) ->
     Z.of_nat (length (processed (trace (snd run)))) * d <= clock (snd run)).
Proof.
  intros run.
  assert (Heffect : forall records,
            Driver.startup (initial w) = (Ok tt, initial w) ->
            readJSON (input_file "users") = inr records ->
            exists bodies,
              trace (snd run)
                = EvReadFile (input_file "users")
                  :: blocks Driver.DELAY (slice Driver.OFFSET records) bodies /\
              Forall (fun body => forallb is_attempt body = true) bodies /\
              clock (snd run)
                = slept_time
                    (blocks Driver.DELAY (slice Driver.OFFSET records) bodies) /\
              (length bodies <= length (slice Driver.OFFSET records))%nat /\
              (fst run = Ok tt ->
               length bodies = length (slice Driver.OFFSET records))).
  { intros records Hstart Hfile.
    destruct (script_effect IndexTs.User IndexTs.safeParse IndexTs.createUser
                "userId" "userId" "users" createUser_remote_only
                fuel records (initial w) Hstart Hfile)
      as (bodies & Htrace & Hbodies & Hclock & Hle & Hlen & _).
    exists bodies. repeat split; assumption. }
  split.
  - intros records Hstart Hfile handed.
    destruct (Heffect records Hstart Hfile)
      as (bodies & Htrace & Hbodies & _ & Hle & Hlen).
    fold handed in Htrace, Hle, Hlen.
    assert (Hprocessed : processed (trace (snd run))
                         = take (length bodies) handed).
    { rewrite Htrace. cbn [processed].
      apply processed_blocks. exact Hbodies. }
    exists bodies. repeat split; try assumption.
    intros Hok. rewrite Hprocessed, (Hlen Hok). apply firstn_all.
  - intros d Hdelay Hd Htimer Hfire.
    destruct (startup_cases (initial w)) as [Hstart|[message Hstart]].
    2:{ subst run. unfold IndexTs.script.
        rewrite (script_refused _ _ _ _ _ _ _ _ _ Hstart). cbn. lia. }
    destruct (readJSON (input_file "users")) as [error|records] eqn:Hfile.
    + subst run. unfold IndexTs.script.
      rewrite script_proceeds by assumption.
      unfold Driver.main, bind, read_input, console_log, modify.
      fold (input_file "users"). rewrite Hfile. cbn. lia.
    + destruct (Heffect records Hstart eq_refl)
        as (bodies & Htrace & Hbodies & Hclock & Hle & _).
      rewrite Htrace, Hclock. cbn [processed].
      rewrite processed_blocks by assumption.
      rewrite length_take.
      pose proof (slept_time_blocks Driver.DELAY
                    (slice Driver.OFFSET records) bodies Htimer Hle) as Hslept.
      rewrite Hdelay in Hslept. rewrite Hdelay.
      nia.
Qed.

End Throttle.

Lemma log_length_split (log : list LogEntry) :
  Z.of_nat (length log) = conflicts_logged log + permanent_failures log.
Proof.
  unfold conflicts_logged, permanent_failures.
  induction log as [|entry log IH]; cbn; [reflexivity|].
  destruct (is_conflict_entry entry); cbn; lia.
Qed.

Lemma conflicts_logged_app (log : list LogEntry) (entry : LogEntry) :
  conflicts_logged (log ++ [entry]) =
  conflicts_logged log + (if is_conflict_entry entry then 1 else 0).
Proof.
  unfold conflicts_logged. rewrite List.filter_app, length_app. cbn.
  destruct (is_conflict_entry entry); cbn; lia.
Qed.

Section Ledger.
Context `{Platform}.
Variable Valid : Type.
Variable safeParse : json -> Zod.parsed Valid.
Variable create : Valid -> M string.
Variable conflict_key failure_key entities : string.
Hypothesis create_remote_only : forall data, remote_only (create data).

Local Abbreviation process :=
  (Driver.processToClerk Valid safeParse create conflict_key failure_key).
Local Abbreviation main_loop :=
  (Driver.main_loop Valid safeParse create conflict_key failure_key).
Local Abbreviation script :=
  (Driver.script Valid safeParse create conflict_key failure_key entities).

(** The already-exists counter and the conflict entries of the log move
    together, however the work on a record ends. *)
Lemma process_ledger (fuel : nat) (record : json) (st : state) :
  alreadyExists (snd (process fuel record st))
    - conflicts_logged (logfile (snd (process fuel record st)))
  = alreadyExists st - conflicts_logged (logfile st).
Proof.
  revert st. induction fuel as [|fuel IH]; intros st; [reflexivity|].
  destruct (safeParse record) as [issues|data] eqn:Hparse.
  - cbn [Driver.processToClerk].
    unfold bind, try_catch, get_spinner_text. rewrite Hparse. cbn.
    destruct record; cbn; rewrite ?conflicts_logged_app; cbn; lia.
  - destruct (create_remote_only data st) as [Hend Hstep].
    destruct (create data st) as [[remoteId|error|] st1] eqn:Hcreate;
      cbn in Hend, Hstep; [| |congruence].
    all: destruct Hstep as (_ & Ha & Hl & _).
    + erewrite process_created by eassumption. cbn. rewrite Ha, Hl. reflexivity.
    + destruct (status_is error 429) eqn:H429.
      { erewrite process_rate_limited by eassumption.
        rewrite IH. cbn. rewrite Ha, Hl. reflexivity. }
      cbn [Driver.processToClerk].
      unfold bind, try_catch, get_spinner_text.
      rewrite Hparse, Hcreate, H429.
      destruct (status_is error 422) eqn:H422; destruct record; cbn.
      all: rewrite ?conflicts_logged_app; unfold is_conflict_entry; cbn.
      all: rewrite ?H422, Ha, Hl; lia.
Qed.

Lemma main_loop_ledger (fuel : nat) (total : Z) (records : list json) (i : Z)
    (st : state) :
  alreadyExists (snd (main_loop fuel total records i st))
    - conflicts_logged (logfile (snd (main_loop fuel total records i st)))
  = alreadyExists st - conflicts_logged (logfile st).
Proof.
  revert i st. induction records as [|record rest IH]; intros i st.
  - reflexivity.
  - rewrite main_loop_cons.
    pose proof (process_ledger fuel record (handed_over record total i st))
      as Hfirst.
    destruct (process fuel record (handed_over record total i st))
      as [[[]|error|] st1]; cbn [snd] in *.
    + rewrite IH. exact Hfirst.
    + exact Hfirst.
    + exact Hfirst.
Qed.

Lemma script_ledger (fuel : nat) (st : state) :
  alreadyExists (snd (script fuel st))
    - conflicts_logged (logfile (snd (script fuel st)))
  = alreadyExists st - conflicts_logged (logfile st).
Proof.
  destruct (startup_cases st) as [Hstart|[message Hstart]].
  2:{ rewrite (script_refused _ _ _ _ _ _ _ _ _ Hstart). reflexivity. }
  destruct (readJSON (input_file entities)) as [error|records] eqn:Hfile.
  - rewrite script_proceeds by assumption.
    unfold Driver.main, bind, read_input, console_log, modify.
    fold (input_file entities). rewrite Hfile. reflexivity.
  - rewrite (script_started _ _ _ _ _ _ _ _ _ Hstart Hfile).
    match goal with
    | |- context [main_loop ?f ?t ?rs ?i ?s0] =>
        pose proof (main_loop_ledger f t rs i s0) as Hloop;
        destruct (main_loop f t rs i s0) as [[[]|error|] st1]
    end.
    all: cbn [snd] in *; exact Hloop.
Qed.

(** A [null] among the records ends the loop with an error. *)
Lemma main_loop_null (fuel : nat) (total : Z) (records : list json) (i : Z)
    (st : state) :
  (exists issues, safeParse JNull = inl issues) ->
  In JNull records ->
  fst (main_loop fuel total records i st) <> Ok tt.
Proof.
  intros [issues Hparse]. revert i st.
  induction records as [|record rest IH]; intros i st Hin; [destruct Hin|].
  rewrite main_loop_cons.
  destruct Hin as [->|Hin].
  - destruct fuel as [|fuel]; [cbn; discriminate|].
    destruct (process_invalid_null _ safeParse create conflict_key failure_key
                fuel issues (handed_over JNull total i st) Hparse)
      as [message ->].
    cbn. discriminate.
  - destruct (process fuel record (handed_over record total i st))
      as [[[]|error|] st1]; cbn; try discriminate.
    apply IH. exact Hin.
Qed.

End Ledger.

Lemma slice_NaN {A} (arr : list A) : slice NaN arr = arr.
Proof. unfold slice. cbn. rewrite Z.min_l by lia. reflexivity. Qed.

Lemma slice_negative {A} (k : Z) (arr : list A) :
  0 < k -> slice (Num (- k)) arr = drop (length arr - Z.to_nat k) arr.
Proof.
  intros Hk. unfold slice.
  destruct (Z.ltb_spec (- k) 0) as [_|Hge]; [|lia].
  f_equal. lia.
Qed.

Section MoreRuns.
Context `{Platform}.

Lemma createUser_never_rate_limited :
  users_never_rate_limited ->
  forall userData st error st1,
    IndexTs.createUser userData st = (Throw error, st1) ->
    status_is error 429 = false.
Proof.
  intros Hnever userData st error st1 Hcreate.
  destruct (createUser_request userData) as [params Hrequest].
  rewrite Hrequest in Hcreate. unfold remote_call in Hcreate.
  destruct (users_createUser params (remote st)) as [[failure|remoteId] w]
    eqn:Hanswer; inversion Hcreate; subst.
  specialize (Hnever _ _ _ _ Hanswer).
  unfold status_is. destruct (error_status error) as [code|]; [|reflexivity].
  apply Z.eqb_neq. congruence.
Qed.

Lemma createOrganization_never_rate_limited :
  organizations_never_rate_limited ->
  forall organizationData st error st1,
    IndexOrgTs.createOrganization organizationData st = (Throw error, st1) ->
    status_is error 429 = false.
Proof.
  intros Hnever organizationData st error st1 Hcreate.
  destruct (getUserByEmail_total (IndexOrgTs.email organizationData) st)
    as (creator & st0 & Hlookup & _).
  rewrite (createOrganization_after_lookup _ _ _ _ Hlookup) in Hcreate.
  cbv zeta in Hcreate. unfold remote_call in Hcreate.
  destruct (organizations_createOrganization _ (remote st0))
    as [[failure|remoteId] w] eqn:Hanswer; inversion Hcreate; subst.
  specialize (Hnever _ _ _ _ Hanswer).
  unfold status_is. destruct (error_status error) as [code|]; [|reflexivity].
  apply Z.eqb_neq. congruence.
Qed.

(** X1. When the organization script completes normally, every record that
    [main] took from the file after the offset is in exactly one of three
    buckets: the migrated counter, the already-exists counter, or the
    permanent-failure entries of the log. *)
Theorem organization_accounting (fuel : nat) (w : world)
    (records : list json) (st' : state) :
  readJSON (input_file "organizations") = inr records ->
  IndexOrgTs.script fuel (initial w) = (Ok tt, st') ->
  migrated st' + alreadyExists st' + permanent_failures (logfile st')
    = Z.of_nat (length (slice Driver.OFFSET records)).
Proof.
  intros Hfile Hrun.
  destruct (script_ok_inv _ _ _ _ _ _ _ _ _ Hrun)
    as (records' & st1 & Hfile' & _ & Hloop & ->).
  rewrite Hfile in Hfile'. inversion Hfile'; subst records'.
  apply (main_loop_accounting _ _ _ _ _ createOrganization_remote_only) in Hloop.
  change (accounted st1 = Z.of_nat (length (slice Driver.OFFSET records))).
  rewrite Hloop. unfold accounted, permanent_failures. cbn. lia.
Qed.

(** X2. A run of the organization script that completes normally has read
    its file once and then worked on the records of [slice(OFFSET)] one after
    the other, in the order of the file: the trace is one block per record,
    and each block opens with the sleep of [DELAY] before the record is handed
    to [processOrganizationToClerk]. With timers that never fire before their
    delay the clock shows at least N * d for N records and a delay d >= 0. *)
Theorem organization_run_shape (fuel : nat) (w : world)
    (records : list json) (st' : state) :
  readJSON (input_file "organizations") = inr records ->
  IndexOrgTs.script fuel (initial w) = (Ok tt, st') ->
  let handed := slice Driver.OFFSET records in
  processed (trace st') = handed /\
  (exists bodies,
     length bodies = length handed /\
     Forall (fun body => forallb is_attempt body = true) bodies /\
     trace st'
       = EvReadFile (input_file "organizations")
         :: blocks Driver.DELAY handed bodies) /\
  (forall d,
     Driver.DELAY = Num d -> 0 <= d ->
     (forall ms, 0 <= timer ms) -> d <= timer (Num d) ->
     Z.of_nat (length handed) * d <= clock st').
Proof.
  intros Hfile Hrun handed.
  destruct (script_ok_inv _ _ _ _ _ _ _ _ _ Hrun)
    as (records' & st1 & _ & Hstart & _ & _).
  destruct (script_effect IndexOrgTs.Organization IndexOrgTs.safeParse
              IndexOrgTs.createOrganization
              "organizationId" "userId" "organizations"
              createOrganization_remote_only fuel records (initial w)
              Hstart Hfile)
    as (bodies & Htrace & Hbodies & Hclock & Hle & Hlen & _).
  fold IndexOrgTs.script in Htrace, Hclock, Hlen.
  rewrite Hrun in Htrace, Hclock, Hlen. cbn [fst snd] in Htrace, Hclock, Hlen.
  specialize (Hlen eq_refl). fold handed in Htrace, Hclock, Hle, Hlen.
  split; [|split].
  - apply (script_processed _ _ _ _ _ _ createOrganization_remote_only
             fuel records (initial w) st' Hfile Hrun).
  - exists bodies. repeat split; assumption.
  - intros d Hdelay Hd Htimer Hfire. rewrite Hclock.
    pose proof (slept_time_blocks Driver.DELAY handed bodies Htimer Hle)
      as Hslept.
    rewrite Hlen, Hdelay in Hslept. rewrite Hdelay. cbn [initial clock]. nia.
Qed.

(** X3. A run that does not complete normally prints no summary: whatever
    went wrong, the console holds at most the three opening lines of [main]. *)
Theorem no_summary_without_completion (fuel : nat) (w : world)
    (result : outcome unit) (st' : state) :
  result <> Ok tt ->
  (IndexTs.script fuel (initial w) = (result, st') ->
   exists n, console st' = take n (opening_lines "users")) /\
  (IndexOrgTs.script fuel (initial w) = (result, st') ->
   exists n, console st' = take n (opening_lines "organizations")).
Proof.
  intros Hresult.
  assert (Hgeneric :
    forall Valid safeParse create conflict_key failure_key entities,
      (forall data, remote_only (create data)) ->
      Driver.script Valid safeParse create conflict_key failure_key entities
        fuel (initial w) = (result, st') ->
      exists n, console st' = take n (opening_lines entities)).
  { intros Valid safeParse create conflict_key failure_key entities Hframe Hrun.
    destruct (startup_cases (initial w)) as [Hstart|[message Hstart]].
    2:{ rewrite (script_refused _ _ _ _ _ _ _ _ _ Hstart) in Hrun.
        inversion Hrun. exists 0%nat. reflexivity. }
    destruct (readJSON (input_file entities)) as [error|records] eqn:Hfile.
    - rewrite script_proceeds in Hrun by assumption.
      unfold Driver.main, bind, read_input, console_log, modify in Hrun.
      fold (input_file entities) in Hrun. rewrite Hfile in Hrun.
      inversion Hrun. exists 2%nat. reflexivity.
    - destruct (script_effect Valid safeParse create conflict_key failure_key
                  entities Hframe fuel records (initial w) Hstart Hfile)
        as (_ & _ & _ & _ & _ & _ & _ & Hconsole).
      rewrite Hrun in Hconsole. cbn [fst snd] in Hconsole.
      exists 3%nat. rewrite (Hconsole Hresult). reflexivity. }
  split; intros Hrun.
  - exact (Hgeneric _ _ _ _ _ _ createUser_remote_only Hrun).
  - exact (Hgeneric _ _ _ _ _ _ createOrganization_remote_only Hrun).
Qed.

(** X4. When the input file cannot be read or parsed, the script ends with
    the error of the read. It has printed the first two lines of [main], the
    file it tried is [process.argv[2]] or else "<entities>.json", and nothing
    else has happened: no sleep, no request, no log entry. *)
Theorem unreadable_input_file (fuel : nat) (w : world) (error : jserror) :
  Driver.startup (initial w) = (Ok tt, initial w) ->
  (readJSON (nullish process_argv2 "users.json") = inl error ->
   exists st',
     IndexTs.script fuel (initial w) = (Throw error, st') /\
     trace st' = [EvReadFile (nullish process_argv2 "users.json")] /\
     console st' = take 2 (opening_lines "users") /\
     logfile st' = [] /\ migrated st' = 0 /\ alreadyExists st' = 0 /\
     remote st' = w) /\
  (readJSON (nullish process_argv2 "organizations.json") = inl error ->
   exists st',
     IndexOrgTs.script fuel (initial w) = (Throw error, st') /\
     trace st' = [EvReadFile (nullish process_argv2 "organizations.json")] /\
     console st' = take 2 (opening_lines "organizations") /\
     logfile st' = [] /\ migrated st' = 0 /\ alreadyExists st' = 0 /\
     remote st' = w).
Proof.
  intros Hstart. split; intros Hfile; eexists.
  - unfold IndexTs.script. rewrite script_proceeds by assumption.
    unfold Driver.main, bind, read_input, console_log, modify.
    change ("users" +:+ ".json") with "users.json". rewrite Hfile.
    repeat split; reflexivity.
  - unfold IndexOrgTs.script. rewrite script_proceeds by assumption.
    unfold Driver.main, bind, read_input, console_log, modify.
    change ("organizations" +:+ ".json") with "organizations.json".
    rewrite Hfile. repeat split; reflexivity.
Qed.

End MoreRuns.

Section MoreRuns2.
Context `{Platform}.

(** X5. An [OFFSET] that [parseInt] cannot read skips nothing, and a
    negative [OFFSET] counts from the end of the file: with -k the completed
    run of either script has handed over the last k records, and all of them
    when the file has fewer than k. *)
Theorem offset_not_a_count (fuel : nat) (w : world) (records : list json)
    (st' : state) :
  (readJSON (input_file "users") = inr records ->
   IndexTs.script fuel (initial w) = (Ok tt, st') ->
   (Driver.OFFSET = NaN -> processed (trace st') = records) /\
   (forall k, 0 < k -> Driver.OFFSET = Num (- k) ->
      processed (trace st')
        = drop (length records - Z.to_nat k) records)) /\
  (readJSON (input_file "organizations") = inr records ->
   IndexOrgTs.script fuel (initial w) = (Ok tt, st') ->
   (Driver.OFFSET = NaN -> processed (trace st') = records) /\
   (forall k, 0 < k -> Driver.OFFSET = Num (- k) ->
      processed (trace st')
        = drop (length records - Z.to_nat k) records)).
Proof.
  split; intros Hfile Hrun.
  - pose proof (script_processed _ _ _ _ _ _ createUser_remote_only
                  fuel records (initial w) st' Hfile Hrun) as Hprocessed.
    cbn [initial trace processed app] in Hprocessed.
    split.
    + intros Hoffset. rewrite Hprocessed, Hoffset. apply slice_NaN.
    + intros k Hk Hoffset. rewrite Hprocessed, Hoffset.
      apply slice_negative, Hk.
  - pose proof (script_processed _ _ _ _ _ _ createOrganization_remote_only
                  fuel records (initial w) st' Hfile Hrun) as Hprocessed.
    cbn [initial trace processed app] in Hprocessed.
    split.
    + intros Hoffset. rewrite Hprocessed, Hoffset. apply slice_NaN.
    + intros k Hk Hoffset. rewrite Hprocessed, Hoffset.
      apply slice_negative, Hk.
Qed.

(** X6. A script that passes its checks and reads a file without [null]
    entries always completes normally, and needs no second attempt on any
    record, when the creation call of the remote service never answers with
    429. *)
Theorem completes_without_rate_limit (fuel : nat) (w : world)
    (records : list json) :
  Driver.startup (initial w) = (Ok tt, initial w) ->
  Forall (fun record => record <> JNull) records ->
  (readJSON (input_file "users") = inr records ->
   users_never_rate_limited ->
   exists st', IndexTs.script (S fuel) (initial w) = (Ok tt, st')) /\
  (readJSON (input_file "organizations") = inr records ->
   organizations_never_rate_limited ->
   exists st', IndexOrgTs.script (S fuel) (initial w) = (Ok tt, st')).
Proof.
  intros Hstart Hrecords. split; intros Hfile Hnever.
  - exact (script_ends_without_rate_limit _ _ _ "userId" "userId" "users"
             createUser_remote_only
             (createUser_never_rate_limited Hnever)
             fuel records (initial w) Hstart Hfile Hrecords).
  - exact (script_ends_without_rate_limit _ _ _ "organizationId" "userId"
             "organizations" createOrganization_remote_only
             (createOrganization_never_rate_limited Hnever)
             fuel records (initial w) Hstart Hfile Hrecords).
Qed.

(** X7. However a run of either script ends, normally, with an error or
    still retrying, the already-exists counter equals the number of log
    entries with the status 422, and the log holds no entries beyond those
    and the permanent failures. *)
Theorem conflicts_match_the_log (fuel : nat) (w : world) :
  (let st' := snd (IndexTs.script fuel (initial w)) in
   alreadyExists st' = conflicts_logged (logfile st') /\
   Z.of_nat (length (logfile st'))
     = alreadyExists st' + permanent_failures (logfile st')) /\
  (let st' := snd (IndexOrgTs.script fuel (initial w)) in
   alreadyExists st' = conflicts_logged (logfile st') /\
   Z.of_nat (length (logfile st'))
     = alreadyExists st' + permanent_failures (logfile st')).
Proof.
  split; cbv zeta.
  - pose proof (script_ledger IndexTs.User IndexTs.safeParse
                  IndexTs.createUser "userId" "userId" "users"
                  createUser_remote_only fuel (initial w)) as Hledger.
    fold IndexTs.script in Hledger.
    change (conflicts_logged (logfile (initial w))) with 0 in Hledger.
    cbn [initial alreadyExists] in Hledger.
    rewrite log_length_split. lia.
  - pose proof (script_ledger IndexOrgTs.Organization IndexOrgTs.safeParse
                  IndexOrgTs.createOrganization
                  "organizationId" "userId" "organizations"
                  createOrganization_remote_only fuel (initial w)) as Hledger.
    fold IndexOrgTs.script in Hledger.
    change (conflicts_logged (logfile (initial w))) with 0 in Hledger.
    cbn [initial alreadyExists] in Hledger.
    rewrite log_length_split. lia.
Qed.

(** X8. [null] among the records that [main] takes from the file makes a
    normal completion impossible for either script: the [catch] clause reads
    [_id] of [null], the [TypeError] ends the run, and no summary is
    printed. *)
Theorem null_record_cannot_complete (fuel : nat) (w : world)
    (records : list json) :
  Driver.startup (initial w) = (Ok tt, initial w) ->
  In JNull (slice Driver.OFFSET records) ->
  (readJSON (input_file "users") = inr records ->
   fst (IndexTs.script fuel (initial w)) <> Ok tt /\
   console (snd (IndexTs.script fuel (initial w))) = opening_lines "users") /\
  (readJSON (input_file "organizations") = inr records ->
   fst (IndexOrgTs.script fuel (initial w)) <> Ok tt /\
   console (snd (IndexOrgTs.script fuel (initial w)))
     = opening_lines "organizations").
Proof.
  intros Hstart Hnull.
  assert (Hgeneric :
    forall Valid safeParse create conflict_key failure_key entities,
      (forall data, remote_only (create data)) ->
      (exists issues, safeParse JNull = inl issues) ->
      readJSON (input_file entities) = inr records ->
      let run := Driver.script Valid safeParse create conflict_key
                   failure_key entities fuel (initial w) in
      fst run <> Ok tt /\ console (snd run) = opening_lines entities).
  { intros Valid safeParse create conflict_key failure_key entities Hframe
      Hparse Hfile run.
    assert (Hends : fst run <> Ok tt).
    { subst run. rewrite (script_started _ _ _ _ _ _ _ _ _ Hstart Hfile).
      pose proof (main_loop_null Valid safeParse create conflict_key
                    failure_key fuel
                    (Z.of_nat (length (slice Driver.OFFSET records)))
                    (slice Driver.OFFSET records) 0
                    (started entities (initial w)) Hparse Hnull) as Hloop.
      destruct (Driver.main_loop _ _ _ _ _ _ _ _ _ _) as [[[]|error|] st1];
        cbn in *; congruence. }
    split; [exact Hends|].
    destruct (script_effect Valid safeParse create conflict_key failure_key
                entities Hframe fuel records (initial w) Hstart Hfile)
      as (_ & _ & _ & _ & _ & _ & _ & Hconsole).
    exact (Hconsole Hends). }
  split; intros Hfile.
  - apply (Hgeneric _ _ _ _ _ _ createUser_remote_only); [|exact Hfile].
    eexists. reflexivity.
  - apply (Hgeneric _ _ _ _ _ _ createOrganization_remote_only); [|exact Hfile].
    eexists. reflexivity.
Qed.

End MoreRuns2.

(** ** More on one record *)

Lemma status_is_false (error : jserror) (n : Z) :
  error_status error <> Some n -> status_is error n = false.
Proof.
  unfold status_is. destruct (error_status error) as [code|]; [|reflexivity].
  intros Hne. apply Z.eqb_neq. congruence.
Qed.

Section RetryEnds.
Context `{Platform}.
Variable Valid : Type.
Variable safeParse : json -> Zod.parsed Valid.
Variable create : Valid -> M string.
Variable conflict_key failure_key : string.
Hypothesis create_remote_only : forall data, remote_only (create data).

Local Abbreviation process :=
  (Driver.processToClerk Valid safeParse create conflict_key failure_key).

(** After m answers with 429, an answer with any other error ends the work
    on the record: one log entry, and one more conflict when the status is
    422. *)
Lemma retry_then_error (fuel m : nat) (record : json) (data : Valid)
    (error : jserror) (st : state) :
  (m < fuel)%nat ->
  safeParse record = inr data ->
  record <> JNull ->
  (forall j, (j < m)%nat ->
     exists limited,
       fst (create data (before_attempt create data j st)) = Throw limited /\
       error_status limited = Some 429) ->
  fst (create data (before_attempt create data m st)) = Throw error ->
  error_status error <> Some 429 ->
  exists st',
    process fuel record st = (Ok tt, st') /\
    migrated st' = migrated st /\
    alreadyExists st'
      = alreadyExists st + (if status_is error 422 then 1 else 0) /\
    logfile st' = logfile st ++
      [{| log_key := if status_is error 422 then conflict_key else failure_key;
          log_id := get record "_id"; log_error := error |}] /\
    sleeps (trace st') = sleeps (trace st) ++ replicate m Driver.RETRY_DELAY.
Proof.
  intros Hfuel Hparse Hnull Hlimited Hlast H429.
  apply status_is_false in H429.
  replace fuel with (m + S (fuel - S m))%nat by lia.
  rewrite (retry_chain _ _ _ conflict_key failure_key m _ record data st
             Hparse Hlimited).
  destruct (before_attempt_frame _ _ create_remote_only m data st)
    as (Hm & Ha & Hl & Hs).
  set (st_m := before_attempt create data m st) in *.
  destruct (create_remote_only data st_m)
    as [_ (Hm' & Ha' & Hl' & _ & _ & _ & events & Htrace & Hevents)].
  destruct (create data st_m) as [result st_end] eqn:Hcreate.
  cbn [fst snd] in *. subst result.
  assert (Hsleeps : sleeps (trace st_end)
                    = sleeps (trace st) ++ replicate m Driver.RETRY_DELAY).
  { rewrite Htrace, sleeps_app, (remote_events_no_sleep _ Hevents), Hs.
    apply app_nil_r. }
  destruct (status_is error 422) eqn:H422; eexists.
  - split; [eapply process_conflict; eassumption|].
    cbn. rewrite Hm', Ha', Hl', Hm, Ha, Hl. repeat split. exact Hsleeps.
  - split; [eapply process_failed; eassumption|].
    cbn. rewrite Hm', Ha', Hl', Hm, Ha, Hl. repeat split; [lia|exact Hsleeps].
Qed.

End RetryEnds.

Section MoreOutcomes.
Context `{Platform}.

(** X9. A creation that fails with an error other than 422 and 429, a
    network failure without status included, is not tried again: the function
    returns normally after that one creation request, both counters are
    unchanged, and the log has exactly one more entry with the error. For
    organizations too the entry names the record under the key "userId". *)
Theorem failure_is_logged_once (fuel : nat) (record : json)
    (error : jserror) (st st1 : state) :
  error_status error <> Some 422 ->
  error_status error <> Some 429 ->
  (forall userData,
     IndexTs.safeParse record = inr userData ->
     IndexTs.createUser userData st = (Throw error, st1) ->
     IndexTs.processUserToClerk (S fuel) record st
       = (Ok tt,
          logged {| log_key := "userId"; log_id := get record "_id";
                    log_error := error |} st1) /\
     (exists params, trace st1 = trace st ++ [EvCreateUser params]) /\
     migrated st1 = migrated st /\
     alreadyExists st1 = alreadyExists st /\
     logfile st1 = logfile st) /\
  (forall organizationData,
     IndexOrgTs.safeParse record = inr organizationData ->
     IndexOrgTs.createOrganization organizationData st = (Throw error, st1) ->
     IndexOrgTs.processOrganizationToClerk (S fuel) record st
       = (Ok tt,
          logged {| log_key := "userId"; log_id := get record "_id";
                    log_error := error |} st1) /\
     length (creation_requests (trace st1))
       = S (length (creation_requests (trace st))) /\
     sleeps (trace st1) = sleeps (trace st) /\
     migrated st1 = migrated st /\
     alreadyExists st1 = alreadyExists st /\
     logfile st1 = logfile st).
Proof.
  intros H422 H429.
  apply status_is_false in H422. apply status_is_false in H429.
  split.
  - intros userData Hparse Hcreate.
    destruct (createUser_request userData) as [params Hrequest].
    pose proof (createUser_remote_only userData st) as [_ Hstep].
    rewrite Hcreate in Hstep. cbn [snd] in Hstep.
    destruct Hstep as (Hm & Ha & Hl & _).
    split; [eapply process_failed; eauto using user_record_not_null|].
    split; [|auto].
    exists params.
    replace st1 with (snd (IndexTs.createUser userData st))
      by (rewrite Hcreate; reflexivity).
    rewrite Hrequest, remote_call_state. reflexivity.
  - intros organizationData Hparse Hcreate.
    destruct (createOrganization_requests organizationData st)
      as [creator Hrequests].
    pose proof (createOrganization_remote_only organizationData st)
      as [_ Hstep].
    rewrite Hcreate in Hrequests, Hstep. cbn [snd] in Hrequests, Hstep.
    destruct Hstep as (Hm & Ha & Hl & _ & _ & _ & events & Htrace & Hevents).
    split; [eapply process_failed; eauto using organization_record_not_null|].
    split; [rewrite Hrequests, length_app; cbn; lia|].
    split; [|auto].
    rewrite Htrace, sleeps_app, (remote_events_no_sleep _ Hevents).
    apply app_nil_r.
Qed.

(** X10. A record that is rate limited m times and then refused for good is
    counted once: after the m sleeps of [RETRY_DELAY] the function returns
    normally, the migrated counter is unchanged, the log has one more entry
    with the last error, and the already-exists counter has gone up exactly
    when that error has the status 422. *)
Theorem retry_then_refusal (fuel m : nat) (record : json) (error : jserror)
    (st : state) :
  (m < fuel)%nat ->
  error_status error <> Some 429 ->
  (forall userData,
     IndexTs.safeParse record = inr userData ->
     (forall j, (j < m)%nat ->
        exists limited,
          fst (IndexTs.createUser userData
                 (before_attempt IndexTs.createUser userData j st))
            = Throw limited /\
          error_status limited = Some 429) ->
     fst (IndexTs.createUser userData
            (before_attempt IndexTs.createUser userData m st))
       = Throw error ->
     exists st',
       IndexTs.processUserToClerk fuel record st = (Ok tt, st') /\
       migrated st' = migrated st /\
       alreadyExists st'
         = alreadyExists st + (if status_is error 422 then 1 else 0) /\
       logfile st' = logfile st ++
         [{| log_key := "userId"; log_id := get record "_id";
             log_error := error |}] /\
       sleeps (trace st')
         = sleeps (trace st) ++ replicate m Driver.RETRY_DELAY) /\
  (forall organizationData,
     IndexOrgTs.safeParse record = inr organizationData ->
     (forall j, (j < m)%nat ->
        exists limited,
          fst (IndexOrgTs.createOrganization organizationData
                 (before_attempt IndexOrgTs.createOrganization
                    organizationData j st))
            = Throw limited /\
          error_status limited = Some 429) ->
     fst (IndexOrgTs.createOrganization organizationData
            (before_attempt IndexOrgTs.createOrganization organizationData m st))
       = Throw error ->
     exists st',
       IndexOrgTs.processOrganizationToClerk fuel record st = (Ok tt, st') /\
       migrated st' = migrated st /\
       alreadyExists st'
         = alreadyExists st + (if status_is error 422 then 1 else 0) /\
       logfile st' = logfile st ++
         [{| log_key := if status_is error 422 then "organizationId"
                        else "userId";
             log_id := get record "_id"; log_error := error |}] /\
       sleeps (trace st')
         = sleeps (trace st) ++ replicate m Driver.RETRY_DELAY).
Proof.
  intros Hfuel H429. split.
  - intros userData Hparse Hlimited Hlast.
    destruct (retry_then_error IndexTs.User IndexTs.safeParse
                IndexTs.createUser "userId" "userId" createUser_remote_only
                fuel m record userData error st Hfuel Hparse
                (user_record_not_null _ _ Hparse) Hlimited Hlast H429)
      as (st' & Hrun & Hmigrated & Hexists & Hlog & Hsleeps).
    exists st'. repeat split; try assumption.
    rewrite Hlog. destruct (status_is error 422); reflexivity.
  - intros organizationData Hparse Hlimited Hlast.
    exact (retry_then_error IndexOrgTs.Organization IndexOrgTs.safeParse
             IndexOrgTs.createOrganization "organizationId" "userId"
             createOrganization_remote_only
             fuel m record organizationData error st Hfuel Hparse
             (organization_record_not_null _ _ Hparse) Hlimited Hlast H429).
Qed.

End MoreOutcomes.

(** ** The requests *)

Section Requests.
Context `{Platform}.

(** X11. [createUser] sends one creation request and ends as that request
    ends. Whether or not the password is sent, the request carries the
    same data: the [$oid] as external identifier, the address as the only
    e-mail address, the names as they are, the Mongo identifier and the two
    organization identifiers as private metadata, and as public metadata the
    role, the locale and the admin flag of the record, or
    "5be5659706b068f4f1f2dd53", "sv" and false where the record has none. *)
Theorem createUser_request_fields (userData : IndexTs.User) :
  exists params,
    (forall st,
       IndexTs.createUser userData st
         = remote_call (EvCreateUser params) (users_createUser params) st) /\
    Clerk.externalId params = Clerk.oid (IndexTs._id userData) /\
    Clerk.emailAddress params = [IndexTs.email userData] /\
    Clerk.firstName params = IndexTs.first_name userData /\
    Clerk.lastName params = IndexTs.last_name userData /\
    Clerk.privateMetadata params
      = {| Clerk.upm_mongoId := IndexTs._id userData;
           Clerk.upm_organizationId := IndexTs.organization_id userData;
           Clerk.upm_mobileOrganizationId :=
             IndexTs.mobile_organization_id userData |} /\
    Clerk.publicMetadata params
      = {| Clerk.roleId :=
             match IndexTs.role_id userData with
             | Some role => role
             | None => "5be5659706b068f4f1f2dd53"
             end;
           Clerk.locale :=
             match IndexTs.locale userData with
             | Some language => language
             | None => "sv"
             end;
           Clerk.superAdmin :=
             match IndexTs.super_admin userData with
             | Some flag => flag
             | None => false
             end |}.
Proof.
  unfold IndexTs.createUser, IndexTs.clerk_users_createUser.
  destruct (_ && _); eexists; repeat split; reflexivity.
Qed.

(** X12. [createOrganization] first looks up the address of the record,
    reports a failed look-up on the error stream, and then sends one creation
    request whatever the look-up gave: for the name of the record, with the
    [$oid] in the private metadata, created by the first user found or by the
    empty string. It ends as the creation request ends and touches neither
    the counters nor the log. *)
Theorem createOrganization_steps (organizationData : IndexOrgTs.Organization)
    (st : state) :
  let email := IndexOrgTs.email organizationData in
  let found := users_getUserList email (remote st) in
  let params :=
    {| Clerk.name := IndexOrgTs.organization_name organizationData;
       Clerk.createdBy :=
         match fst found with
         | inr (first :: _) => Clerk.id first
         | _ => ""
         end;
       Clerk.org_privateMetadata :=
         {| Clerk.opm_mongoId := IndexOrgTs._id organizationData;
            Clerk.opm_external_id :=
              Clerk.oid (IndexOrgTs._id organizationData) |} |} in
  let created := organizations_createOrganization params (snd found) in
  let run := IndexOrgTs.createOrganization organizationData st in
  fst run
    = match fst created with
      | inl error => Throw error
      | inr remoteId => Ok remoteId
      end /\
  remote (snd run) = snd created /\
  trace (snd run)
    = trace st ++ [EvGetUserList email] ++
      match fst found with
      | inl error => [EvConsoleError "Error fetching user:" error]
      | inr _ => []
      end ++ [EvCreateOrganization params] /\
  migrated (snd run) = migrated st /\
  alreadyExists (snd run) = alreadyExists st /\
  logfile (snd run) = logfile st.
Proof.
  cbv zeta.
  unfold IndexOrgTs.createOrganization, IndexOrgTs.getUserByEmail, bind,
    try_catch, remote_call, console_error, emit, modify, ret.
  destruct (users_getUserList (IndexOrgTs.email organizationData) (remote st))
    as [[error|[|first others]] w1]; cbn [fst snd answered recorded remote].
  all: destruct (organizations_createOrganization _ w1)
         as [[failure|remoteId] w2]; cbn.
  all: rewrite <- ?app_assoc; repeat split; reflexivity.
Qed.

End Requests.

(** ** More on the start-up checks *)

Lemma split_without_separator (sep : ascii) (s : string) :
  contains sep s = false -> split sep s = [s].
Proof.
  induction s as [|c rest IH]; cbn [split contains]; [reflexivity|].
  intros Hnone. apply orb_false_elim in Hnone as [Hc Hrest].
  rewrite Hc, (IH Hrest). reflexivity.
Qed.

Lemma split_at_separator (sep : ascii) (before after : string) :
  contains sep before = false ->
  split sep (before +:+ String sep after) = before :: split sep after.
Proof.
  induction before as [|c rest IH]; simpl.
  - intros _. rewrite Ascii.eqb_refl. reflexivity.
  - intros Hnone. apply orb_false_elim in Hnone as [Hc Hrest].
    rewrite Hc, (IH Hrest). reflexivity.
Qed.

Lemma split_never_empty (sep : ascii) (s : string) : split sep s <> [].
Proof.
  destruct s as [|c rest]; cbn [split]; [discriminate|].
  destruct (Ascii.eqb c sep); [discriminate|].
  destruct (split sep rest); discriminate.
Qed.

Section MoreStartUp.
Context `{Platform}.

(** The outcome of the checks when they fail, by case. *)
Lemma startup_refusals (st : state) :
  (process_env !! "CLERK_SECRET_KEY" = None \/
   process_env !! "CLERK_SECRET_KEY" = Some "" ->
   Driver.startup st = (Throw (Error Driver.key_required), st)) /\
  (forall secret,
     process_env !! "CLERK_SECRET_KEY" = Some secret ->
     secret <> "" ->
     split "_" secret !! 1%nat <> Some "live" ->
     process_env !! "IMPORT_TO_DEV_INSTANCE" = None \/
     process_env !! "IMPORT_TO_DEV_INSTANCE" = Some "false" ->
     Driver.startup st = (Throw (Error Driver.key_for_development), st)).
Proof.
  unfold Driver.startup, Driver.SECRET_KEY, Driver.IMPORT_TO_DEV,
    Driver.not_live, nullish.
  split.
  - intros [-> | ->]; reflexivity.
  - intros secret -> Hsecret Hdev Hflag.
    destruct (String.eqb_spec secret ""); [congruence|].
    assert (Hnot : match split "_" secret !! 1%nat with
                   | Some segment => negb (String.eqb segment "live")
                   | None => true
                   end = true).
    { destruct (split "_" secret !! 1%nat) as [segment|]; [|reflexivity].
      destruct (String.eqb_spec segment "live"); [congruence|reflexivity]. }
    rewrite Hnot. destruct Hflag as [-> | ->]; reflexivity.
Qed.

(** X13. The two checks have a message each and an order. Without a key,
    or with an empty one, either script ends with "CLERK_SECRET_KEY is
    required. ..." whatever the flag says; with a key that is not a live key
    and no leave to import into a development instance it ends with "The
    Clerk Secret Key provided is for a development instance. ...". *)
Theorem startup_messages (fuel : nat) (w : world) :
  (process_env !! "CLERK_SECRET_KEY" = None \/
   process_env !! "CLERK_SECRET_KEY" = Some "" ->
   IndexTs.script fuel (initial w)
     = (Throw (Error "CLERK_SECRET_KEY is required. Please copy .env.example to .env and add your key."),
        initial w) /\
   IndexOrgTs.script fuel (initial w)
     = (Throw (Error Driver.key_required), initial w)) /\
  (forall secret,
     process_env !! "CLERK_SECRET_KEY" = Some secret ->
     secret <> "" ->
     split "_" secret !! 1%nat <> Some "live" ->
     process_env !! "IMPORT_TO_DEV_INSTANCE" = None \/
     process_env !! "IMPORT_TO_DEV_INSTANCE" = Some "false" ->
     IndexTs.script fuel (initial w)
       = (Throw (Error Driver.key_for_development), initial w) /\
     IndexOrgTs.script fuel (initial w)
       = (Throw (Error Driver.key_for_development), initial w)).
Proof.
  destruct (startup_refusals (initial w)) as [Hrequired Hdevelopment].
  split.
  - intros Hkey. specialize (Hrequired Hkey).
    split; apply script_refused; exact Hrequired.
  - intros secret Hkey Hsecret Hdev Hflag.
    specialize (Hdevelopment secret Hkey Hsecret Hdev Hflag).
    split; apply script_refused; exact Hdevelopment.
Qed.

(** X14. What the checks take for a live key, and what for the leave to
    import into a development instance. A key is live when "live" is exactly
    its second piece between underscores: [p_live] and [p_live_...] pass
    whatever the flag, for any [p] without underscore. A key without any
    underscore is a development key. And every value of
    [IMPORT_TO_DEV_INSTANCE] other than the word "false" lets any non-empty
    key pass. *)
Theorem key_and_flag_recognition (st : state) (secret : string) :
  process_env !! "CLERK_SECRET_KEY" = Some secret ->
  secret <> "" ->
  (forall prefix rest,
     contains "_" prefix = false ->
     secret = prefix +:+ "_live" +:+ rest ->
     rest = "" \/ (exists more, rest = "_" +:+ more) ->
     Driver.startup st = (Ok tt, st)) /\
  (contains "_" secret = false ->
   process_env !! "IMPORT_TO_DEV_INSTANCE" = None \/
   process_env !! "IMPORT_TO_DEV_INSTANCE" = Some "false" ->
   Driver.startup st = (Throw (Error Driver.key_for_development), st)) /\
  (forall value,
     process_env !! "IMPORT_TO_DEV_INSTANCE" = Some value ->
     value <> "false" ->
     Driver.startup st = (Ok tt, st)).
Proof.
  intros Hkey Hsecret. split; [|split].
  - intros prefix rest Hprefix -> Hrest.
    apply startup_passes_iff. eexists. split; [exact Hkey|].
    split; [exact Hsecret|]. left.
    change (prefix +:+ "_live" +:+ rest)
      with (prefix +:+ String "_" ("live" +:+ rest)).
    rewrite (split_at_separator "_" prefix _ Hprefix).
    destruct Hrest as [->|[more ->]].
    + reflexivity.
    + change ("live" +:+ "_" +:+ more) with ("live" +:+ String "_" more).
      rewrite (split_at_separator "_" "live" more eq_refl). reflexivity.
  - intros Hnone Hflag.
    apply (proj2 (startup_refusals st) secret Hkey Hsecret); [|exact Hflag].
    rewrite (split_without_separator "_" secret Hnone). discriminate.
  - intros value Hflag Hvalue.
    apply startup_passes_iff. exists secret. split; [exact Hkey|].
    split; [exact Hsecret|]. right. exists value. auto.
Qed.

End MoreStartUp.

(** ** The schemas *)

Section SchemaFields.
Import Zod.

Lemma ap_inr {A B} (f : parsed (A -> B)) (x : parsed A) (b : B) :
  ap f x = inr b <-> exists g a, f = inr g /\ x = inr a /\ b = g a.
Proof.
  split.
  - destruct f as [issues|g], x as [more|a]; cbn; try discriminate.
    intros [= <-]. eauto.
  - intros (g & a & -> & -> & ->). reflexivity.
Qed.

Lemma field_string (path : list string) (fields : list (string * json))
    (key s : string) :
  field z_string path fields key = inr s <-> reads_string (assoc key fields) s.
Proof.
  unfold field, z_string, reads_string.
  destruct (assoc key fields) as [[]|]; split; intros Heq;
    try discriminate; congruence.
Qed.

Lemma field_optional_string (path : list string)
    (fields : list (string * json)) (key : string) (o : option string) :
  field (z_optional z_string) path fields key = inr o <->
  reads_optional_string (assoc key fields) o.
Proof.
  unfold field, z_optional, z_string, reads_optional_string.
  destruct (assoc key fields) as [[]|]; split; intros Heq;
    try discriminate; try contradiction; congruence.
Qed.

Lemma field_optional_boolean (path : list string)
    (fields : list (string * json)) (key : string) (o : option bool) :
  field (z_optional z_boolean) path fields key = inr o <->
  reads_optional_boolean (assoc key fields) o.
Proof.
  unfold field, z_optional, z_boolean, reads_optional_boolean.
  destruct (assoc key fields) as [[]|]; split; intros Heq;
    try discriminate; try contradiction; congruence.
Qed.

Lemma field_mongoId (path : list string) (fields : list (string * json))
    (key : string) (m : Clerk.MongoId) :
  field z_mongoId path fields key = inr m <->
  reads_mongoId (assoc key fields) m.
Proof.
  unfold field, z_mongoId, z_object, reads_mongoId.
  destruct (assoc key fields) as [[| | | | |inner]|].
  1-5,7: split; [discriminate|intros (? & ? & _); discriminate].
  rewrite ap_inr. split.
  - intros (g & s & [= <-] & Hs & ->). apply field_string in Hs.
    exists inner. split; [reflexivity|exact Hs].
  - intros (inner' & [= <-] & Hoid). destruct m as [oid]. cbn in Hoid.
    exists Clerk.Build_MongoId, oid. repeat split.
    apply field_string. exact Hoid.
Qed.

Lemma field_email `{Platform} (path : list string)
    (fields : list (string * json)) (key s : string) :
  field z_email path fields key = inr s <->
  reads_string (assoc key fields) s /\ zod_email s = true.
Proof.
  unfold field, z_email, z_string, reads_string.
  destruct (assoc key fields) as [[| | |text| |]|].
  1-3,5-7: split; [discriminate|intros [? _]; discriminate].
  destruct (zod_email text) eqn:Hemail; split.
  - intros [= <-]. auto.
  - intros [[= <-] _]. reflexivity.
  - discriminate.
  - intros [[= <-] Hs]. congruence.
Qed.

End SchemaFields.

Section Schemas.
Context `{Platform}.

(** X15. [organizationSchema] accepts exactly the objects with an [_id]
    object whose [$oid] is a string, a string [organization_name] and a
    string [email], and the parsed organization holds those three strings.
    The address is not checked for its form. *)
Theorem organization_schema_accepts (record : json)
    (organizationData : IndexOrgTs.Organization) :
  IndexOrgTs.safeParse record = inr organizationData <->
  exists fields,
    record = JObj fields /\
    reads_mongoId (assoc "_id" fields) (IndexOrgTs._id organizationData) /\
    reads_string (assoc "organization_name" fields)
      (IndexOrgTs.organization_name organizationData) /\
    reads_string (assoc "email" fields) (IndexOrgTs.email organizationData).
Proof.
  unfold IndexOrgTs.safeParse, IndexOrgTs.organizationSchema, Zod.z_object.
  split.
  - destruct record as [| | | | |fields]; try discriminate.
    intros Hparse. exists fields. split; [reflexivity|].
    apply ap_inr in Hparse as (g3 & email & Hparse & Hemail & ->).
    apply ap_inr in Hparse as (g2 & name & Hparse & Hname & ->).
    apply ap_inr in Hparse as (g1 & id & [= <-] & Hid & ->).
    apply field_mongoId in Hid. apply field_string in Hname, Hemail.
    cbn. auto.
  - intros (fields & -> & Hid & Hname & Hemail).
    destruct organizationData as [id name email]. cbn in *.
    apply (field_mongoId []) in Hid.
    apply (field_string []) in Hname, Hemail.
    rewrite Hid, Hname, Hemail. reflexivity.
Qed.

(** X16. [userSchema] accepts exactly the objects with an [_id] object
    whose [$oid] is a string, a string [email] that passes zod's e-mail
    check, and for each of the nine optional keys either no entry or an entry
    of the right type (a string, a boolean for [super_admin]); the parsed
    user holds exactly those values. An optional key with any other value,
    [null] included, makes the record invalid. *)
Theorem user_schema_accepts (record : json) (userData : IndexTs.User) :
  IndexTs.safeParse record = inr userData <->
  exists fields,
    record = JObj fields /\
    reads_mongoId (assoc "_id" fields) (IndexTs._id userData) /\
    (reads_string (assoc "email" fields) (IndexTs.email userData) /\
     zod_email (IndexTs.email userData) = true) /\
    reads_optional_string (assoc "first_name" fields)
      (IndexTs.first_name userData) /\
    reads_optional_string (assoc "last_name" fields)
      (IndexTs.last_name userData) /\
    reads_optional_string (assoc "phone" fields) (IndexTs.phone userData) /\
    reads_optional_string (assoc "password" fields)
      (IndexTs.password userData) /\
    reads_optional_string (assoc "organization_id" fields)
      (IndexTs.organization_id userData) /\
    reads_optional_string (assoc "locale" fields) (IndexTs.locale userData) /\
    reads_optional_string (assoc "mobile_organization_id" fields)
      (IndexTs.mobile_organization_id userData) /\
    reads_optional_string (assoc "role_id" fields)
      (IndexTs.role_id userData) /\
    reads_optional_boolean (assoc "super_admin" fields)
      (IndexTs.super_admin userData).
Proof.
  unfold IndexTs.safeParse, IndexTs.userSchema, Zod.z_object.
  split.
  - destruct record as [| | | | |fields]; try discriminate.
    intros Hparse. exists fields. split; [reflexivity|].
    apply ap_inr in Hparse as (g11 & admin & Hparse & Hadmin & ->).
    apply ap_inr in Hparse as (g10 & role & Hparse & Hrole & ->).
    apply ap_inr in Hparse as (g9 & mobile & Hparse & Hmobile & ->).
    apply ap_inr in Hparse as (g8 & language & Hparse & Hlanguage & ->).
    apply ap_inr in Hparse as (g7 & org & Hparse & Horg & ->).
    apply ap_inr in Hparse as (g6 & pw & Hparse & Hpw & ->).
    apply ap_inr in Hparse as (g5 & phone & Hparse & Hphone & ->).
    apply ap_inr in Hparse as (g4 & last & Hparse & Hlast & ->).
    apply ap_inr in Hparse as (g3 & first & Hparse & Hfirst & ->).
    apply ap_inr in Hparse as (g2 & email & Hparse & Hemail & ->).
    apply ap_inr in Hparse as (g1 & id & [= <-] & Hid & ->).
    apply field_mongoId in Hid. apply field_email in Hemail.
    apply field_optional_string in Hfirst, Hlast, Hphone, Hpw, Horg,
      Hlanguage, Hmobile, Hrole.
    apply field_optional_boolean in Hadmin.
    cbn. repeat split; tauto.
  - intros (fields & -> & Hid & Hemail & Hfirst & Hlast & Hphone & Hpw & Horg
            & Hlanguage & Hmobile & Hrole & Hadmin).
    destruct userData
      as [id email first last phone pw org language mobile role admin].
    cbn in *.
    apply (field_mongoId []) in Hid. apply (field_email []) in Hemail.
    apply (field_optional_string []) in Hfirst, Hlast, Hphone, Hpw, Horg,
      Hlanguage, Hmobile, Hrole.
    apply (field_optional_boolean []) in Hadmin.
    rewrite Hid, Hemail, Hfirst, Hlast, Hphone, Hpw, Horg, Hlanguage, Hmobile,
      Hrole, Hadmin.
    reflexivity.
Qed.

(** X17. Entries under keys that a schema does not name never matter: two
    objects that agree on the keys of the schema are parsed alike, to the
    same value or to the same issues. *)
Theorem unknown_keys_are_ignored (fields fields' : list (string * json)) :
  (Forall (fun key => assoc key fields' = assoc key fields) user_keys ->
   IndexTs.safeParse (JObj fields') = IndexTs.safeParse (JObj fields)) /\
  (Forall (fun key => assoc key fields' = assoc key fields) organization_keys ->
   IndexOrgTs.safeParse (JObj fields') = IndexOrgTs.safeParse (JObj fields)).
Proof.
  split; intros Hsame.
  - unfold IndexTs.safeParse, IndexTs.userSchema, Zod.z_object, Zod.field.
    unfold user_keys in Hsame.
    repeat match goal with
           | Hall : Forall _ (_ :: _) |- _ =>
               let Hkey := fresh "Hkey" in
               let Hrest := fresh "Hrest" in
               apply Forall_cons in Hall as [Hkey Hrest]; rewrite Hkey
           end.
    reflexivity.
  - unfold IndexOrgTs.safeParse, IndexOrgTs.organizationSchema, Zod.z_object,
      Zod.field.
    unfold organization_keys in Hsame.
    repeat match goal with
           | Hall : Forall _ (_ :: _) |- _ =>
               let Hkey := fresh "Hkey" in
               let Hrest := fresh "Hrest" in
               apply Forall_cons in Hall as [Hkey Hrest]; rewrite Hkey
           end.
    reflexivity.
Qed.

End Schemas.

(** ** Look-ups and the order of the log *)

Lemma lookup_requests_app (xs ys : list event) :
  lookup_requests (xs ++ ys) = lookup_requests xs ++ lookup_requests ys.
Proof.
  induction xs as [|ev xs IH]; cbn; [reflexivity|].
  destruct ev; rewrite ?IH; reflexivity.
Qed.

Section LogOrder.
Context `{Platform}.
Variable Valid : Type.
Variable safeParse : json -> Zod.parsed Valid.
Variable create : Valid -> M string.
Variable conflict_key failure_key entities : string.
Hypothesis create_remote_only : forall data, remote_only (create data).

Local Abbreviation process :=
  (Driver.processToClerk Valid safeParse create conflict_key failure_key).
Local Abbreviation main_loop :=
  (Driver.main_loop Valid safeParse create conflict_key failure_key).
Local Abbreviation script :=
  (Driver.script Valid safeParse create conflict_key failure_key entities).

(** The trace of the work on a record whose attempt number m is the first
    that is not answered with 429. *)
Lemma retry_final_trace (fuel m : nat) (record : json) (data : Valid)
    (st : state) :
  (m < fuel)%nat ->
  safeParse record = inr data ->
  (forall j, (j < m)%nat ->
     exists limited,
       fst (create data (before_attempt create data j st)) = Throw limited /\
       error_status limited = Some 429) ->
  (forall error,
     fst (create data (before_attempt create data m st)) = Throw error ->
     error_status error <> Some 429) ->
  trace (snd (process fuel record st))
    = trace (snd (create data (before_attempt create data m st))).
Proof.
  intros Hfuel Hparse Hlimited Hlast.
  replace fuel with (m + S (fuel - S m))%nat by lia.
  rewrite (retry_chain _ _ _ conflict_key failure_key m _ record data st
             Hparse Hlimited).
  set (st_m := before_attempt create data m st) in *.
  destruct (create_remote_only data st_m) as [Hend _].
  destruct (create data st_m) as [[remoteId|error|] st_end] eqn:Hcreate;
    cbn [fst snd] in *; [| |congruence].
  - erewrite process_created by eassumption. reflexivity.
  - specialize (Hlast error eq_refl). apply status_is_false in Hlast.
    cbn [Driver.processToClerk].
    unfold bind, try_catch, get_spinner_text.
    rewrite Hparse, Hcreate, Hlast.
    destruct (status_is error 422); destruct record; reflexivity.
Qed.

(** The work on a record adds at most one entry to the log, under the
    [_id] of the record. *)
Lemma process_log (fuel : nat) (record : json) (st : state) :
  exists entries,
    logfile (snd (process fuel record st)) = logfile st ++ entries /\
    (entries = [] \/
     exists entry, entries = [entry] /\ log_id entry = get record "_id").
Proof.
  revert st. induction fuel as [|fuel IH]; intros st.
  - exists []. cbn. rewrite app_nil_r. auto.
  - destruct (safeParse record) as [issues|data] eqn:Hparse.
    + cbn [Driver.processToClerk].
      unfold bind, try_catch, get_spinner_text. rewrite Hparse. cbn.
      destruct record; cbn.
      1: exists []; rewrite app_nil_r; auto.
      all: eexists [_]; split; [reflexivity|right; eauto].
    + destruct (create_remote_only data st) as [Hend Hstep].
      destruct (create data st) as [[remoteId|error|] st1] eqn:Hcreate;
        cbn in Hend, Hstep; [| |congruence].
      all: destruct Hstep as (_ & _ & Hl & _).
      * erewrite process_created by eassumption. cbn.
        exists []. rewrite app_nil_r. auto.
      * destruct (status_is error 429) eqn:H429.
        { erewrite process_rate_limited by eassumption.
          destruct (IH (cooled_down (spinner_text st) st1))
            as (entries & Hlog & Hentries).
          exists entries. rewrite Hlog. cbn. rewrite Hl. auto. }
        cbn [Driver.processToClerk].
        unfold bind, try_catch, get_spinner_text.
        rewrite Hparse, Hcreate, H429.
        destruct (status_is error 422); destruct record; cbn; rewrite ?Hl.
        1,7: exists []; rewrite app_nil_r; auto.
        all: eexists [_]; split; [reflexivity|right; eauto].
Qed.

Lemma main_loop_log (fuel : nat) (total : Z) (records : list json) (i : Z)
    (st : state) :
  exists entries,
    logfile (snd (main_loop fuel total records i st)) = logfile st ++ entries /\
    sublist (map log_id entries)
            (map (fun record => get record "_id") records).
Proof.
  revert i st. induction records as [|record rest IH]; intros i st.
  - exists []. cbn. rewrite app_nil_r. split; [reflexivity|constructor].
  - rewrite main_loop_cons.
    destruct (process_log fuel record (handed_over record total i st))
      as (first & Hfirst & Hshape).
    assert (Hhead : sublist (map log_id first) [get record "_id"]).
    { destruct Hshape as [->|(entry & -> & Hid)]; cbn.
      - apply sublist_nil_l.
      - rewrite Hid. reflexivity. }
    destruct (process fuel record (handed_over record total i st))
      as [[[]|error|] st1]; cbn [snd] in *.
    + destruct (IH (i + 1) st1) as (entries & Hlog & Hsub).
      exists (first ++ entries). split.
      * rewrite Hlog, Hfirst. cbn. rewrite <- app_assoc. reflexivity.
      * rewrite map_app. cbn [map].
        change (get record "_id" :: map (fun r => get r "_id") rest)
          with ([get record "_id"] ++ map (fun r => get r "_id") rest).
        apply sublist_app; assumption.
    + exists first. split; [exact Hfirst|].
      cbn [map].
      change (get record "_id" :: map (fun r => get r "_id") rest)
        with ([get record "_id"] ++ map (fun r => get r "_id") rest).
      rewrite <- (app_nil_r (map log_id first)).
      apply sublist_app; [assumption|apply sublist_nil_l].
    + exists first. split; [exact Hfirst|].
      cbn [map].
      change (get record "_id" :: map (fun r => get r "_id") rest)
        with ([get record "_id"] ++ map (fun r => get r "_id") rest).
      rewrite <- (app_nil_r (map log_id first)).
      apply sublist_app; [assumption|apply sublist_nil_l].
Qed.

Lemma script_log (fuel : nat) (records : list json) (st : state) :
  readJSON (input_file entities) = inr records ->
  exists entries,
    logfile (snd (script fuel st)) = logfile st ++ entries /\
    sublist (map log_id entries)
            (map (fun record => get record "_id")
                 (slice Driver.OFFSET records)).
Proof.
  intros Hfile.
  destruct (startup_cases st) as [Hstart|[message Hstart]].
  2:{ rewrite (script_refused _ _ _ _ _ _ _ _ _ Hstart).
      exists []. cbn. rewrite app_nil_r. split; [reflexivity|].
      apply sublist_nil_l. }
  rewrite (script_started _ _ _ _ _ _ _ _ _ Hstart Hfile).
  match goal with
  | |- context [main_loop ?f ?t ?rs ?i ?s0] =>
      destruct (main_loop_log f t rs i s0) as (entries & Hlog & Hsub);
      destruct (main_loop f t rs i s0) as [[[]|error|] st1]
  end.
  all: exists entries; split; [exact Hlog|exact Hsub].
Qed.

End LogOrder.

Section LookupsAndLog.
Context `{Platform}.

Lemma createOrganization_lookups (organizationData : IndexOrgTs.Organization)
    (st : state) :
  lookup_requests
    (trace (snd (IndexOrgTs.createOrganization organizationData st)))
  = lookup_requests (trace st) ++ [IndexOrgTs.email organizationData].
Proof.
  unfold IndexOrgTs.createOrganization, IndexOrgTs.getUserByEmail, bind,
    try_catch, remote_call, console_error, emit, modify, ret.
  destruct (users_getUserList (IndexOrgTs.email organizationData) (remote st))
    as [[error|users] w1]; cbn [fst snd answered recorded remote].
  all: destruct (organizations_createOrganization _ w1)
         as [[failure|remoteId] w2]; cbn.
  all: rewrite !lookup_requests_app; cbn; rewrite ?app_nil_r; reflexivity.
Qed.

Lemma createOrganization_lookups_before (m : nat)
    (organizationData : IndexOrgTs.Organization) (st : state) :
  lookup_requests
    (trace (before_attempt IndexOrgTs.createOrganization organizationData m st))
  = lookup_requests (trace st)
    ++ replicate m (IndexOrgTs.email organizationData).
Proof.
  revert st. induction m as [|m IH]; intros st.
  - cbn. rewrite app_nil_r. reflexivity.
  - cbn [before_attempt]. rewrite IH.
    cbn [cooled_down with_spinner slept trace].
    rewrite lookup_requests_app, createOrganization_lookups. cbn.
    rewrite app_nil_r, <- app_assoc. reflexivity.
Qed.

(** X18. Every attempt on an organization looks the address up again. When
    the first m creation requests for a record are answered with 429 and the
    next one is not, the work on the record has sent m + 1 look-ups for the
    address of the record, one before each creation request. *)
Theorem every_attempt_looks_up_again (fuel m : nat) (record : json)
    (organizationData : IndexOrgTs.Organization) (st : state) :
  (m < fuel)%nat ->
  IndexOrgTs.safeParse record = inr organizationData ->
  (forall j, (j < m)%nat ->
     exists limited,
       fst (IndexOrgTs.createOrganization organizationData
              (before_attempt IndexOrgTs.createOrganization
                 organizationData j st))
         = Throw limited /\
       error_status limited = Some 429) ->
  (forall error,
     fst (IndexOrgTs.createOrganization organizationData
            (before_attempt IndexOrgTs.createOrganization organizationData m st))
       = Throw error ->
     error_status error <> Some 429) ->
  lookup_requests
    (trace (snd (IndexOrgTs.processOrganizationToClerk fuel record st)))
  = lookup_requests (trace st)
    ++ replicate (S m) (IndexOrgTs.email organizationData) /\
  length (creation_requests
            (trace (snd (IndexOrgTs.processOrganizationToClerk fuel record st))))
  = (length (creation_requests (trace st)) + S m)%nat.
Proof.
  intros Hfuel Hparse Hlimited Hlast.
  unfold IndexOrgTs.processOrganizationToClerk.
  rewrite (retry_final_trace _ _ _ "organizationId" "userId"
             createOrganization_remote_only fuel m record organizationData st
             Hfuel Hparse Hlimited Hlast).
  split.
  - rewrite createOrganization_lookups, createOrganization_lookups_before.
    rewrite <- app_assoc. f_equal.
    change (replicate m (IndexOrgTs.email organizationData)
            ++ [IndexOrgTs.email organizationData])
      with (replicate m (IndexOrgTs.email organizationData)
            ++ replicate 1 (IndexOrgTs.email organizationData)).
    rewrite <- replicate_add. f_equal. lia.
  - destruct (createOrganization_requests organizationData
                (before_attempt IndexOrgTs.createOrganization
                   organizationData m st)) as [creator ->].
    destruct (createOrganization_before_attempt m organizationData st)
      as (requests & -> & Hlength & _).
    rewrite !length_app, Hlength. cbn. lia.
Qed.

(** X19. The log follows the file. However a run of either script ends, the
    record identifiers of its log entries are, in this order, identifiers of
    records that [main] took from the file, each record giving at most one
    entry; so the log never has more entries than records were taken. *)
Theorem log_follows_the_file (fuel : nat) (w : world) (records : list json) :
  (readJSON (input_file "users") = inr records ->
   let st' := snd (IndexTs.script fuel (initial w)) in
   sublist (map log_id (logfile st'))
           (map (fun record => get record "_id")
                (slice Driver.OFFSET records)) /\
   (length (logfile st') <= length (slice Driver.OFFSET records))%nat) /\
  (readJSON (input_file "organizations") = inr records ->
   let st' := snd (IndexOrgTs.script fuel (initial w)) in
   sublist (map log_id (logfile st'))
           (map (fun record => get record "_id")
                (slice Driver.OFFSET records)) /\
   (length (logfile st') <= length (slice Driver.OFFSET records))%nat).
Proof.
  split; intros Hfile; cbv zeta.
  - destruct (script_log IndexTs.User IndexTs.safeParse IndexTs.createUser
                "userId" "userId" "users" createUser_remote_only
                fuel records (initial w) Hfile) as (entries & Hlog & Hsub).
    fold IndexTs.script in Hlog. rewrite Hlog. cbn [initial logfile app].
    split; [exact Hsub|].
    apply sublist_length in Hsub. rewrite !length_map in Hsub. exact Hsub.
  - destruct (script_log IndexOrgTs.Organization IndexOrgTs.safeParse
                IndexOrgTs.createOrganization
                "organizationId" "userId" "organizations"
                createOrganization_remote_only
                fuel records (initial w) Hfile) as (entries & Hlog & Hsub).
    fold IndexOrgTs.script in Hlog. rewrite Hlog. cbn [initial logfile app].
    split; [exact Hsub|].
    apply sublist_length in Hsub. rewrite !length_map in Hsub. exact Hsub.
Qed.

End LookupsAndLog.

(** ** The further properties on scripted runs *)

Section ScriptedMore.
Import Scenario.

(** X1 on one organization. *)
Lemma organization_accounting_witness :
  let run := @IndexOrgTs.script organizations_platform 5
               (@initial organizations_platform quiet_world) in
  fst run = Ok tt /\
  migrated (snd run) + alreadyExists (snd run)
    + permanent_failures (logfile (snd run)) = 1.
Proof.
  cbv zeta.
  assert (Hfile : @readJSON organizations_platform
                    (@input_file organizations_platform "organizations")
                  = inr [acme_record])
    by (vm_compute; reflexivity).
  assert (Hout : fst (@IndexOrgTs.script organizations_platform 5
                        (@initial organizations_platform quiet_world))
                 = Ok tt)
    by (vm_compute; reflexivity).
  split; [exact Hout|].
  rewrite (@organization_accounting organizations_platform 5 quiet_world
             [acme_record] _ Hfile (run_of_outcome _ _ Hout)).
  vm_compute. reflexivity.
Defined.

(** X2 on two organizations read from offset 1. *)
Lemma organization_run_shape_witness :
  let P := organizations_offset_platform "1" in
  let run := @IndexOrgTs.script P 5 (@initial P quiet_world) in
  fst run = Ok tt /\
  processed (trace (snd run)) = drop 1 two_organizations /\
  1 * 1000 <= clock (snd run).
Proof.
  cbv zeta.
  assert (Hfile : @readJSON (organizations_offset_platform "1")
                    (@input_file (organizations_offset_platform "1")
                       "organizations")
                  = inr two_organizations)
    by (vm_compute; reflexivity).
  assert (Hout : fst (@IndexOrgTs.script (organizations_offset_platform "1") 5
                        (@initial (organizations_offset_platform "1")
                           quiet_world))
                 = Ok tt)
    by (vm_compute; reflexivity).
  assert (Hdelay : @Driver.DELAY (organizations_offset_platform "1") = Num 1000)
    by (vm_compute; reflexivity).
  assert (Htimer : forall ms,
            0 <= @timer (organizations_offset_platform "1") ms).
  { intros ms. change (0 <= plain_timer ms). destruct ms; cbn; lia. }
  destruct (@organization_run_shape (organizations_offset_platform "1") 5
              quiet_world two_organizations _ Hfile (run_of_outcome _ _ Hout))
    as (Hprocessed & _ & Hclock).
  split; [exact Hout|]. split.
  - rewrite Hprocessed. vm_compute. reflexivity.
  - assert (Hlength : Z.of_nat
              (length (slice (@Driver.OFFSET (organizations_offset_platform "1"))
                         two_organizations)) = 1)
      by (vm_compute; reflexivity).
    rewrite <- Hlength.
    apply (Hclock 1000 Hdelay ltac:(lia) Htimer).
    change (1000 <= plain_timer (Num 1000)). cbn. lia.
Defined.

(** X3 on a file that starts with [null] and on a script without a key. *)
Lemma no_summary_without_completion_witness :
  (exists n,
     console (snd (@IndexTs.script null_platform 5
                     (@initial null_platform quiet_world)))
       = take n (@opening_lines null_platform "users")) /\
  (exists n,
     console (snd (@IndexOrgTs.script no_key_platform 5
                     (@initial no_key_platform quiet_world)))
       = take n (@opening_lines no_key_platform "organizations")).
Proof.
  split.
  - assert (Hout : fst (@IndexTs.script null_platform 5
                          (@initial null_platform quiet_world))
                   = Throw (TypeError
                       "Cannot read properties of null (reading '_id')"))
      by (vm_compute; reflexivity).
    apply (proj1 (@no_summary_without_completion null_platform 5 quiet_world
                    (Throw (TypeError
                       "Cannot read properties of null (reading '_id')"))
                    _ ltac:(discriminate))
             (run_of_outcome _ _ Hout)).
  - assert (Hout : fst (@IndexOrgTs.script no_key_platform 5
                          (@initial no_key_platform quiet_world))
                   = Throw (Error (@Driver.key_required)))
      by (vm_compute; reflexivity).
    apply (proj2 (@no_summary_without_completion no_key_platform 5 quiet_world
                    (Throw (Error (@Driver.key_required))) _
                    ltac:(discriminate))
             (run_of_outcome _ _ Hout)).
Defined.

(** X4 on a platform without the input file. *)
Lemma unreadable_input_file_witness :
  (exists st',
     @IndexTs.script missing_file_platform 5
       (@initial missing_file_platform quiet_world)
       = (Throw (Error "ENOENT: no such file or directory"), st') /\
     trace st' = [EvReadFile "users.json"] /\
     logfile st' = []) /\
  (exists st',
     @IndexOrgTs.script missing_file_platform 5
       (@initial missing_file_platform quiet_world)
       = (Throw (Error "ENOENT: no such file or directory"), st') /\
     trace st' = [EvReadFile "organizations.json"] /\
     logfile st' = []).
Proof.
  assert (Hstart := @startup_passes_of_outcome missing_file_platform
            (@initial missing_file_platform quiet_world)
            ltac:(vm_compute; reflexivity)).
  split.
  - destruct (proj1 (@unreadable_input_file missing_file_platform 5 quiet_world
                       (Error "ENOENT: no such file or directory") Hstart)
                ltac:(vm_compute; reflexivity))
      as (st' & Hrun & Htrace & _ & Hlog & _).
    exists st'. split; [exact Hrun|]. split; [exact Htrace|exact Hlog].
  - destruct (proj2 (@unreadable_input_file missing_file_platform 5 quiet_world
                       (Error "ENOENT: no such file or directory") Hstart)
                ltac:(vm_compute; reflexivity))
      as (st' & Hrun & Htrace & _ & Hlog & _).
    exists st'. split; [exact Hrun|]. split; [exact Htrace|exact Hlog].
Defined.

(** X5 with [OFFSET=two] and [OFFSET=-1] on the three users, and with
    [OFFSET=-1] on the two organizations. *)
Lemma offset_not_a_count_witness :
  (let P := unreadable_offset_platform in
   processed (trace (snd (@IndexTs.script P 5 (@initial P three_users_world))))
     = three_users) /\
  (let P := offset_platform "-1" in
   processed (trace (snd (@IndexTs.script P 5 (@initial P three_users_world))))
     = drop 2 three_users) /\
  (let P := organizations_offset_platform "-1" in
   processed (trace (snd (@IndexOrgTs.script P 5 (@initial P quiet_world))))
     = drop 1 two_organizations).
Proof.
  split; [|split]; cbv zeta.
  - assert (Hout : fst (@IndexTs.script unreadable_offset_platform 5
                          (@initial unreadable_offset_platform
                             three_users_world)) = Ok tt)
      by (vm_compute; reflexivity).
    apply (proj1 (proj1 (@offset_not_a_count unreadable_offset_platform 5
                           three_users_world three_users _)
                    ltac:(vm_compute; reflexivity)
                    (run_of_outcome _ _ Hout))).
    vm_compute. reflexivity.
  - assert (Hout : fst (@IndexTs.script (offset_platform "-1") 5
                          (@initial (offset_platform "-1")
                             three_users_world)) = Ok tt)
      by (vm_compute; reflexivity).
    apply (proj2 (proj1 (@offset_not_a_count (offset_platform "-1") 5
                           three_users_world three_users _)
                    ltac:(vm_compute; reflexivity)
                    (run_of_outcome _ _ Hout))
             1 ltac:(lia)).
    vm_compute. reflexivity.
  - assert (Hout : fst (@IndexOrgTs.script (organizations_offset_platform "-1")
                          5 (@initial (organizations_offset_platform "-1")
                               quiet_world)) = Ok tt)
      by (vm_compute; reflexivity).
    apply (proj2 (proj2 (@offset_not_a_count
                           (organizations_offset_platform "-1") 5
                           quiet_world two_organizations _)
                    ltac:(vm_compute; reflexivity)
                    (run_of_outcome _ _ Hout))
             1 ltac:(lia)).
    vm_compute. reflexivity.
Defined.

(** X6 on a remote service that answers creations with a conflict every
    second time and never with 429. *)
Lemma completes_without_rate_limit_witness :
  (exists st',
     @IndexTs.script (alternating_platform three_users) 1
       (@initial (alternating_platform three_users) true) = (Ok tt, st')) /\
  (exists st',
     @IndexOrgTs.script (alternating_platform two_organizations) 1
       (@initial (alternating_platform two_organizations) false)
       = (Ok tt, st')).
Proof.
  assert (Hnever : forall (w : bool) (error : jserror) (w' : bool),
            (if w then conflict else inr "created", negb w) = (inl error, w') ->
            error_status error <> Some 429).
  { intros [|] error w' Heq; inversion Heq. discriminate. }
  split.
  - apply (proj1 (@completes_without_rate_limit
                    (alternating_platform three_users) 0 true three_users
                    (@startup_passes_of_outcome
                       (alternating_platform three_users) _
                       ltac:(vm_compute; reflexivity))
                    ltac:(repeat constructor; discriminate))).
    + vm_compute. reflexivity.
    + intros params w error w'. apply Hnever.
  - apply (proj2 (@completes_without_rate_limit
                    (alternating_platform two_organizations) 0 false
                    two_organizations
                    (@startup_passes_of_outcome
                       (alternating_platform two_organizations) _
                       ltac:(vm_compute; reflexivity))
                    ltac:(repeat constructor; discriminate))).
    + vm_compute. reflexivity.
    + intros params w error w'. apply Hnever.
Defined.

(** X8 on a file that starts with [null]. *)
Lemma null_record_cannot_complete_witness :
  fst (@IndexTs.script null_platform 5 (@initial null_platform quiet_world))
    <> Ok tt /\
  fst (@IndexOrgTs.script null_platform 5 (@initial null_platform quiet_world))
    <> Ok tt.
Proof.
  assert (Hstart := @startup_passes_of_outcome null_platform
            (@initial null_platform quiet_world)
            ltac:(vm_compute; reflexivity)).
  assert (Hnull : In JNull
            (slice (@Driver.OFFSET null_platform)
               [JNull; user_record "a1" "ann@example.org"]))
    by (vm_compute; left; reflexivity).
  split.
  - apply (proj1 (@null_record_cannot_complete null_platform 5 quiet_world _
                    Hstart Hnull)).
    vm_compute. reflexivity.
  - apply (proj2 (@null_record_cannot_complete null_platform 5 quiet_world _
                    Hstart Hnull)).
    vm_compute. reflexivity.
Defined.

(** X9 on a user and on an organization whose creation fails with 500. *)
Lemma failure_is_logged_once_witness :
  (let st := @initial users_platform failing_world in
   exists st',
     @IndexTs.processUserToClerk users_platform 1 cy_record st = (Ok tt, st') /\
     map log_key (logfile st') = ["userId"]) /\
  (let st := @initial organizations_platform failing_world in
   exists st',
     @IndexOrgTs.processOrganizationToClerk organizations_platform 1
       acme_record st = (Ok tt, st') /\
     map log_key (logfile st') = ["userId"]).
Proof.
  assert (H422 : error_status (ApiError (Some 500) "Internal Server Error")
                 <> Some 422) by discriminate.
  assert (H429 : error_status (ApiError (Some 500) "Internal Server Error")
                 <> Some 429) by discriminate.
  split; cbv zeta.
  - assert (Hparse : @IndexTs.safeParse users_platform cy_record = inr cy)
      by (vm_compute; reflexivity).
    assert (Hcreate := run_of_outcome
              (@IndexTs.createUser users_platform cy
                 (@initial users_platform failing_world))
              (Throw (ApiError (Some 500) "Internal Server Error"))
              ltac:(vm_compute; reflexivity)).
    destruct (proj1 (@failure_is_logged_once users_platform 0 cy_record _ _ _
                       H422 H429) cy Hparse Hcreate)
      as (Hrun & _ & _ & _ & Hlog).
    eexists. split; [exact Hrun|].
    cbn [logged logfile]. rewrite Hlog. reflexivity.
  - assert (Hparse : IndexOrgTs.safeParse acme_record = inr acme)
      by (vm_compute; reflexivity).
    assert (Hcreate := run_of_outcome
              (@IndexOrgTs.createOrganization organizations_platform acme
                 (@initial organizations_platform failing_world))
              (Throw (ApiError (Some 500) "Internal Server Error"))
              ltac:(vm_compute; reflexivity)).
    destruct (proj2 (@failure_is_logged_once organizations_platform 0
                       acme_record _ _ _ H422 H429) acme Hparse Hcreate)
      as (Hrun & _ & _ & _ & _ & Hlog).
    eexists. split; [exact Hrun|].
    cbn [logged logfile]. rewrite Hlog. reflexivity.
Defined.

(** X10 on a user and on an organization that are rate limited twice and
    then exist already. *)
Lemma retry_then_refusal_witness :
  (let st := @initial users_platform limited_then_conflict_world in
   exists st',
     @IndexTs.processUserToClerk users_platform 3 cy_record st = (Ok tt, st') /\
     migrated st' = 0 /\ alreadyExists st' = 1 /\
     length (logfile st') = 1%nat) /\
  (let st := @initial organizations_platform limited_then_conflict_world in
   exists st',
     @IndexOrgTs.processOrganizationToClerk organizations_platform 3
       acme_record st = (Ok tt, st') /\
     migrated st' = 0 /\ alreadyExists st' = 1 /\
     map log_key (logfile st') = ["organizationId"]).
Proof.
  assert (H429 : error_status (ApiError (Some 422) "Unprocessable Entity")
                 <> Some 429) by discriminate.
  split; cbv zeta.
  - assert (Hparse : @IndexTs.safeParse users_platform cy_record = inr cy)
      by (vm_compute; reflexivity).
    assert (Hlimited : forall j, (j < 2)%nat ->
              exists limited,
                fst (@IndexTs.createUser users_platform cy
                       (before_attempt (@IndexTs.createUser users_platform) cy j
                          (@initial users_platform limited_then_conflict_world)))
                  = Throw limited /\
                error_status limited = Some 429).
    { intros [|[|j]] Hj; [| |lia].
      all: exists (ApiError (Some 429) "Too Many Requests").
      all: split; vm_compute; reflexivity. }
    destruct (proj1 (@retry_then_refusal users_platform 3 2 cy_record
                       (ApiError (Some 422) "Unprocessable Entity")
                       (@initial users_platform limited_then_conflict_world)
                       ltac:(lia) H429)
                cy Hparse Hlimited ltac:(vm_compute; reflexivity))
      as (st' & Hrun & Hmigrated & Hexists & Hlog & _).
    exists st'. split; [exact Hrun|].
    rewrite Hmigrated, Hexists, Hlog. repeat split; reflexivity.
  - assert (Hparse : IndexOrgTs.safeParse acme_record = inr acme)
      by (vm_compute; reflexivity).
    assert (Hlimited : forall j, (j < 2)%nat ->
              exists limited,
                fst (@IndexOrgTs.createOrganization organizations_platform acme
                       (before_attempt
                          (@IndexOrgTs.createOrganization organizations_platform)
                          acme j
                          (@initial organizations_platform
                             limited_then_conflict_world)))
                  = Throw limited /\
                error_status limited = Some 429).
    { intros [|[|j]] Hj; [| |lia].
      all: exists (ApiError (Some 429) "Too Many Requests").
      all: split; vm_compute; reflexivity. }
    destruct (proj2 (@retry_then_refusal organizations_platform 3 2 acme_record
                       (ApiError (Some 422) "Unprocessable Entity")
                       (@initial organizations_platform
                          limited_then_conflict_world)
                       ltac:(lia) H429)
                acme Hparse Hlimited ltac:(vm_compute; reflexivity))
      as (st' & Hrun & Hmigrated & Hexists & Hlog & _).
    exists st'. split; [exact Hrun|].
    rewrite Hmigrated, Hexists, Hlog. repeat split; reflexivity.
Defined.

(** X13 without a key and with a test key. *)
Lemma startup_messages_witness :
  @IndexTs.script no_key_platform 5 (@initial no_key_platform quiet_world)
    = (Throw (Error "CLERK_SECRET_KEY is required. Please copy .env.example to .env and add your key."),
       @initial no_key_platform quiet_world) /\
  @IndexOrgTs.script test_key_platform 5
    (@initial test_key_platform quiet_world)
    = (Throw (Error Driver.key_for_development),
       @initial test_key_platform quiet_world).
Proof.
  split.
  - apply (proj1 (@startup_messages no_key_platform 5 quiet_world)).
    left. vm_compute. reflexivity.
  - apply (proj2 (@startup_messages test_key_platform 5 quiet_world)
             "sk_test_abc").
    + vm_compute. reflexivity.
    + discriminate.
    + vm_compute. discriminate.
    + left. vm_compute. reflexivity.
Defined.

(** X14 on the keys [sk_live_abc] and [secret] and on the flag [0]. *)
Lemma key_and_flag_recognition_witness :
  @Driver.startup users_platform (@initial users_platform quiet_world)
    = (Ok tt, @initial users_platform quiet_world) /\
  @Driver.startup plain_key_platform (@initial plain_key_platform quiet_world)
    = (Throw (Error Driver.key_for_development),
       @initial plain_key_platform quiet_world) /\
  @Driver.startup flagged_platform (@initial flagged_platform quiet_world)
    = (Ok tt, @initial flagged_platform quiet_world).
Proof.
  split; [|split].
  - apply (proj1 (@key_and_flag_recognition users_platform
                    (@initial users_platform quiet_world) "sk_live_abc"
                    ltac:(vm_compute; reflexivity) ltac:(discriminate))
             "sk" "_abc").
    + reflexivity.
    + reflexivity.
    + right. exists "abc". reflexivity.
  - apply (proj1 (proj2 (@key_and_flag_recognition plain_key_platform
                           (@initial plain_key_platform quiet_world) "secret"
                           ltac:(vm_compute; reflexivity) ltac:(discriminate)))).
    + reflexivity.
    + left. vm_compute. reflexivity.
  - apply (proj2 (proj2 (@key_and_flag_recognition flagged_platform
                           (@initial flagged_platform quiet_world) "sk_test_abc"
                           ltac:(vm_compute; reflexivity) ltac:(discriminate)))
             "0").
    + vm_compute. reflexivity.
    + discriminate.
Defined.

(** X15 on the record of Acme. *)
Lemma organization_schema_accepts_witness :
  IndexOrgTs.safeParse acme_record = inr acme.
Proof.
  apply (proj2 (organization_schema_accepts acme_record acme)).
  eexists. split; [reflexivity|].
  split; [eexists; split; reflexivity|]. split; reflexivity.
Defined.

(** X16 on the record of Cy, and on the same record with a [null] phone. *)
Lemma user_schema_accepts_witness :
  @IndexTs.safeParse users_platform cy_record = inr cy /\
  @IndexTs.safeParse users_platform null_phone_record <> inr cy.
Proof.
  split.
  - apply (proj2 (@user_schema_accepts users_platform cy_record cy)).
    eexists. split; [reflexivity|].
    split; [eexists; split; reflexivity|].
    repeat split; reflexivity.
  - intros Hparse.
    apply (proj1 (@user_schema_accepts users_platform null_phone_record cy))
      in Hparse.
    destruct Hparse as (fields & [= <-] & _ & _ & _ & _ & Hphone & _).
    exact Hphone.
Defined.

(** X17 on the record of Cy with and without an entry that no schema
    names. *)
Lemma unknown_keys_are_ignored_witness :
  @IndexTs.safeParse users_platform annotated_record
    = @IndexTs.safeParse users_platform cy_record.
Proof.
  apply (proj1 (@unknown_keys_are_ignored users_platform
                  [("_id", JObj [("$oid", JStr "c3")]);
                   ("email", JStr "cy@example.org")]
                  [("_id", JObj [("$oid", JStr "c3")]);
                   ("legacy_flags", JNum 7);
                   ("email", JStr "cy@example.org")])).
  repeat constructor.
Defined.

(** X18 on an organization that is rate limited twice. *)
Lemma every_attempt_looks_up_again_witness :
  let st := @initial organizations_platform twice_limited_world in
  lookup_requests
    (trace (snd (@IndexOrgTs.processOrganizationToClerk organizations_platform
                   3 acme_record st)))
  = ["ann@example.org"; "ann@example.org"; "ann@example.org"].
Proof.
  cbv zeta.
  assert (Hparse : IndexOrgTs.safeParse acme_record = inr acme)
    by (vm_compute; reflexivity).
  assert (Hlimited : forall j, (j < 2)%nat ->
            exists limited,
              fst (@IndexOrgTs.createOrganization organizations_platform acme
                     (before_attempt
                        (@IndexOrgTs.createOrganization organizations_platform)
                        acme j
                        (@initial organizations_platform twice_limited_world)))
                = Throw limited /\
              error_status limited = Some 429).
  { intros [|[|j]] Hj; [| |lia].
    all: exists (ApiError (Some 429) "Too Many Requests").
    all: split; vm_compute; reflexivity. }
  assert (Hlast : forall error,
            fst (@IndexOrgTs.createOrganization organizations_platform acme
                   (before_attempt
                      (@IndexOrgTs.createOrganization organizations_platform)
                      acme 2
                      (@initial organizations_platform twice_limited_world)))
              = Throw error ->
            error_status error <> Some 429).
  { intros error Hthrow. vm_compute in Hthrow. discriminate. }
  rewrite (proj1 (@every_attempt_looks_up_again organizations_platform 3 2
                    acme_record acme
                    (@initial organizations_platform twice_limited_world)
                    ltac:(lia) Hparse Hlimited Hlast)).
  reflexivity.
Defined.

(** X19 on the three users. *)
Lemma log_follows_the_file_witness :
  let st' := snd (@IndexTs.script users_platform 5
                    (@initial users_platform three_users_world)) in
  sublist (map log_id (logfile st'))
          (map (fun record => get record "_id") three_users) /\
  (length (logfile st') <= 3)%nat.
Proof.
  cbv zeta.
  destruct (proj1 (@log_follows_the_file users_platform 5 three_users_world
                     three_users) ltac:(vm_compute; reflexivity))
    as [Hsub Hlength].
  split.
  - exact Hsub.
  - exact Hlength.
Defined.

(** C8 as stated fails under the timers of Node, which fire after one
    millisecond when the delay is above 2^31 - 1: with [DELAY_MS] set to
    2147483648 the run over the three users completes without any retry,
    every record is handed over after a sleep of that delay, and the clock
    shows 3 at the end, not 3 * 2147483648 or more. *)
Lemma throttle_bound_fails_for_long_delay :
  let P := long_delay_platform in
  let run := @IndexTs.script P 5 (@initial P quiet_world) in
  @readJSON P (@input_file P "users") = inr three_users /\
  @Driver.DELAY P = Num 2147483648 /\
  0 <= 2147483648 /\
  fst run = Ok tt /\
  processed (trace (snd run)) = three_users /\
  sleeps (trace (snd run))
    = [Num 2147483648; Num 2147483648; Num 2147483648] /\
  clock (snd run) = 3 /\
  ~ (Z.of_nat (length (processed (trace (snd run)))) * 2147483648
     <= clock (snd run)).
Proof.
  cbv zeta.
  assert (Hprocessed :
            processed (trace (snd (@IndexTs.script long_delay_platform 5
                                     (@initial long_delay_platform quiet_world))))
            = three_users)
    by (vm_compute; reflexivity).
  assert (Hclock :
            clock (snd (@IndexTs.script long_delay_platform 5
                          (@initial long_delay_platform quiet_world))) = 3)
    by (vm_compute; reflexivity).
  split; [vm_compute; reflexivity|].
  split; [vm_compute; reflexivity|].
  split; [lia|].
  split; [vm_compute; reflexivity|].
  split; [exact Hprocessed|].
  split; [vm_compute; reflexivity|].
  split; [exact Hclock|].
  rewrite Hprocessed, Hclock. cbn. lia.
Qed.

(** C8 on the three users with a timer that honours its delay, where the run
    completes, and on the file that opens with [null], where it ends with an
    error after the first record. *)
Lemma throttle_before_each_record_witness :
  (let P := users_platform in
   let run := @IndexTs.script P 5 (@initial P three_users_world) in
   fst run = Ok tt /\
   @Driver.DELAY P = Num 1000 /\
   (exists bodies,
      trace (snd run)
        = EvReadFile "users.json" :: blocks (Num 1000) three_users bodies /\
      Forall (fun body => forallb is_attempt body = true) bodies) /\
   processed (trace (snd run)) = three_users /\
   3 * 1000 <= clock (snd run)) /\
  (let P := null_platform in
   let run := @IndexTs.script P 5 (@initial P quiet_world) in
   fst run <> Ok tt /\
   (exists bodies,
      trace (snd run)
        = EvReadFile "users.json"
          :: blocks (Num 1000) [JNull; user_record "a1" "ann@example.org"]
               bodies /\
      processed (trace (snd run))
        = take (length bodies) [JNull; user_record "a1" "ann@example.org"]) /\
   processed (trace (snd run)) = [JNull] /\
   1 * 1000 <= clock (snd run)).
Proof.
  split; cbv zeta.
  - assert (Hfile : @readJSON users_platform (@input_file users_platform "users")
                    = inr three_users)
      by (vm_compute; reflexivity).
    assert (Hstart := @startup_passes_of_outcome users_platform
              (@initial users_platform three_users_world)
              ltac:(vm_compute; reflexivity)).
    assert (Hout : fst (@IndexTs.script users_platform 5
                          (@initial users_platform three_users_world))
                   = Ok tt)
      by (vm_compute; reflexivity).
    assert (Hdelay : @Driver.DELAY users_platform = Num 1000)
      by (vm_compute; reflexivity).
    assert (Htimer : forall ms, 0 <= @timer users_platform ms).
    { intros ms. change (0 <= plain_timer ms). destruct ms; cbn; lia. }
    assert (Hfire : 1000 <= @timer users_platform (Num 1000)).
    { change (1000 <= plain_timer (Num 1000)). cbn. lia. }
    pose proof (@throttle_before_each_record users_platform 5
                  three_users_world) as Hthrottle.
    cbv zeta in Hthrottle. destruct Hthrottle as [Hshape Hbound].
    destruct (Hshape three_users Hstart Hfile)
      as (bodies & Htrace & Hbodies & _ & _ & Hall).
    specialize (Hall Hout).
    assert (Hslice : @slice json (@Driver.OFFSET users_platform) three_users
                     = three_users)
      by (vm_compute; reflexivity).
    rewrite Hslice in Htrace, Hall. rewrite Hdelay in Htrace.
    split; [exact Hout|]. split; [exact Hdelay|].
    split; [exists bodies; split; [exact Htrace|exact Hbodies]|].
    split; [exact Hall|].
    specialize (Hbound 1000 Hdelay ltac:(lia) Htimer Hfire).
    rewrite Hall in Hbound. exact Hbound.
  - assert (Hfile : @readJSON null_platform (@input_file null_platform "users")
                    = inr [JNull; user_record "a1" "ann@example.org"])
      by (vm_compute; reflexivity).
    assert (Hstart := @startup_passes_of_outcome null_platform
              (@initial null_platform quiet_world)
              ltac:(vm_compute; reflexivity)).
    assert (Hout : fst (@IndexTs.script null_platform 5
                          (@initial null_platform quiet_world))
                   = Throw (TypeError
                              "Cannot read properties of null (reading '_id')"))
      by (vm_compute; reflexivity).
    assert (Hprocessed :
              processed (trace (snd (@IndexTs.script null_platform 5
                                       (@initial null_platform quiet_world))))
              = [JNull])
      by (vm_compute; reflexivity).
    assert (Hdelay : @Driver.DELAY null_platform = Num 1000)
      by (vm_compute; reflexivity).
    assert (Htimer : forall ms, 0 <= @timer null_platform ms).
    { intros ms. change (0 <= plain_timer ms). destruct ms; cbn; lia. }
    assert (Hfire : 1000 <= @timer null_platform (Num 1000)).
    { change (1000 <= plain_timer (Num 1000)). cbn. lia. }
    pose proof (@throttle_before_each_record null_platform 5 quiet_world)
      as Hthrottle.
    cbv zeta in Hthrottle. destruct Hthrottle as [Hshape Hbound].
    destruct (Hshape _ Hstart Hfile)
      as (bodies & Htrace & _ & _ & Htaken & _).
    assert (Hslice : @slice json (@Driver.OFFSET null_platform)
                       [JNull; user_record "a1" "ann@example.org"]
                     = [JNull; user_record "a1" "ann@example.org"])
      by (vm_compute; reflexivity).
    rewrite Hslice in Htrace, Htaken. rewrite Hdelay in Htrace.
    split; [rewrite Hout; discriminate|].
    split; [exists bodies; split; [exact Htrace|exact Htaken]|].
    split; [exact Hprocessed|].
    specialize (Hbound 1000 Hdelay ltac:(lia) Htimer Hfire).
    rewrite Hprocessed in Hbound. exact Hbound.
Defined.

End ScriptedMore.
